(** * EnvioMain: the fleet-status report pipeline

    A shallow embedding of [src/EnvioMain.py] (function [main]) and the
    properties of its record filter, exclusion-set builder and report
    renderer.

    The program is Python working on decoded JSON, so the embedding keeps
    the dynamic values: a [json] value is what [response.json()] returns,
    dictionary access is [dict.get], conditions are Python truthiness, and
    every operation that can raise returns in the [py] error monad. *)

From Stdlib Require Import ZArith Lia.
From stdpp Require Import base option countable strings list gmap pretty.

Set Warnings "-register-all,-clear-no-such-hyp".

(** ** Python values decoded from JSON *)

(** The value of a [float] (a binary64): a NaN, an infinity, a signed
    zero, or the nonzero dyadic [(-1)^neg * (2k+1) * 2^e], each finite
    value in exactly one way. *)
Inductive float : Type :=
  | FNaN
  | FInf (neg : bool)
  | FZero (neg : bool)
  | FFinite (neg : bool) (k : N) (e : Z).

(** [json.loads] yields [None], [bool], [int], [float], [str], [list] and
    [dict] (insertion ordered, keys distinct, the last duplicate wins). *)
Inductive json : Type :=
  | JNull
  | JBool (b : bool)
  | JInt (z : Z)
  | JFloat (f : float)
  | JStr (s : string)
  | JList (l : list json)
  | JObj (kv : list (string * json)).

(** The exceptions the modelled code can meet; all derive from
    [Exception], so every [except Exception] handler catches each one. *)
Inductive exn : Type :=
  | AttributeError
  | TypeError
  | ValueError
  | ParserError
  | ConnectionError
  | HTTPError
  | JSONDecodeError
  | KeyError
  | FileNotFoundError
  | SMTPException.

(** A computation that returns or raises. *)
Inductive py (A : Type) : Type :=
  | Ret (a : A)
  | Raise (e : exn).
Arguments Ret {A} a.
Arguments Raise {A} e.

#[global] Instance py_ret : MRet py := fun A a => Ret a.
#[global] Instance py_bind : MBind py := fun A B f m =>
  match m with
  | Ret a => f a
  | Raise e => Raise e
  end.

#[global] Instance py_fmap : FMap py := fun A B f m =>
  match m with
  | Ret a => Ret (f a)
  | Raise e => Raise e
  end.

(** [d.get(k)] on the items of a dict. *)
Fixpoint dict_lookup (k : string) (kv : list (string * json)) : option json :=
  match kv with
  | [] => None
  | (k', v) :: rest => if String.eqb k k' then Some v else dict_lookup k rest
  end.

(** [v is None]. *)
Definition is_None (v : json) : bool :=
  match v with
  | JNull => true
  | _ => false
  end.

(** [v.get(k, default)]: only a dict has the method [get]. *)
Definition py_get (v : json) (k : string) (default : json) : py json :=
  match v with
  | JObj kv => Ret (from_option id default (dict_lookup k kv))
  | _ => Raise AttributeError
  end.

(** [bool(v)], the test of [if v] and of [a or b]. A NaN is true. *)
Definition truthy (v : json) : bool :=
  match v with
  | JNull => false
  | JBool b => b
  | JInt z => negb (z =? 0)%Z
  | JFloat (FZero _) => false
  | JFloat _ => true
  | JStr s => negb (String.eqb s "")
  | JList l => negb (bool_decide (l = []))
  | JObj kv => negb (bool_decide (kv = []))
  end.

(** *** Equality and hashing of scalars

    Python compares numbers by value across [bool], [int] and [float]
    ([True == 1 == 1.0]) and hashes equal values alike, so a [set] keeps
    one member for them. A [num] is that common value: zero, an infinity,
    a NaN, or a nonzero dyadic [(-1)^neg * (2k+1) * 2^e]. *)
Inductive num : Type :=
  | NZero
  | NInf (neg : bool)
  | NNaN
  | NFinite (neg : bool) (k : N) (e : Z).

(** The odd part and the power of two of a positive integer:
    [p = (2k+1) * 2^e]. *)
Fixpoint odd_part (p : positive) : N * Z :=
  match p with
  | xH => (0%N, 0%Z)
  | xI q => (Npos q, 0%Z)
  | xO q => let '(k, e) := odd_part q in (k, Z.succ e)
  end.

Definition num_of_Z (z : Z) : num :=
  match z with
  | Z0 => NZero
  | Zpos p => let '(k, e) := odd_part p in NFinite false k e
  | Zneg p => let '(k, e) := odd_part p in NFinite true k e
  end.

Definition num_of_float (f : float) : num :=
  match f with
  | FNaN => NNaN
  | FInf neg => NInf neg
  | FZero _ => NZero
  | FFinite neg k e => NFinite neg k e
  end.

(** The key under which a [set] or a comparison sees a scalar; a list or
    a dict has none (it is unhashable). *)
Inductive hkey : Type :=
  | HNone
  | HStr (s : string)
  | HNum (n : num).

#[global] Instance num_eq_dec : EqDecision num.
Proof. solve_decision. Defined.

#[global] Instance hkey_eq_dec : EqDecision hkey.
Proof. solve_decision. Defined.

Definition hkey_encode (h : hkey)
  : unit + string + (unit + bool + unit + bool * N * Z) :=
  match h with
  | HNone => inl (inl tt)
  | HStr s => inl (inr s)
  | HNum NZero => inr (inl (inl (inl tt)))
  | HNum (NInf neg) => inr (inl (inl (inr neg)))
  | HNum NNaN => inr (inl (inr tt))
  | HNum (NFinite neg k e) => inr (inr (neg, k, e))
  end.

Definition hkey_decode (x : unit + string + (unit + bool + unit + bool * N * Z))
  : hkey :=
  match x with
  | inl (inl _) => HNone
  | inl (inr s) => HStr s
  | inr (inl (inl (inl _))) => HNum NZero
  | inr (inl (inl (inr neg))) => HNum (NInf neg)
  | inr (inl (inr _)) => HNum NNaN
  | inr (inr (neg, k, e)) => HNum (NFinite neg k e)
  end.

#[global] Instance hkey_countable : Countable hkey.
Proof.
  apply (inj_countable' hkey_encode hkey_decode).
  by intros [| s | [| neg | | neg k e]].
Defined.

Definition hash_key (v : json) : option hkey :=
  match v with
  | JNull => Some HNone
  | JBool b => Some (HNum (num_of_Z (if b then 1 else 0)))
  | JInt z => Some (HNum (num_of_Z z))
  | JFloat f => Some (HNum (num_of_float f))
  | JStr s => Some (HStr s)
  | JList _ | JObj _ => None
  end.

(** [a == b] where [b] is a scalar, the only comparisons the program
    makes (against the literal [0]). A NaN equals nothing; a list or a
    dict never equals a scalar. *)
Definition py_eq (a b : json) : bool :=
  match hash_key a, hash_key b with
  | Some (HNum NNaN), _ | _, Some (HNum NNaN) => false
  | Some ka, Some kb => bool_decide (ka = kb)
  | _, _ => false
  end.

(** [x in s] for a set [s] of scalars: hashing a list or a dict raises
    [TypeError]. A NaN is found like any other member: [json] decodes
    every NaN to the one float object it keeps for it, and membership
    tests identity before equality. *)
Definition set_contains (x : json) (s : gset hkey) : py bool :=
  match hash_key x with
  | None => Raise TypeError
  | Some k => Ret (bool_decide (k ∈ s))
  end.

(** [s.add(x)]. *)
Definition set_add (s : gset hkey) (x : json) : py (gset hkey) :=
  match hash_key x with
  | None => Raise TypeError
  | Some k => Ret ({[ k ]} ∪ s)
  end.

(** [for x in v]: a list yields its items, a dict its keys, a string its
    characters; anything else is not iterable. *)
Fixpoint chars (s : string) : list json :=
  match s with
  | EmptyString => []
  | String c rest => JStr (String c EmptyString) :: chars rest
  end.

Definition py_iter (v : json) : py (list json) :=
  match v with
  | JList l => Ret l
  | JObj kv => Ret (JStr <$> kv.*1)
  | JStr s => Ret (chars s)
  | _ => Raise TypeError
  end.

(** ** Time *)

(** An aware [datetime]: the civil fields in its own zone and the instant
    it denotes, in microseconds since the epoch. *)
Record datetime : Type := {
  dt_year : nat;
  dt_month : nat;
  dt_day : nat;
  dt_hour : nat;
  dt_minute : nat;
  dt_second : nat;
  dt_instant : Z
}.

(** [timedelta(hours=1)] in microseconds. *)
Definition one_hour : Z := 3600000000.

(** ** Classified rows *)

Inductive estatus : Type := DETENIDO | RUTA.

Definition estatus_str (e : estatus) : string :=
  match e with
  | DETENIDO => "DETENIDO"
  | RUTA => "RUTA"
  end.

(** The dict appended to [results]. ["Unidad"] and ["Ubicación"] hold
    whatever Python value the record carried. *)
Record fila : Type := {
  Unidad : json;
  Ubicación : json;
  Estatus : estatus
}.

Inductive level : Type := INFO | ERROR.

Definition log := list (level * string).

(** What a gate decides: the record goes on, or [continue]. *)
Inductive gate : Type := Pass | Drop.

(** ** The telemetry provider *)

(** What [requests.get] returned: the status code and the decoded body
    ([None] when the body is not JSON and [.json()] raises). The call
    itself raises on a transport error or a timeout: an [option]. *)
Record response : Type := {
  status_code : nat;
  body : option json
}.

Definition raise_for_status (r : response) : py unit :=
  if bool_decide (400 ≤ status_code r < 600) then Raise HTTPError else Ret tt.

Definition response_json (r : response) : py json :=
  match body r with
  | Some j => Ret j
  | None => Raise JSONDecodeError
  end.

(** [a[k]]. *)
Definition py_getitem (v : json) (k : string) : py json :=
  match v with
  | JObj kv => match dict_lookup k kv with
               | Some x => Ret x
               | None => Raise KeyError
               end
  | _ => Raise TypeError
  end.

(** ** The exclusion set (lines 109-134) *)

Definition predefined_special : gset hkey :=
  list_to_set (HStr <$>
    [ "254792506"; "254801835"; "254802150"; "254802588";
      "254803338"; "254859196"; "94193861"; "95243156";
      "95243200"; "95243316"; "95243513"; "244349505";
      "245970120"; "254794170"; "254794716"; "257477773" ]).

(** The set comprehension of lines 127-130, one address at a time:
    [a.get("id")] is the filter, [a["id"]] the member added. *)
Fixpoint collect_ids (addresses : list json) (acc : gset hkey)
  : py (gset hkey) :=
  match addresses with
  | [] => Ret acc
  | a :: rest =>
      c ← py_get a "id" JNull;
      if truthy c then
        ident ← py_getitem a "id";
        acc' ← set_add acc ident;
        collect_ids rest acc'
      else collect_ids rest acc
  end.

(** The iterable of the comprehension (lines 128-129). *)
Definition fetched_addresses (tags_json : json) : py (list json) :=
  data ← py_get tags_json "data" (JObj []);
  addresses ← py_get data "addresses" (JList []);
  py_iter addresses.

Definition new_ids (tags_json : json) : py (gset hkey) :=
  items ← fetched_addresses tags_json;
  collect_ids items ∅.

(** The body of the [try] of lines 117-131. *)
Definition obtener_ids (tags : option response) : py (gset hkey) :=
  match tags with
  | None => Raise ConnectionError
  | Some r =>
      _ ← raise_for_status r;
      tags_json ← response_json r;
      ids ← new_ids tags_json;
      mret (predefined_special ∪ ids)
  end.

(** The body of the [try] of lines 137-145. *)
Definition obtener_vehiculos (veh : option response) : py json :=
  match veh with
  | None => Raise ConnectionError
  | Some r =>
      _ ← raise_for_status r;
      veh_json ← response_json r;
      py_get veh_json "data" (JList [])
  end.

(** ** The spreadsheet (openpyxl) *)

(** [Border(left=thin, right=thin, top=thin, bottom=thin)] with
    [thin = Side(border_style="thin", color="000000")], or the default. *)
Inductive border_t : Type := DefaultBorder | ThinBlack.

(** A cell of a worksheet. [merged] marks the [MergedCell] placeholders
    that fill a merged range after its top-left cell: their value is
    [None] and read-only. [fill] is the colour of a solid [PatternFill],
    [font] the colour of a [Font]. *)
Record cell : Type := {
  value : json;
  border : border_t;
  fill : option string;
  font : option string;
  merged : bool
}.

Definition blank_cell : cell :=
  {| value := JNull; border := DefaultBorder; fill := None; font := None;
     merged := false |}.

Definition merged_cell : cell :=
  {| value := JNull; border := DefaultBorder; fill := None; font := None;
     merged := true |}.

Record cell_range : Type := {
  min_row : nat;
  min_col : nat;
  max_row : nat;
  max_col : nat
}.

#[global] Instance cell_range_eq_dec : EqDecision cell_range.
Proof. solve_decision. Defined.

(** The active sheet: its cells by (row, column), both from 1, and its
    merged ranges. *)
Record worksheet : Type := {
  cells : gmap (nat * nat) cell;
  merged_cells : list cell_range
}.

(** The coordinates of a range, row by row; the first is its top-left. *)
Definition range_cells (r : cell_range) : list (nat * nat) :=
  row ← seq (min_row r) (S (max_row r) - min_row r);
  col ← seq (min_col r) (S (max_col r) - min_col r);
  [(row, col)].

(** [ws._get_cell(row, column)]: the cell there, a fresh one if none. *)
Definition get_cell (ws : worksheet) (row col : nat) : cell :=
  default blank_cell (cells ws !! (row, col)).

Definition put_cell (ws : worksheet) (row col : nat) (c : cell) : worksheet :=
  {| cells := <[(row, col) := c]> (cells ws);
     merged_cells := merged_cells ws |}.

(** [ws.merge_cells(...)]: the range is recorded and every cell of it
    but the first becomes a [MergedCell]. *)
Definition merge_cells (ws : worksheet) (r : cell_range) : worksheet :=
  {| cells := foldl (fun m rc => <[rc := merged_cell]> m) (cells ws)
                (tail (range_cells r));
     merged_cells := merged_cells ws ++ [r] |}.

(** [ws.unmerge_cells(str(mr))] for a range [mr] of the sheet: the range
    is forgotten and its placeholders are deleted. *)
Definition unmerge_cells (ws : worksheet) (r : cell_range) : worksheet :=
  {| cells := foldl (fun m rc => delete rc m) (cells ws)
                (tail (range_cells r));
     merged_cells := filter (fun r' => r' ≠ r) (merged_cells ws) |}.

(** [cell.border = b], [cell.fill = f], [cell.font = f] on the cell that
    [ws.cell] returned. *)
Definition set_border (ws : worksheet) (row col : nat) (b : border_t)
  : worksheet :=
  let c := get_cell ws row col in
  put_cell ws row col
    {| value := value c; border := b; fill := fill c; font := font c;
       merged := merged c |}.

Definition set_fill_font (ws : worksheet) (row col : nat)
    (fill_color font_color : string) : worksheet :=
  let c := get_cell ws row col in
  put_cell ws row col
    {| value := value c; border := border c; fill := Some fill_color;
       font := Some font_color; merged := merged c |}.

Definition start_row : nat := 7.

Definition green_fill : string := "C6EFCE".
Definition green_font : string := "006100".
Definition red_fill : string := "FFC7CE".
Definition red_font : string := "9C0006".

(** ** Files *)

(** [base_dir / name]: a directory and the name of a file in it. *)
Definition path : Type := string * string.

Definition path_str (p : path) : string := p.1 +:+ "/" +:+ p.2.

(** What [main] can touch: the files (each an xlsx workbook, reduced to its
    active sheet), the log, and what was sent on each channel. *)
Record world : Type := {
  files : gmap path worksheet;
  logged : log;
  correos : list (string * worksheet);
  whatsapps : list (string * string)
}.

(** What the run reads from outside: the environment variables, the
    directory of the script, the two answers of the provider, the clock
    (read once, at line 152) and whether each later call succeeds. *)
Record entorno : Type := {
  SAMSARA_API_TOKEN : option string;
  DESTINOS : list string;
  base_dir : string;
  tags_of : option response;
  veh_of : option response;
  clock : datetime;
  smtp_ok : bool;
  whatsapp_ok : string -> bool;
  remove_ok : bool
}.

(** How [main] ends: it returns, it calls [sys.exit(code)], or an
    exception leaves it (the interpreter prints it and exits with 1). *)
Inductive fin : Type :=
  | Finalizado
  | Exit (code : nat)
  | Uncaught (e : exn).

(** ** A sample run

    Concrete inputs for the examples: a parser that reads three stamps,
    a [repr] for the values an f-string may meet, the storing rule of
    openpyxl on scalars, a template with the header of the table on row
    6, and the answers of the provider. *)

Definition ejemplo_now : datetime :=
  {| dt_year := 2024; dt_month := 3; dt_day := 7; dt_hour := 9;
     dt_minute := 5; dt_second := 30; dt_instant := 7200000000 |}.

Definition ejemplo_parse (s : string) : option Z :=
  if String.eqb s "2024-03-07T07:05:30-06:00" then Some 0%Z
  else if String.eqb s "2024-03-07T08:35:30-06:00" then Some 5400000000%Z
  else if String.eqb s "2024-03-07T08:05:30-06:00" then Some 3600000000%Z
  else None.

Definition ejemplo_repr (v : json) : string :=
  match v with
  | JFloat (FFinite false 19 (-1)) => "19.5"
  | JFloat (FFinite true 198 (-2)) => "-99.25"
  | _ => "[]"
  end.

Definition ejemplo_bind (v : json) : option json :=
  match v with
  | JList _ | JObj _ => None
  | _ => Some v
  end.

Definition texto (s : string) : cell :=
  {| value := JStr s; border := DefaultBorder; fill := None; font := None;
     merged := false |}.

Definition ejemplo_plantilla : worksheet :=
  {| cells := {[ (2, 2) := texto "Fecha"; (2, 5) := texto "Hora";
                 (2, 7) := texto "Unidades";
                 (6, 1) := texto "Unidad"; (6, 2) := texto "Ubicación";
                 (6, 9) := texto "Estatus" ]};
     merged_cells := [] |}.

Definition ejemplo_tags : option response :=
  Some {| status_code := 200;
          body := Some (JObj [("data",
                    JObj [("addresses",
                      JList [JObj [("id", JStr "X1")];
                             JObj [("name", JStr "sin id")]])])]) |}.

(** A GPS block of the provider: address identifier, speed, flag. *)
Definition gps_de (ident : string) (speed : Z) (ecu : bool) : json :=
  JObj [("address", JObj [("id", JStr ident)]);
        ("speedMilesPerHour", JInt speed);
        ("isEcuSpeed", JBool ecu);
        ("latitude", JFloat (FFinite false 19 (-1)));
        ("longitude", JFloat (FFinite true 198 (-2)))].

Definition unidad (name ident : string) (speed : Z) (ecu : bool) : json :=
  JObj [("name", JStr name); ("gps", gps_de ident speed ecu)].

(** A GPS block with a timestamp and nothing to locate it. *)
Definition gps_con_hora (time : string) (speed : Z) : json :=
  JObj [("time", JStr time); ("speedMilesPerHour", JInt speed)].

Definition unidad_con_hora (name time : string) (speed : Z) : json :=
  JObj [("name", JStr name); ("gps", gps_con_hora time speed)].

(** A GPS block whose reverse-geocode block is [null]. *)
Definition gps_geo_nulo (speed : Z) (ecu : bool) : json :=
  JObj [("speedMilesPerHour", JInt speed); ("isEcuSpeed", JBool ecu);
        ("reverseGeo", JNull);
        ("latitude", JFloat (FFinite false 19 (-1)));
        ("longitude", JFloat (FFinite true 198 (-2)))].

Definition unidad_geo_nulo (name : string) (speed : Z) (ecu : bool) : json :=
  JObj [("name", JStr name); ("gps", gps_geo_nulo speed ecu)].

(** The exclusion set of the sample run. *)
Definition ejemplo_ids : gset hkey :=
  predefined_special ∪ list_to_set [HStr "X1"].

Definition ejemplo_entorno (vehicles : json) : entorno :=
  {| SAMSARA_API_TOKEN := Some "token";
     DESTINOS := ["5215500000000"];
     base_dir := "/srv/reporte";
     tags_of := ejemplo_tags;
     veh_of := Some {| status_code := 200;
                       body := Some (JObj [("data", vehicles)]) |};
     clock := ejemplo_now;
     smtp_ok := true;
     whatsapp_ok := fun _ => true;
     remove_ok := true |}.


Definition ejemplo_mundo : world :=
  {| files := {[ ("/srv/reporte", "Plantilla.xlsx") := ejemplo_plantilla ]};
     logged := [];
     correos := [];
     whatsapps := [] |}.

(** The three records of the end-to-end scenario A. *)
Definition escenario_A : list json :=
  [unidad "U1" "X1" 30 true; unidad "U2" "X2" 0 true; unidad "U3" "X3" 0 false].

(** Four records, of which the second is excluded and the third is
    noise: the first and the last make the rows 7 and 8. *)
Definition ejemplo_vehicles : list json :=
  [unidad "U4" "X4" 30 false; unidad "U1" "X1" 30 true;
   unidad "U3" "X3" 0 false; unidad "U2" "X2" 0 true].



(** ** Delivery over HTTP (lines 25 and 51-95)

    [main] above takes the outcome of the two WhatsApp calls from
    [whatsapp_ok]. Here the calls are spelled out: what [subir_media]
    and [enviar_template] post, what they read from the answers and
    what they log. *)

(** [s.split(",")]: the pieces between the commas, with [cur] the piece
    being read. *)
Fixpoint split_from (cur s : string) : list string :=
  match s with
  | EmptyString => [cur]
  | String c rest =>
      if String.eqb (String c "") "," then cur :: split_from "" rest
      else split_from (cur +:+ String c "") rest
  end.

(** Line 25: [os.getenv("WHATSAPP_DESTINOS", "").split(",")]. *)
Definition destinos_de (env : option string) : list string :=
  split_from "" (default "" env).

(** [os.path.basename(s)]: what follows the last slash, with [cur] the
    component being read. *)
Fixpoint basename_from (cur s : string) : string :=
  match s with
  | EmptyString => cur
  | String c rest =>
      if String.eqb (String c "") "/" then basename_from "" rest
      else basename_from (cur +:+ String c "") rest
  end.

Definition basename (s : string) : string := basename_from "" s.

(** The outcome of a call for a caller that catches every exception. *)
Definition caught {A} (m : py A) : option A :=
  match m with
  | Ret a => Some a
  | Raise _ => None
  end.

(** A call of [requests.post] to the Graph API: the upload of a file
    under a name, or a message with a JSON payload. *)
Inductive request : Type :=
  | PostMedia (filename : string) (content : worksheet)
  | PostMessage (payload : json).

(** The Graph API as the run meets it (how it answers each call, [None]
    when [requests.post] raises) and the two settings of lines 34-35. *)
Record graph_api : Type := {
  responder : request → option response;
  TEMPLATE_NAME : string;
  LANG_CODE : string
}.

(** The files and log of the run, and the calls made so far. *)
Definition estado : Type := world * list request.

(** The payload of lines 68-90. *)
Definition payload_de (g : graph_api) (media_id : json) (to : string)
    (filename : string) : json :=
  JObj [("messaging_product", JStr "whatsapp");
        ("to", JStr to);
        ("type", JStr "template");
        ("template",
         JObj [("name", JStr (TEMPLATE_NAME g));
               ("language", JObj [("code", JStr (LANG_CODE g))]);
               ("components",
                JList [JObj [("type", JStr "header");
                             ("parameters",
                              JList [JObj [("type", JStr "document");
                                           ("document",
                                            JObj [("id", media_id);
                                                  ("filename",
                                                   JStr filename)])]])]])])].

(** [r.json()["messages"][0]["id"]] after [r.raise_for_status()], for a
    caller that catches every exception: an error status, a body that is
    not JSON or not an object, no ["messages"], no first item (an empty
    sequence, a dict, which has no key [0], a value without items), or a
    first item that is not an object with an ["id"] (as the first
    character of a string). *)
Definition message_id (r : response) : option json :=
  j ← caught (_ ← raise_for_status r; response_json r);
  messages ← caught (py_getitem j "messages");
  match messages with
  | JList (m :: _) => caught (py_getitem m "id")
  | _ => None
  end.

(** A Graph API that stores every upload under the id ["m1"] and takes
    every message but those to the recipient ["0"]. *)
Definition ejemplo_api : graph_api :=
  {| responder := fun req =>
       match req with
       | PostMedia _ _ =>
           Some {| status_code := 200;
                   body := Some (JObj [("id", JStr "m1")]) |}
       | PostMessage (JObj (_ :: ("to", JStr "0") :: _)) =>
           Some {| status_code := 400; body := Some (JObj []) |}
       | PostMessage _ =>
           Some {| status_code := 200;
                   body := Some (JObj [("messages",
                                        JList [JObj [("id", JStr "w1")]])]) |}
       end;
     TEMPLATE_NAME := "reporte";
     LANG_CODE := "es_MX" |}.

(** The sample run with the recipients [destinos], a mail server that
    works or not and a disk that lets the report go or not; as with
    [ejemplo_api], the recipient ["0"] is refused. *)
Definition ejemplo_envio (destinos : list string) (correo borrar : bool)
  : entorno :=
  {| SAMSARA_API_TOKEN := Some "token";
     DESTINOS := destinos;
     base_dir := "/srv/reporte";
     tags_of := ejemplo_tags;
     veh_of := Some {| status_code := 200;
                       body := Some (JObj [("data", JList escenario_A)]) |};
     clock := ejemplo_now;
     smtp_ok := correo;
     whatsapp_ok := fun d => negb (String.eqb d "0");
     remove_ok := borrar |}.

(** The sample run with another token and another telemetry answer. *)
Definition ejemplo_con (token : option string) (veh : option response)
  : entorno :=
  {| SAMSARA_API_TOKEN := token;
     DESTINOS := ["5215500000000"];
     base_dir := "/srv/reporte";
     tags_of := ejemplo_tags;
     veh_of := veh;
     clock := ejemplo_now;
     smtp_ok := true;
     whatsapp_ok := fun _ => true;
     remove_ok := true |}.

(** The report file of the sample run. *)
Definition ejemplo_reporte : path :=
  ("/srv/reporte", "Reporte de estatus de unidades 2024-03-07_09-05-30.xlsx").

(** The sample disk once a report is saved, before any call. *)
Definition ejemplo_guardado : estado :=
  ({| files := {[ ("/srv/reporte", "Plantilla.xlsx") := ejemplo_plantilla;
                  ejemplo_reporte := ejemplo_plantilla ]};
      logged := [];
      correos := [];
      whatsapps := [] |},
   []).

(** A template with a merged title (A1:B1) and, on the first data row,
    two values and a merged range (B7:C7) left over. *)
Definition ejemplo_con_merges : worksheet :=
  {| cells := {[ (1, 1) := texto "Reporte"; (1, 2) := merged_cell;
                 (6, 1) := texto "Unidad"; (7, 1) := texto "pendiente";
                 (7, 2) := texto "vieja";
                 (7, 3) := merged_cell ]};
     merged_cells :=
       [ {| min_row := 1; min_col := 1; max_row := 1; max_col := 2 |};
         {| min_row := 7; min_col := 2; max_row := 7; max_col := 3 |} ] |}.

(** Two classified rows. *)
Definition ejemplo_filas : list fila :=
  [ {| Unidad := JStr "U4"; Ubicación := JStr "Lat: 19.5, Lon: -99.25";
       Estatus := RUTA |};
    {| Unidad := JStr "U2"; Ubicación := JStr "Lat: 19.5, Lon: -99.25";
       Estatus := DETENIDO |} ].


(** A record whose name is [null] and one whose GPS block is [null]. *)
Definition ejemplo_sin_nombre : list (string * json) :=
  [("name", JNull); ("gps", gps_de "X2" 30 true)].

Definition ejemplo_sin_gps : list (string * json) :=
  [("name", JStr "U9"); ("gps", JNull)].

(** A moving record whose address is [null]. *)
Definition ejemplo_sin_direccion : list (string * json) :=
  [("name", JStr "U10");
   ("gps", JObj [("address", JNull); ("speedMilesPerHour", JInt 30)])].

Section Runtime.

Set Default Proof Using "Type".

(** [dp_parse s]: the instant of
    [dp.parse(s).astimezone(pytz.timezone(MX_TZ))], or [None] when
    [dateutil] raises on [s]. The conversion changes the zone of the
    value, not its instant, and [now_mx - loc_time] on two aware
    datetimes is the difference of their instants. *)
Variable dp_parse : string -> option Z.

(** [py_repr v]: [repr(v)] of the Python runtime, used for floats, lists
    and dicts inside an f-string. *)
Variable py_repr : json -> string.

(** [format(v, '')], what [f"{v}"] substitutes. *)
Definition py_str (v : json) : string :=
  match v with
  | JNull => "None"
  | JBool true => "True"
  | JBool false => "False"
  | JInt z => pretty z
  | JStr s => s
  | _ => py_repr v
  end.

(** [dp.parse(t)...]: [dateutil] accepts a string and raises [TypeError]
    on any other JSON value, [ParserError] on a string it cannot read. *)
Definition parse_time (t : json) : py Z :=
  match t with
  | JStr s => match dp_parse s with
              | Some i => Ret i
              | None => Raise ParserError
              end
  | _ => Raise TypeError
  end.

(** *** The per-record gates (lines 155-174) *)

(** Lines 156-160. *)
Definition staleness_gate (now_mx : datetime) (gps : json) : py gate :=
  t ← py_get gps "time" JNull;
  if truthy t then
    loc_time ← parse_time t;
    if bool_decide (one_hour < dt_instant now_mx - loc_time)%Z
    then mret Drop else mret Pass
  else mret Pass.

(** Lines 161-162. *)
Definition exclusion_gate (special_address_ids : gset hkey) (gps : json)
  : py gate :=
  address ← py_get gps "address" (JObj []);
  ident ← py_get address "id" JNull;
  found ← set_contains ident special_address_ids;
  if found : bool then mret Drop else mret Pass.

(** Lines 163-166. *)
Definition motion_gate (gps : json) : py gate :=
  speed ← py_get gps "speedMilesPerHour" (JInt 0);
  ecu ← py_get gps "isEcuSpeed" (JBool false);
  if py_eq speed (JInt 0) && negb (truthy ecu) then mret Drop else mret Pass.

(** Line 167. *)
Definition derive_status (gps : json) : py estatus :=
  speed ← py_get gps "speedMilesPerHour" (JInt 0);
  ecu ← py_get gps "isEcuSpeed" (JBool false);
  mret (if py_eq speed (JInt 0) && truthy ecu then DETENIDO else RUTA).

(** The f-string of line 169. *)
Definition lat_lon (gps : json) : py json :=
  lat ← py_get gps "latitude" JNull;
  lon ← py_get gps "longitude" JNull;
  mret (JStr ("Lat: " +:+ py_str lat +:+ ", Lon: " +:+ py_str lon)).

(** Lines 168-169: [a or b] is [a] when [a] is true, else [b]. *)
Definition derive_location (gps : json) : py json :=
  geo ← py_get gps "reverseGeo" (JObj []);
  formatted ← py_get geo "formattedLocation" JNull;
  if truthy formatted then mret formatted else lat_lon gps.

(** Lines 161-174: what the body does once the staleness gate is passed. *)
Definition clasificar (special_address_ids : gset hkey) (u gps : json)
  : py (option fila) :=
  g2 ← exclusion_gate special_address_ids gps;
  match g2 with
  | Drop => mret None
  | Pass =>
      g3 ← motion_gate gps;
      match g3 with
      | Drop => mret None
      | Pass =>
          status ← derive_status gps;
          location ← derive_location gps;
          name ← py_get u "name" (JStr "Sin nombre");
          mret (Some {| Unidad := name;
                        Ubicación := location;
                        Estatus := status |})
      end
  end.

(** The body of the [try] (lines 155-174): [Ret (Some row)] appends,
    [Ret None] is [continue], [Raise] goes to the handler. *)
Definition procesar_unidad (special_address_ids : gset hkey)
    (now_mx : datetime) (u : json) : py (option fila) :=
  gps ← py_get u "gps" (JObj []);
  g1 ← staleness_gate now_mx gps;
  match g1 with
  | Drop => mret None
  | Pass => clasificar special_address_ids u gps
  end.

(** Line 176, the handler: the message itself calls [u.get]. *)
Definition log_unidad (u : json) : py (level * string) :=
  name ← py_get u "name" JNull;
  mret (ERROR, "Procesando unidad " +:+ py_str name).

(** One iteration of the loop of line 153 on [(results, log)]. A [Raise]
    here is an exception that left the handler: it ends [main]. *)
Definition paso (special_address_ids : gset hkey) (now_mx : datetime)
    (st : list fila * log) (u : json) : py (list fila * log) :=
  match procesar_unidad special_address_ids now_mx u with
  | Ret (Some row) => Ret (st.1 ++ [row], st.2)
  | Ret None => Ret st
  | Raise _ => entry ← log_unidad u; mret (st.1, st.2 ++ [entry])
  end.

(** The loop of lines 153-176 from [(results, log)]: the state it
    reached, and the exception that left a handler, if one did. *)
Fixpoint procesar_registros (special_address_ids : gset hkey)
    (now_mx : datetime) (vehicles : list json) (st : list fila * log)
  : (list fila * log) * option exn :=
  match vehicles with
  | [] => (st, None)
  | u :: rest =>
      match paso special_address_ids now_mx st u with
      | Ret st' => procesar_registros special_address_ids now_mx rest st'
      | Raise x => (st, Some x)
      end
  end.

(** *** Rendering (lines 179-230) *)

(** [Cell._bind_value] of openpyxl: the value a cell keeps for a Python
    value, or [None] when the library refuses it (a list, a dict, a
    string with a control character). *)
Variable bind_value : json -> option json.

(** [cell.value = v]: the value of a [MergedCell] is read-only. *)
Definition set_value (c : cell) (v : json) : py cell :=
  if merged c then Raise AttributeError
  else match bind_value v with
       | Some w => Ret {| value := w; border := border c; fill := fill c;
                          font := font c; merged := merged c |}
       | None => Raise ValueError
       end.

(** [ws.cell(row=row, column=col, value=v)]: the cell is fetched (and
    created), and assigned only when [v] is not [None]. *)
Definition ws_cell (ws : worksheet) (row col : nat) (v : json)
  : py worksheet :=
  let c := get_cell ws row col in
  if is_None v then Ret (put_cell ws row col c)
  else c' ← set_value c v; mret (put_cell ws row col c').

(** [ws["C2"] = v], by row and column. *)
Definition ws_setitem (ws : worksheet) (row col : nat) (v : json)
  : py worksheet :=
  c' ← set_value (get_cell ws row col) v;
  mret (put_cell ws row col c').

(** Lines 184-186. *)
Definition deshacer_merges (ws : worksheet) : worksheet :=
  foldl (fun w mr => if bool_decide (start_row ≤ min_row mr)
                     then unmerge_cells w mr else w)
        ws (merged_cells ws).

(** ["%0<width>d" % n]. *)
Definition zfill (width n : nat) : string :=
  let s := pretty n in
  String.concat "" (replicate (width - String.length s) "0") +:+ s.

(** [now_mx.date().isoformat()]. *)
Definition isoformat_date (d : datetime) : string :=
  zfill 4 (dt_year d) +:+ "-" +:+ zfill 2 (dt_month d) +:+ "-"
  +:+ zfill 2 (dt_day d).

(** [now_mx.strftime("%H:%M:%S")]. *)
Definition strftime_hms (d : datetime) : string :=
  zfill 2 (dt_hour d) +:+ ":" +:+ zfill 2 (dt_minute d) +:+ ":"
  +:+ zfill 2 (dt_second d).

(** [now_mx.strftime("%Y-%m-%d_%H-%M-%S")], the year on four digits. *)
Definition ts_str (d : datetime) : string :=
  zfill 4 (dt_year d) +:+ "-" +:+ zfill 2 (dt_month d) +:+ "-"
  +:+ zfill 2 (dt_day d) +:+ "_" +:+ zfill 2 (dt_hour d) +:+ "-"
  +:+ zfill 2 (dt_minute d) +:+ "-" +:+ zfill 2 (dt_second d).

(** Lines 209-211, over the columns still to do. *)
Fixpoint volcar_ubicacion (ws : worksheet) (i : nat) (cols : list nat)
    (row : fila) : py worksheet :=
  match cols with
  | [] => Ret ws
  | col :: rest =>
      ws1 ← ws_cell ws i col (if (col =? 2)%nat then Ubicación row else JNull);
      volcar_ubicacion (set_border ws1 i col ThinBlack) i rest row
  end.

(** Lines 203-221: the row [row] written at sheet row [i]. *)
Definition volcar_fila (ws : worksheet) (i : nat) (row : fila)
  : py worksheet :=
  ws1 ← ws_cell ws i 1 (Unidad row);
  let ws2 := set_border ws1 i 1 ThinBlack in
  let ws3 := merge_cells ws2 {| min_row := i; min_col := 2;
                                max_row := i; max_col := 8 |} in
  ws4 ← volcar_ubicacion ws3 i (seq 2 7) row;
  ws5 ← ws_cell ws4 i 9 (JStr (estatus_str (Estatus row)));
  let ws6 := set_border ws5 i 9 ThinBlack in
  mret (match Estatus row with
        | DETENIDO => set_fill_font ws6 i 9 red_fill red_font
        | RUTA => set_fill_font ws6 i 9 green_fill green_font
        end).

(** Line 202: [enumerate(results, start=i)]. *)
Fixpoint volcar_datos (ws : worksheet) (i : nat) (results : list fila)
  : py worksheet :=
  match results with
  | [] => Ret ws
  | row :: rest =>
      ws' ← volcar_fila ws i row;
      volcar_datos ws' (S i) rest
  end.

(** Line 224. *)
Definition last_row (results : list fila) : Z :=
  Z.of_nat start_row + Z.of_nat (length results) - 1.

(** Line 225. *)
Definition conteo (results : list fila) : string :=
  "=COUNTA(A" +:+ pretty start_row +:+ ":A" +:+ pretty (last_row results)
  +:+ ")".

(** Lines 183-225 on the sheet loaded from the template. *)
Definition generar_excel (ws : worksheet) (now_mx : datetime)
    (results : list fila) : py worksheet :=
  let ws1 := deshacer_merges ws in
  ws2 ← ws_setitem ws1 2 3 (JStr (isoformat_date now_mx));
  ws3 ← ws_setitem ws2 2 6 (JStr (strftime_hms now_mx));
  ws4 ← volcar_datos ws3 start_row results;
  ws_setitem ws4 2 8 (JStr (conteo results)).

(** *** The run *)

Definition plantilla_path (e : entorno) : path :=
  (base_dir e, "Plantilla.xlsx").

Definition nuevo_archivo (e : entorno) : path :=
  (base_dir e,
   "Reporte de estatus de unidades " +:+ ts_str (clock e) +:+ ".xlsx").

Definition registrar (w : world) (l : level) (msg : string) : world :=
  {| files := files w; logged := logged w ++ [(l, msg)];
     correos := correos w; whatsapps := whatsapps w |}.

Definition con_log (w : world) (l : log) : world :=
  {| files := files w; logged := l;
     correos := correos w; whatsapps := whatsapps w |}.

(** [load_workbook(filename=p)] then [wb.active]. *)
Definition load_workbook (w : world) (p : path) : py worksheet :=
  match files w !! p with
  | Some ws => Ret ws
  | None => Raise FileNotFoundError
  end.

(** [wb.save(p)]. *)
Definition save (w : world) (p : path) (ws : worksheet) : world :=
  {| files := <[p := ws]> (files w); logged := logged w;
     correos := correos w; whatsapps := whatsapps w |}.

(** [os.remove(str(p))]. *)
Definition remove (w : world) (p : path) : world :=
  {| files := delete p (files w); logged := logged w;
     correos := correos w; whatsapps := whatsapps w |}.

(** Lines 234-254: the file is read and mailed. *)
Definition enviar_correo (e : entorno) (w : world) : py world :=
  match files w !! nuevo_archivo e with
  | None => Raise FileNotFoundError
  | Some adjunto =>
      if smtp_ok e then
        Ret (registrar
               {| files := files w; logged := logged w;
                  correos := correos w ++ [((nuevo_archivo e).2, adjunto)];
                  whatsapps := whatsapps w |}
               INFO "Correo enviado")
      else Raise SMTPException
  end.

(** [subir_media] then [enviar_template] for one recipient. *)
Definition enviar_whatsapp (e : entorno) (w : world) (destino : string)
  : py world :=
  if whatsapp_ok e destino then
    Ret {| files := files w; logged := logged w; correos := correos w;
           whatsapps := whatsapps w ++ [(destino, (nuevo_archivo e).2)] |}
  else Raise HTTPError.

(** Lines 257-263. *)
Fixpoint enviar_whatsapps (e : entorno) (w : world) (destinos : list string)
  : fin * world :=
  match destinos with
  | [] => (Finalizado, w)
  | destino :: rest =>
      match enviar_whatsapp e w destino with
      | Ret w' => enviar_whatsapps e w' rest
      | Raise _ =>
          (Exit 1, registrar w ERROR ("Error enviando WhatsApp a " +:+ destino))
      end
  end.

(** Lines 265-271. *)
Definition eliminar (e : entorno) (w : world) : world :=
  let w' :=
    if remove_ok e then
      registrar (remove w (nuevo_archivo e)) INFO
        ("Archivo eliminado: " +:+ (nuevo_archivo e).2)
    else registrar w ERROR ("No se pudo eliminar: " +:+ (nuevo_archivo e).2)
  in registrar w' INFO "===> Ejecución finalizada correctamente".

(** Lines 233-271, after the file is saved. *)
Definition entregar (e : entorno) (w : world) : fin * world :=
  match enviar_correo e w with
  | Raise _ => (Exit 1, registrar w ERROR "Error enviando correo")
  | Ret w1 =>
      match enviar_whatsapps e w1 (DESTINOS e) with
      | (Finalizado, w2) => (Finalizado, eliminar e w2)
      | out => out
      end
  end.

(** Lines 178-231. *)
Definition reportar (e : entorno) (w : world) (results : list fila)
  : fin * world :=
  match load_workbook w (plantilla_path e) with
  | Raise x => (Uncaught x, w)
  | Ret ws =>
      match generar_excel ws (clock e) results with
      | Raise x => (Uncaught x, w)
      | Ret ws' =>
          entregar e
            (registrar (save w (nuevo_archivo e) ws') INFO
               ("Excel generado: " +:+ path_str (nuevo_archivo e)))
      end
  end.

(** [main] (lines 97-271). *)
Definition main (e : entorno) (w0 : world) : fin * world :=
  let w := registrar w0 INFO "===> Inicio de ejecución" in
  if negb (from_option (fun t => negb (String.eqb t "")) false
             (SAMSARA_API_TOKEN e))
  then (Exit 1,
        registrar w ERROR "❌ Falta SAMSARA_API_TOKEN en variables de entorno")
  else
    match obtener_ids (tags_of e) with
    | Raise _ => (Exit 1, registrar w ERROR "Error al obtener tags")
    | Ret special_address_ids =>
        match obtener_vehiculos (veh_of e) with
        | Raise _ =>
            (Exit 1, registrar w ERROR "Error al obtener datos de vehículos")
        | Ret vehicles =>
            match py_iter vehicles with
            | Raise x => (Uncaught x, w)
            | Ret items =>
                match procesar_registros special_address_ids (clock e) items
                        ([], logged w) with
                | (st, Some x) => (Uncaught x, con_log w st.2)
                | (st, None) => reportar e (con_log w st.2) st.1
                end
            end
        end
    end.

(** ** The vocabulary of the properties *)

(** An observation reaches the motion gates when its GPS block was read
    and the staleness and exclusion gates let it pass. *)
Definition reaches_motion_gates (special_address_ids : gset hkey)
    (now_mx : datetime) (u gps : json) : Prop :=
  py_get u "gps" (JObj []) = Ret gps
  ∧ staleness_gate now_mx gps = Ret Pass
  ∧ exclusion_gate special_address_ids gps = Ret Pass.

(** The reverse-geocode block of a GPS block is absent or an object, as
    in a record of the provider; on any other value line 168 raises. *)
Definition reverse_geo_object (gps : json) : Prop :=
  ∃ kv, py_get gps "reverseGeo" (JObj []) = Ret (JObj kv).

(** Lines 168-174 for a record whose status is settled: the location is
    derived (the one step left that can raise) and the row is built. *)
Definition fila_con (u gps : json) (status : estatus) : py (option fila) :=
  location ← derive_location gps;
  name ← py_get u "name" (JStr "Sin nombre");
  mret (Some {| Unidad := name; Ubicación := location; Estatus := status |}).

(** The coordinate [gps.get(k)] of a GPS block with items [kv]. *)
Definition coordinate (kv : list (string * json)) (k : string) : json :=
  from_option id JNull (dict_lookup k kv).

(** The identifier a fetched address record contributes: the key of its
    ["id"] when it has a true one, nothing otherwise. *)
Definition address_id (a : json) : option hkey :=
  match a with
  | JObj kv =>
      let c := from_option id JNull (dict_lookup "id" kv) in
      if truthy c then hash_key c else None
  | _ => None
  end.

(** A fetched address record the builder can read: an object whose
    identifier is missing (absent, null, empty) or a scalar. *)
Definition address_ok (a : json) : bool :=
  match a with
  | JObj kv =>
      let c := from_option id JNull (dict_lookup "id" kv) in
      negb (truthy c) || bool_decide (is_Some (hash_key c))
  | _ => false
  end.

(** The address records of a payload: the list under ["data"] and
    ["addresses"], both optional (an absent ["data"] is an empty
    object, an absent ["addresses"] an empty list). An empty dict or
    string in the place of the list holds no record. *)
Definition address_records (tags_json : json) : option (list json) :=
  match tags_json with
  | JObj kv =>
      match from_option id (JObj []) (dict_lookup "data" kv) with
      | JObj dkv =>
          match from_option id (JList []) (dict_lookup "addresses" dkv) with
          | JList items => Some items
          | JObj [] | JStr EmptyString => Some []
          | _ => None
          end
      | _ => None
      end
  | _ => None
  end.

(** A payload the builder can read, as lines 127-130 are written: it
    has address records in the sense above, which takes an absent
    ["data"] or ["addresses"] (and an empty dict or string in the place
    of the list) for no record at all, and the builder can read each.
    This is how the code reads a payload, not what makes one well
    formed. *)
Definition payload_readable (tags_json : json) : bool :=
  match address_records tags_json with
  | Some items => forallb address_ok items
  | None => false
  end.

(** The fetch failed: no answer, an error status, or a body that is not
    JSON. *)
Definition fetch_failed (tags : option response) : Prop :=
  match tags with
  | None => True
  | Some r => 400 ≤ status_code r < 600 ∨ body r = None
  end.





(** Every member of the set the builder returns is the key of a true
    scalar: never [None], never the empty string, never zero. *)
Definition key_true (k : hkey) : Prop :=
  k ≠ HNone ∧ k ≠ HStr "" ∧ k ≠ HNum NZero.

(** The row that a record contributes, if any. *)
Definition fila_de (ids : gset hkey) (now : datetime) (u : json)
  : option fila :=
  match procesar_unidad ids now u with
  | Ret (Some row) => Some row
  | _ => None
  end.

(** The value of the cell at a coordinate ([None] where there is none). *)
Definition cell_value (ws : worksheet) (row col : nat) : json :=
  value (get_cell ws row col).

(** Sheet row [i] holds the classified row [row]: each value as the
    library stores it ([ws.cell] leaves the cell alone for [None]). *)
Definition row_written (ws : worksheet) (i : nat) (row : fila) : Prop :=
  (is_None (Unidad row) = false →
   bind_value (Unidad row) = Some (cell_value ws i 1))
  ∧ (is_None (Ubicación row) = false →
     bind_value (Ubicación row) = Some (cell_value ws i 2))
  ∧ bind_value (JStr (estatus_str (Estatus row))) = Some (cell_value ws i 9).

(** The cells the run assigns: C2, F2 and H2, and columns A, B and I of
    the data rows. *)
Definition assigned (r c : nat) : Prop :=
  (r = 2 ∧ (c = 3 ∨ c = 6 ∨ c = 8))
  ∨ (start_row ≤ r ∧ (c = 1 ∨ c = 2 ∨ c = 9)).

(** No [MergedCell] of the sheet sits on a cell the run assigns. *)
Definition plantilla_ok (ws : worksheet) : Prop :=
  ∀ r c x, cells ws !! (r, c) = Some x → merged x = true → ¬ assigned r c.

(** A value [ws.cell] can take: [None], or one the library stores. *)
Definition storable (v : json) : Prop :=
  is_None v = true ∨ is_Some (bind_value v).

(** The value of [COUNTA(<col>r1:<col>r2)] on a sheet: the number of
    non-empty cells of the column between the two rows. A spreadsheet
    reads a reference by its two corners in either order, so [A7:A6] is
    the range of rows 6 and 7. *)
Definition counta (ws : worksheet) (col : nat) (r1 r2 : Z) : nat :=
  let lo := Z.to_nat (Z.min r1 r2) in
  let hi := Z.to_nat (Z.max r1 r2) in
  length (filter (fun r => is_None (cell_value ws r col) = false)
                 (seq lo (S hi - lo))).

(** The number a string of decimal digits denotes. *)
Fixpoint digits_value (s : string) (acc : nat) : nat :=
  match s with
  | EmptyString => acc
  | String c rest =>
      digits_value rest (10 * acc + (Ascii.nat_of_ascii c - 48))
  end.

(** The civil fields of a [datetime] that Python can build, from the
    year 1000 on (before, ["%Y"] prints differently across platforms). *)
Definition valid_datetime (d : datetime) : Prop :=
  1000 ≤ dt_year d < 100 * 100 ∧ 1 ≤ dt_month d ≤ 12 ∧ 1 ≤ dt_day d ≤ 31
  ∧ dt_hour d < 24 ∧ dt_minute d < 60 ∧ dt_second d < 60.

(** *** The two WhatsApp calls and the run that makes them *)

(** Lines 51-65. The result is [None] when an exception leaves the
    function. *)
Definition subir_media (g : graph_api) (s : estado) (p : path)
  : option json * estado :=
  match files s.1 !! p with
  | None => (None, s)
  | Some f =>
      let req := PostMedia (basename (path_str p)) f in
      let s1 := (s.1, s.2 ++ [req]) in
      match r ← responder g req;
            caught (_ ← raise_for_status r;
                    j ← response_json r;
                    py_getitem j "id") with
      | None => (None, s1)
      | Some media_id =>
          (Some media_id,
           (registrar s.1 INFO
              ("Media subido, media_id: " +:+ py_str media_id),
            s1.2))
      end
  end.

(** Lines 67-95. The result is [None] when an exception leaves the
    function; a message that went through is also noted in [whatsapps]. *)
Definition enviar_template (g : graph_api) (s : estado) (media_id : json)
    (to : string) (p : path) : option unit * estado :=
  let req := PostMessage (payload_de g media_id to (basename (path_str p))) in
  let s1 := (s.1, s.2 ++ [req]) in
  match r ← responder g req; message_id r with
  | None => (None, s1)
  | Some msg_id =>
      (Some tt,
       (registrar
          {| files := files s.1; logged := logged s.1;
             correos := correos s.1;
             whatsapps := whatsapps s.1 ++ [(to, basename (path_str p))] |}
          INFO
          ("Template enviado a " +:+ to +:+ ", message ID: "
           +:+ py_str msg_id),
        s1.2))
  end.

(** Lines 257-263 with the two calls spelled out. *)
Fixpoint enviar_whatsapps_http (g : graph_api) (e : entorno) (s : estado)
    (destinos : list string) : fin * estado :=
  match destinos with
  | [] => (Finalizado, s)
  | destino :: rest =>
      match subir_media g s (nuevo_archivo e) with
      | (None, s1) =>
          (Exit 1,
           (registrar s1.1 ERROR ("Error enviando WhatsApp a " +:+ destino),
            s1.2))
      | (Some media_id, s1) =>
          match enviar_template g s1 media_id destino (nuevo_archivo e) with
          | (None, s2) =>
              (Exit 1,
               (registrar s2.1 ERROR
                  ("Error enviando WhatsApp a " +:+ destino),
                s2.2))
          | (Some _, s2) => enviar_whatsapps_http g e s2 rest
          end
      end
  end.

(** Lines 233-271 with the two calls spelled out. *)
Definition entregar_http (g : graph_api) (e : entorno) (s : estado)
  : fin * estado :=
  match enviar_correo e s.1 with
  | Raise _ => (Exit 1, (registrar s.1 ERROR "Error enviando correo", s.2))
  | Ret w1 =>
      match enviar_whatsapps_http g e (w1, s.2) (DESTINOS e) with
      | (Finalizado, s2) => (Finalizado, (eliminar e s2.1, s2.2))
      | out => out
      end
  end.

(** Lines 178-271 with the two calls spelled out. *)
Definition reportar_http (g : graph_api) (e : entorno) (w : world)
    (results : list fila) : fin * estado :=
  match load_workbook w (plantilla_path e) with
  | Raise x => (Uncaught x, (w, []))
  | Ret ws =>
      match generar_excel ws (clock e) results with
      | Raise x => (Uncaught x, (w, []))
      | Ret ws' =>
          entregar_http g e
            (registrar (save w (nuevo_archivo e) ws') INFO
               ("Excel generado: " +:+ path_str (nuevo_archivo e)),
             [])
      end
  end.

(** [main] (lines 97-271) with the two calls spelled out. *)
Definition main_http (g : graph_api) (e : entorno) (w0 : world)
  : fin * estado :=
  let w := registrar w0 INFO "===> Inicio de ejecución" in
  if negb (from_option (fun t => negb (String.eqb t "")) false
             (SAMSARA_API_TOKEN e))
  then (Exit 1,
        (registrar w ERROR
           "❌ Falta SAMSARA_API_TOKEN en variables de entorno", []))
  else
    match obtener_ids (tags_of e) with
    | Raise _ => (Exit 1, (registrar w ERROR "Error al obtener tags", []))
    | Ret special_address_ids =>
        match obtener_vehiculos (veh_of e) with
        | Raise _ =>
            (Exit 1,
             (registrar w ERROR "Error al obtener datos de vehículos", []))
        | Ret vehicles =>
            match py_iter vehicles with
            | Raise x => (Uncaught x, (w, []))
            | Ret items =>
                match procesar_registros special_address_ids (clock e) items
                        ([], logged w) with
                | (st, Some x) => (Uncaught x, (con_log w st.2, []))
                | (st, None) => reportar_http g e (con_log w st.2) st.1
                end
            end
        end
    end.

(** ** The vocabulary of the further properties *)

(** The string [s] has the one-character string [ch] among its
    characters. *)
Fixpoint has_char (ch s : string) : bool :=
  match s with
  | EmptyString => false
  | String c rest => String.eqb (String c "") ch || has_char ch rest
  end.

(** How many characters of [s] are the one-character string [ch]. *)
Fixpoint count_char (ch s : string) : nat :=
  match s with
  | EmptyString => 0
  | String c rest =>
      (if String.eqb (String c "") ch then 1 else 0) + count_char ch rest
  end.

(** The media id the Graph API gives for an upload: the ["id"] of a JSON
    object sent back without an error status. *)
Definition media_id_de (g : graph_api) (name : string) (content : worksheet)
  : option json :=
  r ← responder g (PostMedia name content);
  if bool_decide (400 ≤ status_code r < 600) then None
  else match body r with
       | Some (JObj kv) => dict_lookup "id" kv
       | _ => None
       end.

(** The report named [name] with content [content] reaches the
    recipient [d]: the upload gives a media id and the message that
    carries it gets a message id. *)
Definition wa_ok (g : graph_api) (name : string) (content : worksheet)
    (d : string) : bool :=
  match media_id_de g name content with
  | Some media_id =>
      match r ← responder g (PostMessage (payload_de g media_id d name));
            message_id r with
      | Some _ => true
      | None => false
      end
  | None => false
  end.

(** The recipients served: those before the first that fails. *)
Fixpoint entregados (ok : string → bool) (destinos : list string)
  : list string :=
  match destinos with
  | [] => []
  | d :: rest => if ok d then d :: entregados ok rest else []
  end.

(** What the two models of the run have in common: how it ends, the
    files, the mails and the messages. *)
Definition resultado (out : fin * world)
  : fin * gmap path worksheet * list (string * worksheet)
    * list (string * string) :=
  (out.1, files out.2, correos out.2, whatsapps out.2).

(** The first recipient that is not served. *)
Definition primer_fallo (ok : string → bool) (destinos : list string)
  : option string :=
  find (fun d => negb (ok d)) destinos.

(** The two calls that serve the recipient [d]. *)
Definition llamadas (g : graph_api) (name : string) (content : worksheet)
    (media_id : json) (d : string) : list request :=
  [PostMedia name content; PostMessage (payload_de g media_id d name)].

(** The token of line 101 is there: set and not empty. *)
Definition token_present (e : entorno) : Prop :=
  ∃ t, SAMSARA_API_TOKEN e = Some t ∧ t ≠ "".

(** The world once the opening line of line 98 is logged. *)
Definition iniciado (w0 : world) : world :=
  registrar w0 INFO "===> Inicio de ejecución".

(** The range merged for the location of sheet row [i] (line 208):
    columns B to H. *)
Definition rango_ubicacion (i : nat) : cell_range :=
  {| min_row := i; min_col := 2; max_row := i; max_col := 8 |}.

(** The fill and the font colour of a status (lines 215-221). *)
Definition color_de (s : estatus) : string * string :=
  match s with
  | DETENIDO => (red_fill, red_font)
  | RUTA => (green_fill, green_font)
  end.

(** The style of a cell: all of it but the value. *)
Definition estilo (c : cell) : border_t * option string * option string * bool :=
  (border c, fill c, font c, merged c).

(** Sheet row [i] is dressed as a data row of status [s]: thin black
    borders on columns A to I, the placeholders of the merged range on
    C to H, and the colours of the status on column I. *)
Definition fila_con_formato (ws : worksheet) (i : nat) (s : estatus) : Prop :=
  (∀ c, 1 ≤ c ≤ 9 → border (get_cell ws i c) = ThinBlack)
  ∧ (∀ c, 3 ≤ c ≤ 8 →
          merged (get_cell ws i c) = true ∧ cell_value ws i c = JNull)
  ∧ fill (get_cell ws i 9) = Some (color_de s).1
  ∧ font (get_cell ws i 9) = Some (color_de s).2.

(** A name that fills its cell: not [None], and stored as a value that
    is not [None]. *)
Definition nombre_visible (row : fila) : Prop :=
  is_None (Unidad row) = false
  ∧ ∀ v, bind_value (Unidad row) = Some v → is_None v = false.

(** The values that equal [0] in Python: [False], [0], [0.0], [-0.0]. *)
Definition zero_speed (v : json) : Prop :=
  v = JBool false ∨ v = JInt 0 ∨ ∃ neg, v = JFloat (FZero neg).

(** A record whose GPS block cannot be read: ["gps"] is there and is
    not an object (it is [null], say); or, with a reading that is not
    stale, ["address"] is there and is not an object, or its ["id"] is
    a list or an object. *)
Definition bloque_invalido (now_mx : datetime) (kv : list (string * json))
  : Prop :=
  match dict_lookup "gps" kv with
  | Some (JObj gkv) =>
      staleness_gate now_mx (JObj gkv) = Ret Pass
      ∧ match dict_lookup "address" gkv with
        | Some (JObj akv) =>
            hash_key (from_option id JNull (dict_lookup "id" akv)) = None
        | Some _ => True
        | None => False
        end
  | Some _ => True
  | None => False
  end.

(** The line the handler of line 176 logs for a record, if its body
    raised. *)
Definition error_de (ids : gset hkey) (now_mx : datetime) (u : json)
  : option (level * string) :=
  match u, procesar_unidad ids now_mx u with
  | JObj kv, Raise _ =>
      Some (ERROR, "Procesando unidad "
                   +:+ py_str (from_option id JNull (dict_lookup "name" kv)))
  | _, _ => None
  end.

(** ** Properties of the record filter *)

Lemma bind_ret {A B} (a : A) (f : A → py B) : (Ret a ≫= f) = f a.
Proof. reflexivity. Qed.

Lemma bind_raise {A B} (x : exn) (f : A → py B) : (Raise x ≫= f) = Raise x.
Proof. reflexivity. Qed.

Lemma py_get_inv v k d r : py_get v k d = Ret r → ∃ kv, v = JObj kv.
Proof. destruct v; simpl; intros H; try discriminate. eauto. Qed.

Ltac py_simpl :=
  repeat (rewrite ?bind_ret, ?bind_raise; simpl mret; unfold py_ret).

Lemma derive_location_total gps :
  reverse_geo_object gps → ∃ loc, derive_location gps = Ret loc.
Proof.
  intros [kv Hgeo]. unfold derive_location. rewrite Hgeo. py_simpl.
  destruct (py_get_inv _ _ _ _ Hgeo) as [g ->]. simpl.
  destruct (truthy _); eauto.
Qed.

Lemma procesar_after_gates ids now u gps :
  reaches_motion_gates ids now u gps →
  procesar_unidad ids now u =
    (g3 ← motion_gate gps;
     match g3 with
     | Drop => mret None
     | Pass =>
         status ← derive_status gps;
         location ← derive_location gps;
         name ← py_get u "name" (JStr "Sin nombre");
         mret (Some {| Unidad := name; Ubicación := location;
                       Estatus := status |})
     end).
Proof.
  intros (Hgps & Hst & Hex). unfold procesar_unidad, clasificar.
  rewrite Hgps. py_simpl. rewrite Hst. py_simpl. rewrite Hex. by py_simpl.
Qed.

(** C1, amended. An observation that reaches the motion gates, with
    reported speed [speed] and ECU flag [ecu] (read with the defaults 0
    and False, so an absent flag is False): with speed == 0 and a false
    flag it is dropped and yields no row; with speed == 0 and a true flag
    its status is DETENIDO (STOPPED); with a nonzero speed its status is
    RUTA (IN_ROUTE) whatever the flag. In the last two cases the row is
    produced when the reverse-geocode block of the observation is absent
    or an object; when it is present and is not an object ([null], say)
    line 168 raises, and the observation yields no row: the handler of
    the record logs it and the loop goes on. *)
Theorem motion_gates_classify ids now u gps speed ecu :
  reaches_motion_gates ids now u gps →
  py_get gps "speedMilesPerHour" (JInt 0) = Ret speed →
  py_get gps "isEcuSpeed" (JBool false) = Ret ecu →
  (py_eq speed (JInt 0) = true → truthy ecu = false →
     procesar_unidad ids now u = Ret None)
  ∧ (py_eq speed (JInt 0) = true → truthy ecu = true →
     procesar_unidad ids now u = fila_con u gps DETENIDO
     ∧ (reverse_geo_object gps →
        ∃ name loc, procesar_unidad ids now u =
          Ret (Some {| Unidad := name; Ubicación := loc;
                       Estatus := DETENIDO |})))
  ∧ (py_eq speed (JInt 0) = false →
     procesar_unidad ids now u = fila_con u gps RUTA
     ∧ (reverse_geo_object gps →
        ∃ name loc, procesar_unidad ids now u =
          Ret (Some {| Unidad := name; Ubicación := loc; Estatus := RUTA |})))
  ∧ (∀ kv, gps = JObj kv → dict_lookup "isEcuSpeed" kv = None →
     ecu = JBool false)
  ∧ (¬ reverse_geo_object gps →
     ¬ (py_eq speed (JInt 0) = true ∧ truthy ecu = false) →
     procesar_unidad ids now u = Raise AttributeError
     ∧ ∀ st, ∃ entry, paso ids now st u = Ret (st.1, st.2 ++ [entry])).
Proof.
  intros Hreach Hspeed Hecu.
  pose proof (procesar_after_gates _ _ _ _ Hreach) as Hafter.
  destruct Hreach as (Hgps & _ & _).
  destruct (py_get_inv _ _ _ _ Hgps) as [ukv ->].
  assert (Hcases :
            (py_eq speed (JInt 0) = true → truthy ecu = false →
             procesar_unidad ids now (JObj ukv) = Ret None)
            ∧ (py_eq speed (JInt 0) = true → truthy ecu = true →
               procesar_unidad ids now (JObj ukv)
               = fila_con (JObj ukv) gps DETENIDO)
            ∧ (py_eq speed (JInt 0) = false →
               procesar_unidad ids now (JObj ukv)
               = fila_con (JObj ukv) gps RUTA)).
  { rewrite Hafter. unfold motion_gate, derive_status, fila_con.
    rewrite Hspeed, Hecu. py_simpl. split_and!.
    - intros -> ->. reflexivity.
    - intros -> ->. reflexivity.
    - intros ->. reflexivity. }
  destruct Hcases as (Hdrop & Hstop & Hmove).
  assert (Hrow : ∀ status, reverse_geo_object gps →
            ∃ name loc, fila_con (JObj ukv) gps status =
              Ret (Some {| Unidad := name; Ubicación := loc;
                           Estatus := status |})).
  { intros status Hgeo. unfold fila_con.
    destruct (derive_location_total _ Hgeo) as [loc ->]. simpl. eauto. }
  assert (Hraise : ∀ status, ¬ reverse_geo_object gps →
            fila_con (JObj ukv) gps status = Raise AttributeError).
  { intros status Hgeo. unfold fila_con, derive_location.
    destruct (py_get_inv _ _ _ _ Hspeed) as [gkv ->]. cbn [py_get].
    rewrite bind_ret.
    destruct (from_option id (JObj []) (dict_lookup "reverseGeo" gkv))
      as [| | | | | |geo] eqn:Hgeo'; try reflexivity.
    destruct Hgeo. exists geo. cbn [py_get]. by rewrite Hgeo'. }
  split_and!.
  - exact Hdrop.
  - intros Hs He. split; [by apply Hstop|]. intros Hgeo.
    rewrite (Hstop Hs He). by apply Hrow.
  - intros Hs. split; [by apply Hmove|]. intros Hgeo.
    rewrite (Hmove Hs). by apply Hrow.
  - intros kv -> Hnone. simpl in Hecu. rewrite Hnone in Hecu.
    simpl in Hecu. congruence.
  - intros Hgeo Hnot.
    assert (Hp : procesar_unidad ids now (JObj ukv) = Raise AttributeError).
    { destruct (py_eq speed (JInt 0)) eqn:Hs.
      - destruct (truthy ecu) eqn:He.
        + rewrite (Hstop eq_refl eq_refl). by apply Hraise.
        + by destruct Hnot.
      - rewrite (Hmove eq_refl). by apply Hraise. }
    split; [exact Hp|]. intros st. unfold paso. rewrite Hp.
    cbn [log_unidad py_get mbind py_bind mret py_ret]. eauto.
Qed.

Lemma paso_continue ids now st u :
  procesar_unidad ids now u = Ret None → paso ids now st u = Ret st.
Proof. intros H. unfold paso. by rewrite H. Qed.

Lemma paso_raise ids now st u kv x :
  u = JObj kv →
  procesar_unidad ids now u = Raise x →
  paso ids now st u =
    Ret (st.1,
         st.2 ++ [(ERROR, "Procesando unidad " +:+
                          py_str (from_option id JNull (dict_lookup "name" kv)))]).
Proof. intros -> H. unfold paso. rewrite H. reflexivity. Qed.

(** C2. The staleness gate on an observation whose GPS block has the
    timestamp [t] ([None] when the key is absent). A timestamp that
    parses to an instant more than one hour before now drops the record;
    one that does not parse raises inside the [try], so the record yields
    no row and the loop goes on with a log line; a record without a
    timestamp ([t] false: absent, null or empty) passes the gate and goes
    on to the later gates, and so does one at most one hour old. *)
Theorem staleness_gate_spec ids now u gps t st :
  py_get u "gps" (JObj []) = Ret gps →
  py_get gps "time" JNull = Ret t →
  (∀ i, truthy t = true → parse_time t = Ret i →
        (one_hour < dt_instant now - i)%Z →
        staleness_gate now gps = Ret Drop
        ∧ procesar_unidad ids now u = Ret None
        ∧ paso ids now st u = Ret st)
  ∧ (∀ x, truthy t = true → parse_time t = Raise x →
        procesar_unidad ids now u = Raise x
        ∧ ∃ entry, paso ids now st u = Ret (st.1, st.2 ++ [entry]))
  ∧ (truthy t = false →
        staleness_gate now gps = Ret Pass
        ∧ procesar_unidad ids now u = clasificar ids u gps)
  ∧ (∀ i, truthy t = true → parse_time t = Ret i →
        (dt_instant now - i ≤ one_hour)%Z →
        staleness_gate now gps = Ret Pass
        ∧ procesar_unidad ids now u = clasificar ids u gps)
  ∧ (∀ kv, gps = JObj kv → dict_lookup "time" kv = None → t = JNull).
Proof.
  intros Hgps Ht.
  destruct (py_get_inv _ _ _ _ Hgps) as [ukv Hu].
  assert (Hproc : procesar_unidad ids now u =
                  (g1 ← staleness_gate now gps;
                   match g1 with
                   | Drop => mret None
                   | Pass => clasificar ids u gps
                   end)).
  { unfold procesar_unidad. rewrite Hgps. reflexivity. }
  unfold staleness_gate in *. rewrite Ht in *. py_simpl.
  rewrite bind_ret in Hproc.
  repeat split.
  - rewrite H, H0. py_simpl. by rewrite bool_decide_eq_true_2.
  - rewrite Hproc, H, H0. py_simpl. by rewrite bool_decide_eq_true_2.
  - apply paso_continue. rewrite Hproc, H, H0. py_simpl.
    by rewrite bool_decide_eq_true_2.
  - rewrite Hproc, H, H0. reflexivity.
  - eexists. eapply paso_raise; [exact Hu|].
    rewrite Hproc, H, H0. reflexivity.
  - by rewrite H.
  - by rewrite Hproc, H.
  - rewrite H, H0. py_simpl. rewrite bool_decide_eq_false_2; [done | lia].
  - rewrite Hproc, H, H0. py_simpl. rewrite bool_decide_eq_false_2; [done | lia].
  - intros kv -> Hnone. simpl in Ht. rewrite Hnone in Ht. simpl in Ht.
    congruence.
Qed.

(** C3. An observation whose address identifier is a member of the
    exclusion set yields no row, whatever its speed, its ECU flag and
    its timestamp (fresh, stale, unreadable or absent); the loop goes on. *)
Theorem exclusion_gate_drops ids now u gps address ident st :
  py_get u "gps" (JObj []) = Ret gps →
  py_get gps "address" (JObj []) = Ret address →
  py_get address "id" JNull = Ret ident →
  set_contains ident ids = Ret true →
  (∀ row, procesar_unidad ids now u ≠ Ret (Some row))
  ∧ ∃ lg, paso ids now st u = Ret (st.1, lg).
Proof.
  intros Hgps Haddr Hid Hin.
  destruct (py_get_inv _ _ _ _ Hgps) as [ukv Hu].
  assert (Hcl : clasificar ids u gps = Ret None).
  { unfold clasificar, exclusion_gate. rewrite Haddr. py_simpl.
    rewrite Hid. py_simpl. rewrite Hin. reflexivity. }
  assert (Hproc : procesar_unidad ids now u = Ret None
                  ∨ ∃ x, procesar_unidad ids now u = Raise x).
  { unfold procesar_unidad. rewrite Hgps. py_simpl.
    destruct (staleness_gate now gps) as [[|]|x]; py_simpl; eauto. }
  destruct Hproc as [Hp | [x Hp]].
  - split; [intros row; rewrite Hp; discriminate|].
    exists st.2. rewrite (paso_continue _ _ _ _ Hp). by destruct st.
  - split; [intros row; rewrite Hp; discriminate|].
    eexists. eapply paso_raise; eauto.
Qed.

(** C4. A reportable observation with no formatted address (the looked-up
    ["formattedLocation"] is false: absent, null or empty) gets the
    location ["Lat: {lat}, Lon: {lon}"] with the two raw values
    substituted as Python prints them; building that string never raises
    on a GPS block, and an absent or null coordinate prints as None. *)
Theorem location_fallback ids now u gps geo formatted row :
  py_get u "gps" (JObj []) = Ret gps →
  py_get gps "reverseGeo" (JObj []) = Ret geo →
  py_get geo "formattedLocation" JNull = Ret formatted →
  truthy formatted = false →
  procesar_unidad ids now u = Ret (Some row) →
  ∃ kv, gps = JObj kv
    ∧ Ubicación row =
        JStr ("Lat: " +:+ py_str (coordinate kv "latitude") +:+ ", Lon: "
              +:+ py_str (coordinate kv "longitude"))
    ∧ lat_lon gps = Ret (Ubicación row)
    ∧ (∀ k, dict_lookup k kv = None ∨ dict_lookup k kv = Some JNull →
            py_str (coordinate kv k) = "None").
Proof.
  intros Hgps Hgeo Hfmt Hfalse Hrow.
  assert (Hloc : derive_location gps = lat_lon gps).
  { unfold derive_location. rewrite Hgeo. py_simpl. rewrite Hfmt. py_simpl.
    by rewrite Hfalse. }
  destruct (py_get_inv _ _ _ _ Hgeo) as [kv ->]. exists kv.
  assert (Hll : lat_lon (JObj kv) =
                Ret (JStr ("Lat: " +:+ py_str (coordinate kv "latitude")
                           +:+ ", Lon: " +:+ py_str (coordinate kv "longitude"))))
    by reflexivity.
  assert (Hub : Ubicación row =
                JStr ("Lat: " +:+ py_str (coordinate kv "latitude")
                      +:+ ", Lon: " +:+ py_str (coordinate kv "longitude"))).
  { unfold procesar_unidad in Hrow. rewrite Hgps in Hrow.
    rewrite bind_ret in Hrow.
    destruct (staleness_gate now (JObj kv)) as [[|]|]; try discriminate.
    rewrite bind_ret in Hrow. unfold clasificar in Hrow.
    destruct (exclusion_gate ids (JObj kv)) as [[|]|]; try discriminate.
    rewrite bind_ret in Hrow.
    destruct (motion_gate (JObj kv)) as [[|]|]; try discriminate.
    rewrite bind_ret in Hrow.
    destruct (derive_status (JObj kv)) as [status|]; try discriminate.
    rewrite bind_ret, Hloc, Hll, bind_ret in Hrow.
    destruct (py_get u "name" (JStr "Sin nombre")) as [name|]; try discriminate.
    rewrite bind_ret in Hrow. by injection Hrow as <-. }
  repeat split; [exact Hub | by rewrite Hub |].
  intros k [Hk | Hk]; unfold coordinate; by rewrite Hk.
Qed.

(** ** Properties of the exclusion set *)

Lemma collect_ids_ok items acc :
  forallb address_ok items = true →
  collect_ids items acc = Ret (acc ∪ list_to_set (omap address_id items)).
Proof.
  clear bind_value dp_parse py_repr.
  revert acc. induction items as [|a rest IH]; intros acc Hok; simpl.
  - f_equal. set_solver.
  - simpl in Hok. apply andb_prop in Hok as [Ha Hrest].
    destruct a as [| | | | | |kv]; try discriminate. simpl in *.
    destruct (dict_lookup "id" kv) as [c|] eqn:Hc; simpl in *.
    + destruct (truthy c) eqn:Htr; simpl in *.
      * apply bool_decide_eq_true_1 in Ha as [k Hk].
        unfold set_add. rewrite Hk. simpl.
        rewrite (IH _ Hrest). f_equal. set_solver.
      * by apply IH.
    + by apply IH.
Qed.

Lemma collect_ids_bad items acc :
  forallb address_ok items = false → ∃ x, collect_ids items acc = Raise x.
Proof.
  revert acc. induction items as [|a rest IH]; intros acc Hbad; simpl.
  - discriminate.
  - simpl in Hbad. apply andb_false_iff in Hbad as [Ha | Hrest].
    + destruct a as [| | | | | |kv]; simpl; eauto. simpl in Ha.
      destruct (dict_lookup "id" kv) as [c|] eqn:Hc; simpl in *;
        [|discriminate].
      destruct (truthy c) eqn:Htr; simpl in *; [|discriminate].
      apply bool_decide_eq_false_1 in Ha.
      unfold set_add. destruct (hash_key c) eqn:Hk; [|simpl; eauto].
      exfalso. apply Ha. eauto.
    + destruct a as [| | | | | |kv]; simpl; eauto.
      destruct (dict_lookup "id" kv) as [c|] eqn:Hc; simpl.
      * destruct (truthy c); [|by apply IH].
        destruct (set_add acc c) as [acc'|x]; simpl; eauto.
      * by apply IH.
Qed.

Lemma address_records_fetched j items :
  address_records j = Some items → fetched_addresses j = Ret items.
Proof.
  unfold address_records, fetched_addresses.
  destruct j as [| | | | | |kv]; try discriminate. simpl.
  destruct (from_option id (JObj []) (dict_lookup "data" kv))
    as [| | | | | |dkv]; try discriminate. simpl.
  destruct (from_option id (JList []) (dict_lookup "addresses" dkv))
    as [| | | |[|c s]|l|[|a akv]]; try discriminate; by intros [= <-].
Qed.

Lemma address_records_none j :
  address_records j = None → ∃ x, new_ids j = Raise x.
Proof.
  unfold address_records, new_ids, fetched_addresses.
  destruct j as [| | | | | |kv]; simpl; eauto.
  destruct (from_option id (JObj []) (dict_lookup "data" kv))
    as [| | | | | |dkv]; simpl; eauto.
  destruct (from_option id (JList []) (dict_lookup "addresses" dkv))
    as [| | | |[|c s]|l|[|[k v] akv]]; simpl; eauto; discriminate.
Qed.

Lemma new_ids_ok j :
  payload_readable j = true →
  ∃ items, fetched_addresses j = Ret items
    ∧ new_ids j = Ret (list_to_set (omap address_id items)).
Proof.
  clear bind_value dp_parse py_repr.
  unfold payload_readable, new_ids. intros H.
  destruct (address_records j) as [items|] eqn:Hrec; [|discriminate].
  exists items. rewrite (address_records_fetched _ _ Hrec).
  split; [done|]. rewrite bind_ret, (collect_ids_ok _ _ H).
  f_equal. set_solver.
Qed.

Lemma new_ids_bad j : payload_readable j = false → ∃ x, new_ids j = Raise x.
Proof.
  unfold payload_readable. intros H.
  destruct (address_records j) as [items|] eqn:Hrec;
    [|by apply address_records_none].
  unfold new_ids. rewrite (address_records_fetched _ _ Hrec), bind_ret.
  by apply collect_ids_bad.
Qed.

Lemma obtener_ids_ret tags ids :
  obtener_ids tags = Ret ids →
  ∃ r j items, tags = Some r ∧ ¬ (400 ≤ status_code r < 600)
    ∧ body r = Some j ∧ payload_readable j = true
    ∧ fetched_addresses j = Ret items
    ∧ ids = predefined_special ∪ list_to_set (omap address_id items).
Proof.
  unfold obtener_ids. destruct tags as [r|]; [|discriminate].
  unfold raise_for_status, response_json. case_bool_decide; [discriminate|].
  rewrite bind_ret. destruct (body r) as [j|] eqn:Hb; [|discriminate].
  rewrite bind_ret. destruct (payload_readable j) eqn:Hok.
  - destruct (new_ids_ok _ Hok) as (items & Hit & ->). rewrite bind_ret.
    intros [= <-]. by exists r, j, items.
  - destruct (new_ids_bad _ Hok) as (x & ->). discriminate.
Qed.





Lemma hash_key_true v k : truthy v = true → hash_key v = Some k → key_true k.
Proof.
  destruct v as [|[]|z|f|s| |]; simpl; try discriminate;
    intros Ht [= <-]; unfold key_true; split_and!; try discriminate.
  - destruct z as [|p|p]; simpl in *; try discriminate;
      destruct (odd_part p); discriminate.
  - destruct f; simpl in *; discriminate.
  - intros [= ->]. discriminate.
Qed.

Lemma address_id_true a k : address_id a = Some k → key_true k.
Proof.
  destruct a as [| | | | | |kv]; simpl; try discriminate.
  destruct (truthy _) eqn:Ht; [|discriminate]. by apply hash_key_true.
Qed.

Lemma predefined_special_strings k :
  k ∈ predefined_special → ∃ s, k = HStr s ∧ s ≠ "".
Proof.
  unfold predefined_special. rewrite elem_of_list_to_set, list_elem_of_fmap.
  intros (s & -> & Hs). exists s. split; [done|].
  intros ->. revert Hs. rewrite !elem_of_cons, elem_of_nil. naive_solver.
Qed.

Lemma obtener_ids_true tags ids k :
  obtener_ids tags = Ret ids → k ∈ ids → key_true k.
Proof.
  intros H Hk.
  destruct (obtener_ids_ret _ _ H) as (r & j & items & _ & _ & _ & _ & _ & ->).
  apply elem_of_union in Hk as [Hk | Hk].
  - destruct (predefined_special_strings _ Hk) as (s & -> & Hs).
    unfold key_true. split_and!; congruence.
  - apply elem_of_list_to_set, list_elem_of_omap in Hk as (a & _ & Ha).
    by eapply address_id_true.
Qed.

(** C10. For the set the builder returns: every member is a true scalar
    (and a non-empty string when the fetched identifiers are strings), so
    an observation whose GPS block has no address identifier (no
    ["address"], or an address object whose ["id"] is absent or null) is
    never dropped by the exclusion gate and goes on to the motion gates. *)
Theorem missing_identifier_passes tags ids now u gps address :
  obtener_ids tags = Ret ids →
  py_get gps "address" (JObj []) = Ret address →
  py_get address "id" JNull = Ret JNull →
  (∀ k, k ∈ ids → key_true k)
  ∧ ((∀ r j items a k,
        tags = Some r → body r = Some j → fetched_addresses j = Ret items →
        a ∈ items → address_id a = Some k → ∃ s, k = HStr s) →
     ∀ k, k ∈ ids → ∃ s, k = HStr s ∧ s ≠ "")
  ∧ set_contains JNull ids = Ret false
  ∧ exclusion_gate ids gps = Ret Pass
  ∧ (py_get u "gps" (JObj []) = Ret gps →
     staleness_gate now gps = Ret Pass →
     reaches_motion_gates ids now u gps).
Proof.
  intros Hids Haddr Hid.
  assert (Hnone : HNone ∉ ids).
  { intros Hin. by destruct (obtener_ids_true _ _ _ Hids Hin) as [? _]. }
  assert (Hgate : exclusion_gate ids gps = Ret Pass).
  { unfold exclusion_gate. rewrite Haddr, bind_ret, Hid, bind_ret.
    change (set_contains JNull ids) with (Ret (bool_decide (HNone ∈ ids))).
    by rewrite bool_decide_eq_false_2. }
  split_and!.
  - intros k. by apply obtener_ids_true with tags.
  - intros Hstr k Hk.
    destruct (obtener_ids_ret _ _ Hids)
      as (r & j & items & -> & _ & Hb & _ & Hit & ->).
    apply elem_of_union in Hk as [Hk | Hk].
    + by apply predefined_special_strings.
    + apply elem_of_list_to_set, list_elem_of_omap in Hk as (a & Ha & Hk).
      destruct (Hstr r j items a k eq_refl Hb Hit Ha Hk) as [s ->].
      exists s. split; [done|]. intros ->.
      by destruct (address_id_true _ _ Hk) as (_ & ? & _).
  - change (set_contains JNull ids) with (Ret (bool_decide (HNone ∈ ids))).
    by rewrite bool_decide_eq_false_2.
  - exact Hgate.
  - intros Hgps Hst. by split_and!.
Qed.


(** ** Properties of the rendering *)

Lemma cell_value_put_cell ws r c x r' c' :
  cell_value (put_cell ws r c x) r' c' =
    if decide ((r, c) = (r', c')) then value x else cell_value ws r' c'.
Proof.
  unfold cell_value, get_cell, put_cell. simpl.
  rewrite lookup_insert. by case_decide.
Qed.

Lemma cell_value_set_border ws r c b r' c' :
  cell_value (set_border ws r c b) r' c' = cell_value ws r' c'.
Proof.
  unfold set_border. rewrite cell_value_put_cell. case_decide; [|done].
  simplify_eq. reflexivity.
Qed.

Lemma cell_value_set_fill_font ws r c f g r' c' :
  cell_value (set_fill_font ws r c f g) r' c' = cell_value ws r' c'.
Proof.
  unfold set_fill_font. rewrite cell_value_put_cell. case_decide; [|done].
  simplify_eq. reflexivity.
Qed.

Lemma lookup_foldl_insert_notin (m : gmap (nat * nat) cell) l x rc :
  rc ∉ l → foldl (fun m rc => <[rc := x]> m) m l !! rc = m !! rc.
Proof.
  revert m. induction l as [|a l IH]; intros m Hnot; [done|]. simpl.
  apply not_elem_of_cons in Hnot as [Hne Hnot].
  rewrite IH by done. by rewrite lookup_insert_ne.
Qed.

Lemma cell_value_merge_cells ws rg r c :
  (r, c) ∉ tail (range_cells rg) →
  cell_value (merge_cells ws rg) r c = cell_value ws r c.
Proof.
  intros Hnot. unfold cell_value, get_cell, merge_cells. simpl.
  by rewrite lookup_foldl_insert_notin.
Qed.

Lemma range_cells_row i c1 c2 :
  range_cells {| min_row := i; min_col := c1; max_row := i; max_col := c2 |}
  = (fun c => (i, c)) <$> seq c1 (S c2 - c1).
Proof.
  unfold range_cells. simpl min_row. simpl max_row. simpl min_col.
  simpl max_col. replace (S i - i) with 1 by lia. simpl.
  rewrite app_nil_r. generalize (seq c1 (S c2 - c1)). intros l.
  induction l as [|a l IH]; [done|]. simpl. by f_equal.
Qed.

Lemma ws_cell_value ws r c v ws' r' c' :
  ws_cell ws r c v = Ret ws' →
  cell_value ws' r' c' =
    if decide ((r, c) = (r', c')) then
      if is_None v then cell_value ws r' c'
      else from_option id JNull (bind_value v)
    else cell_value ws r' c'.
Proof.
  unfold ws_cell, set_value. destruct (is_None v).
  - intros [= <-]. rewrite cell_value_put_cell.
    case_decide; [|done]. by simplify_eq.
  - destruct (merged _); [discriminate|].
    destruct (bind_value v) as [w|]; [|discriminate].
    intros [= <-]. by rewrite cell_value_put_cell.
Qed.

Lemma ws_setitem_value ws r c v ws' r' c' :
  ws_setitem ws r c v = Ret ws' →
  (r, c) ≠ (r', c') → cell_value ws' r' c' = cell_value ws r' c'.
Proof.
  unfold ws_setitem. destruct (set_value _ _) as [x|]; [|discriminate].
  intros [= <-] Hne. rewrite cell_value_put_cell. by rewrite decide_False.
Qed.

Lemma ws_setitem_written ws r c v ws' :
  ws_setitem ws r c v = Ret ws' → bind_value v = Some (cell_value ws' r c).
Proof.
  unfold ws_setitem, set_value. destruct (merged _); [discriminate|].
  destruct (bind_value v) as [w|]; [|discriminate].
  intros [= <-]. rewrite cell_value_put_cell. by rewrite decide_True.
Qed.

Lemma ws_cell_written ws r c v ws' :
  ws_cell ws r c v = Ret ws' → is_None v = false →
  bind_value v = Some (cell_value ws' r c).
Proof.
  unfold ws_cell, set_value. intros H Hv. rewrite Hv in H.
  destruct (merged _); [discriminate|].
  destruct (bind_value v) as [w|]; [|discriminate].
  injection H as <-. rewrite cell_value_put_cell. by rewrite decide_True.
Qed.

Lemma ws_cell_frame ws r c v ws' r' c' :
  ws_cell ws r c v = Ret ws' → (r, c) ≠ (r', c') →
  cell_value ws' r' c' = cell_value ws r' c'.
Proof.
  intros H Hne. rewrite (ws_cell_value _ _ _ _ _ _ _ H).
  by rewrite decide_False.
Qed.

Lemma volcar_ubicacion_frame ws i cols row ws' r c :
  volcar_ubicacion ws i cols row = Ret ws' →
  (r, c) ≠ (i, 2) ∨ 2 ∉ cols →
  cell_value ws' r c = cell_value ws r c.
Proof.
  revert ws. induction cols as [|col rest IH]; intros ws H Hne; simpl in H.
  - by injection H as <-.
  - destruct (ws_cell ws i col _) as [ws1|] eqn:H1; [|discriminate].
    rewrite bind_ret in H. rewrite (IH _ H), cell_value_set_border.
    + rewrite (ws_cell_value _ _ _ _ _ _ _ H1). case_decide; [|done].
      simplify_eq. destruct (Nat.eqb_spec c 2) as [-> | ?]; [|done].
      destruct Hne as [? | Hne]; [done|]. rewrite not_elem_of_cons in Hne.
      by destruct Hne.
    + destruct Hne as [? | Hne]; [by left | right].
      rewrite not_elem_of_cons in Hne. by destruct Hne.
Qed.

Lemma volcar_ubicacion_written ws i row ws' :
  volcar_ubicacion ws i (seq 2 7) row = Ret ws' →
  is_None (Ubicación row) = false →
  bind_value (Ubicación row) = Some (cell_value ws' i 2).
Proof.
  change (seq 2 7) with (2 :: seq 3 6).
  cbn [volcar_ubicacion Nat.eqb]. intros H Hv.
  destruct (ws_cell ws i 2 (Ubicación row)) as [ws1|] eqn:H1; [|discriminate].
  rewrite bind_ret in H.
  rewrite (volcar_ubicacion_frame _ _ _ _ _ i 2 H), cell_value_set_border.
  - by apply (ws_cell_written _ _ _ _ _ H1).
  - right. simpl. rewrite !not_elem_of_cons. split_and!; try lia.
    apply not_elem_of_nil.
Qed.

Lemma volcar_fila_spec ws i row ws' :
  volcar_fila ws i row = Ret ws' →
  row_written ws' i row
  ∧ ∀ r c, r ≠ i → cell_value ws' r c = cell_value ws r c.
Proof.
  unfold volcar_fila. intros H.
  destruct (ws_cell ws i 1 (Unidad row)) as [ws1|] eqn:H1; [|discriminate].
  rewrite bind_ret in H.
  destruct (volcar_ubicacion _ i (seq 2 7) row) as [ws4|] eqn:H4;
    [|discriminate].
  rewrite bind_ret in H.
  destruct (ws_cell ws4 i 9 _) as [ws5|] eqn:H5; [|discriminate].
  rewrite bind_ret in H.
  assert (Hfinal : ∀ r c, cell_value ws' r c = cell_value ws5 r c).
  { intros r c. injection H as <-.
    destruct (Estatus row);
      by rewrite cell_value_set_fill_font, cell_value_set_border. }
  assert (Hrange : tail (range_cells {| min_row := i; min_col := 2;
                                        max_row := i; max_col := 8 |})
                   = [(i, 3); (i, 4); (i, 5); (i, 6); (i, 7); (i, 8)]).
  { by rewrite range_cells_row. }
  split; [split_and!|].
  - intros Hv. rewrite Hfinal.
    rewrite (ws_cell_frame _ _ _ _ _ i 1 H5) by (intros [=]).
    rewrite (volcar_ubicacion_frame _ _ _ _ _ i 1 H4) by (left; intros [=]).
    rewrite cell_value_merge_cells, cell_value_set_border.
    + by apply (ws_cell_written _ _ _ _ _ H1).
    + rewrite Hrange, !not_elem_of_cons. split_and!; try (intros [=]).
      apply not_elem_of_nil.
  - intros Hv. rewrite Hfinal.
    rewrite (ws_cell_frame _ _ _ _ _ i 2 H5) by (intros [=]).
    by apply (volcar_ubicacion_written _ _ _ _ H4).
  - rewrite Hfinal. by apply (ws_cell_written _ _ _ _ _ H5).
  - intros r c Hr. rewrite Hfinal.
    rewrite (ws_cell_frame _ _ _ _ _ r c H5) by (intros [=]; lia).
    rewrite (volcar_ubicacion_frame _ _ _ _ _ r c H4)
      by (left; intros [=]; lia).
    rewrite cell_value_merge_cells, cell_value_set_border.
    + apply (ws_cell_frame _ _ _ _ _ r c H1). intros [=]. lia.
    + rewrite Hrange, !not_elem_of_cons.
      split_and!; try (intros [=]; lia). apply not_elem_of_nil.
Qed.

Lemma volcar_datos_spec ws i results ws' :
  volcar_datos ws i results = Ret ws' →
  (∀ k row, results !! k = Some row → row_written ws' (i + k) row)
  ∧ (∀ r c, r < i ∨ i + length results ≤ r →
            cell_value ws' r c = cell_value ws r c).
Proof.
  revert ws i. induction results as [|row rest IH]; intros ws i H;
    simpl in H.
  - injection H as <-. split; [intros k row [=] | done].
  - destruct (volcar_fila ws i row) as [ws1|] eqn:H1; [|discriminate].
    rewrite bind_ret in H. destruct (IH _ _ H) as [Hrows Hframe].
    destruct (volcar_fila_spec _ _ _ _ H1) as [Hrow Hframe1].
    split.
    + intros [|k] row'; simpl.
      * intros [= <-]. rewrite Nat.add_0_r.
        destruct Hrow as (Hu & Hl & Hs).
        unfold row_written. rewrite !Hframe by lia. done.
      * intros Hk. replace (i + S k) with (S i + k) by lia. by apply Hrows.
    + intros r c Hr. simpl in Hr. rewrite Hframe by lia.
      apply Hframe1. lia.
Qed.

Lemma procesar_registros_rows ids now vehicles st st' :
  procesar_registros ids now vehicles st = (st', None) →
  st'.1 = st.1 ++ omap (fila_de ids now) vehicles.
Proof.
  revert st. induction vehicles as [|u rest IH]; intros st H; simpl in H.
  - injection H as <-. by rewrite app_nil_r.
  - destruct (paso ids now st u) as [st1|] eqn:Hp; [|discriminate].
    rewrite (IH _ H). simpl. unfold fila_de. unfold paso in Hp.
    destruct (procesar_unidad ids now u) as [[row|]|x].
    + injection Hp as <-. simpl. by rewrite <- app_assoc.
    + by injection Hp as <-.
    + destruct (log_unidad u) as [entry|]; [|discriminate].
      by injection Hp as <-.
Qed.

Lemma truthy_not_None v : truthy v = true → is_None v = false.
Proof. by destruct v. Qed.

Lemma derive_location_true gps loc :
  derive_location gps = Ret loc → truthy loc = true.
Proof.
  unfold derive_location, lat_lon.
  destruct (py_get gps "reverseGeo" _) as [geo|]; [|discriminate].
  rewrite bind_ret.
  destruct (py_get geo "formattedLocation" _) as [formatted|]; [|discriminate].
  rewrite bind_ret. destruct (truthy formatted) eqn:Ht.
  - by intros [= <-].
  - destruct (py_get gps "latitude" _) as [lat|]; [|discriminate].
    rewrite bind_ret.
    destruct (py_get gps "longitude" _) as [lon|]; [|discriminate].
    rewrite bind_ret. by intros [= <-].
Qed.

Lemma fila_de_location ids now u row :
  fila_de ids now u = Some row → truthy (Ubicación row) = true.
Proof.
  unfold fila_de, procesar_unidad, clasificar.
  destruct (py_get u "gps" _) as [gps|]; [|discriminate]. rewrite bind_ret.
  destruct (staleness_gate now gps) as [[|]|]; try discriminate.
  rewrite bind_ret.
  destruct (exclusion_gate ids gps) as [[|]|]; try discriminate.
  rewrite bind_ret.
  destruct (motion_gate gps) as [[|]|]; try discriminate.
  rewrite bind_ret.
  destruct (derive_status gps) as [status|]; try discriminate.
  rewrite bind_ret.
  destruct (derive_location gps) as [loc|] eqn:Hloc; try discriminate.
  rewrite bind_ret.
  destruct (py_get u "name" _) as [name|]; try discriminate.
  rewrite bind_ret. intros [= <-]. simpl. by eapply derive_location_true.
Qed.

(** C6. The rows of the report are the rows of the records that passed
    all gates, in the order of the telemetry list (nothing sorts them),
    written on consecutive sheet rows from row 7: the k-th classified
    row is on sheet row 7 + k, and the rows after the last one are as
    the template had them. *)
Theorem rows_in_input_order ids now vehicles lg results lg' ws ws' :
  procesar_registros ids now vehicles ([], lg) = ((results, lg'), None) →
  generar_excel ws now results = Ret ws' →
  results = omap (fila_de ids now) vehicles
  ∧ (∀ k row, results !! k = Some row →
       is_None (Ubicación row) = false
       ∧ row_written ws' (start_row + k) row)
  ∧ (∀ r c, start_row + length results ≤ r →
       cell_value ws' r c = cell_value (deshacer_merges ws) r c).
Proof.
  intros Hloop Hgen.
  assert (Hres : results = omap (fila_de ids now) vehicles).
  { by apply procesar_registros_rows in Hloop. }
  unfold generar_excel in Hgen.
  destruct (ws_setitem _ 2 3 _) as [ws2|] eqn:H2; [|discriminate].
  rewrite bind_ret in Hgen.
  destruct (ws_setitem _ 2 6 _) as [ws3|] eqn:H3; [|discriminate].
  rewrite bind_ret in Hgen.
  destruct (volcar_datos ws3 start_row results) as [ws4|] eqn:H4;
    [|discriminate].
  rewrite bind_ret in Hgen.
  destruct (volcar_datos_spec _ _ _ _ H4) as [Hrows Hframe].
  assert (Hlast : ∀ r c, start_row ≤ r →
                         cell_value ws' r c = cell_value ws4 r c).
  { intros r c Hr. apply (ws_setitem_value _ _ _ _ _ _ _ Hgen).
    intros [=]. unfold start_row in Hr. lia. }
  split_and!; [exact Hres | |].
  - intros k row Hk. split.
    + apply truthy_not_None. subst results.
      apply list_elem_of_lookup_2, list_elem_of_omap in Hk as (u & _ & Hu).
      by eapply fila_de_location.
    + destruct (Hrows _ _ Hk) as (Hu & Hl & Hs).
      unfold row_written. rewrite !Hlast by lia. done.
  - intros r c Hr. rewrite Hlast by lia. rewrite Hframe by lia.
    rewrite (ws_setitem_value _ _ _ _ _ r c H3)
      by (intros [=]; unfold start_row in Hr; lia).
    apply (ws_setitem_value _ _ _ _ _ r c H2).
    intros [=]. unfold start_row in Hr. lia.
Qed.

(** *** Rendering returns *)

Lemma get_cell_merged ws r c :
  plantilla_ok ws → merged (get_cell ws r c) = true → ¬ assigned r c.
Proof.
  unfold get_cell. intros Hok.
  destruct (cells ws !! (r, c)) as [x|] eqn:Hx; simpl; [|discriminate].
  by apply Hok.
Qed.

Lemma plantilla_ok_put_cell ws r c x :
  plantilla_ok ws → (merged x = true → ¬ assigned r c) →
  plantilla_ok (put_cell ws r c x).
Proof.
  intros Hok Hx r' c' y. unfold put_cell. simpl. rewrite lookup_insert.
  case_decide as Heq.
  - injection Heq as <- <-. intros [= <-]. exact Hx.
  - apply Hok.
Qed.

Lemma plantilla_ok_set_border ws r c b :
  plantilla_ok ws → plantilla_ok (set_border ws r c b).
Proof.
  intros Hok. apply plantilla_ok_put_cell; [done|]. simpl.
  by apply get_cell_merged.
Qed.

Lemma plantilla_ok_set_fill_font ws r c f g :
  plantilla_ok ws → plantilla_ok (set_fill_font ws r c f g).
Proof.
  intros Hok. apply plantilla_ok_put_cell; [done|]. simpl.
  by apply get_cell_merged.
Qed.

Lemma lookup_foldl_insert_in (m : gmap (nat * nat) cell) l x rc :
  rc ∈ l → foldl (fun m rc => <[rc := x]> m) m l !! rc = Some x.
Proof.
  revert m. induction l as [|a l IH]; intros m Hin; [by inversion Hin|].
  simpl. destruct (decide (rc ∈ l)) as [Hl | Hl]; [by apply IH|].
  apply elem_of_cons in Hin as [-> | ?]; [|done].
  rewrite (lookup_foldl_insert_notin _ l x a Hl). apply lookup_insert_eq.
Qed.

Lemma plantilla_ok_merge_cells ws i :
  start_row ≤ i → plantilla_ok ws →
  plantilla_ok (merge_cells ws {| min_row := i; min_col := 2;
                                  max_row := i; max_col := 8 |}).
Proof.
  intros Hi Hok r c x. unfold merge_cells. cbn [cells].
  set (l := [(i, 3); (i, 4); (i, 5); (i, 6); (i, 7); (i, 8)]).
  assert (Hl : tail (range_cells {| min_row := i; min_col := 2;
                                    max_row := i; max_col := 8 |}) = l)
    by (by rewrite range_cells_row).
  rewrite Hl. clear Hl.
  destruct (decide ((r, c) ∈ l)) as [Hin | Hin].
  - intros _ _ [[-> _] | [_ Hc]]; unfold l in Hin;
      rewrite !elem_of_cons, elem_of_nil in Hin.
    + unfold start_row in Hi. naive_solver lia.
    + naive_solver lia.
  - rewrite lookup_foldl_insert_notin by done. apply Hok.
Qed.

Lemma lookup_foldl_delete_Some (m : gmap (nat * nat) cell) l rc x :
  foldl (fun m rc => delete rc m) m l !! rc = Some x → m !! rc = Some x.
Proof.
  revert m. induction l as [|a l IH]; intros m; [done|]. simpl.
  intros H. apply IH in H. apply lookup_delete_Some in H. by destruct H.
Qed.

Lemma plantilla_ok_unmerge_cells ws rg :
  plantilla_ok ws → plantilla_ok (unmerge_cells ws rg).
Proof.
  intros Hok r c x. unfold unmerge_cells. simpl. intros H.
  apply lookup_foldl_delete_Some in H. by apply Hok.
Qed.

Lemma plantilla_ok_deshacer_merges ws :
  plantilla_ok ws → plantilla_ok (deshacer_merges ws).
Proof.
  unfold deshacer_merges. generalize (merged_cells ws). intros l. revert ws.
  induction l as [|mr l IH]; intros ws Hok; [done|]. simpl. apply IH.
  case_bool_decide; [by apply plantilla_ok_unmerge_cells | done].
Qed.

Lemma ws_cell_returns ws r c v :
  plantilla_ok ws → assigned r c → storable v →
  ∃ ws', ws_cell ws r c v = Ret ws' ∧ plantilla_ok ws'.
Proof.
  intros Hok Has Hv. unfold ws_cell, set_value.
  destruct (is_None v) eqn:Hnone.
  - eexists. split; [done|]. apply plantilla_ok_put_cell; [done|].
    by apply get_cell_merged.
  - destruct (merged (get_cell ws r c)) eqn:Hm.
    { by destruct (get_cell_merged _ _ _ Hok Hm). }
    destruct Hv as [Hv | [w Hw]]; [congruence|]. rewrite Hw.
    eexists. split; [done|]. by apply plantilla_ok_put_cell.
Qed.

Lemma ws_cell_None_returns ws r c :
  plantilla_ok ws →
  ∃ ws', ws_cell ws r c JNull = Ret ws' ∧ plantilla_ok ws'.
Proof.
  intros Hok. eexists. split; [done|].
  apply plantilla_ok_put_cell; [done|]. by apply get_cell_merged.
Qed.

Lemma ws_setitem_returns ws r c v :
  plantilla_ok ws → assigned r c → is_Some (bind_value v) →
  ∃ ws', ws_setitem ws r c v = Ret ws' ∧ plantilla_ok ws'.
Proof.
  intros Hok Has [w Hw]. unfold ws_setitem, set_value.
  destruct (merged (get_cell ws r c)) eqn:Hm.
  { by destruct (get_cell_merged _ _ _ Hok Hm). }
  rewrite Hw. eexists. split; [done|]. by apply plantilla_ok_put_cell.
Qed.

Lemma volcar_ubicacion_returns ws i cols row :
  start_row ≤ i → plantilla_ok ws → storable (Ubicación row) →
  ∃ ws', volcar_ubicacion ws i cols row = Ret ws' ∧ plantilla_ok ws'.
Proof.
  intros Hi. revert ws. induction cols as [|col rest IH]; intros ws Hok Hv.
  - by exists ws.
  - simpl. destruct (Nat.eqb_spec col 2) as [-> | Hcol].
    + destruct (ws_cell_returns ws i 2 (Ubicación row)) as (ws1 & -> & Hok1);
        [done | right; auto | done |].
      rewrite bind_ret. apply IH; [|done]. by apply plantilla_ok_set_border.
    + destruct (ws_cell_None_returns ws i col Hok) as (ws1 & -> & Hok1).
      rewrite bind_ret. apply IH; [|done]. by apply plantilla_ok_set_border.
Qed.

Lemma volcar_fila_returns ws i row :
  start_row ≤ i → plantilla_ok ws →
  storable (Unidad row) → storable (Ubicación row) →
  is_Some (bind_value (JStr (estatus_str (Estatus row)))) →
  ∃ ws', volcar_fila ws i row = Ret ws' ∧ plantilla_ok ws'.
Proof.
  intros Hi Hok Hu Hl Hs. unfold volcar_fila.
  destruct (ws_cell_returns ws i 1 (Unidad row)) as (ws1 & -> & Hok1);
    [done | right; auto | done |].
  rewrite bind_ret.
  destruct (volcar_ubicacion_returns
              (merge_cells (set_border ws1 i 1 ThinBlack)
                 {| min_row := i; min_col := 2; max_row := i; max_col := 8 |})
              i (seq 2 7) row) as (ws4 & -> & Hok4); [done | | done |].
  { apply plantilla_ok_merge_cells; [done|].
    by apply plantilla_ok_set_border. }
  rewrite bind_ret.
  destruct (ws_cell_returns ws4 i 9 (JStr (estatus_str (Estatus row))))
    as (ws5 & -> & Hok5); [done | right; auto | by right |].
  rewrite bind_ret. eexists. split; [done|].
  destruct (Estatus row); apply plantilla_ok_set_fill_font;
    by apply plantilla_ok_set_border.
Qed.

Lemma volcar_datos_returns ws i results :
  start_row ≤ i → plantilla_ok ws →
  Forall (fun row => storable (Unidad row) ∧ storable (Ubicación row)
                     ∧ is_Some (bind_value (JStr (estatus_str (Estatus row)))))
         results →
  ∃ ws', volcar_datos ws i results = Ret ws' ∧ plantilla_ok ws'.
Proof.
  intros Hi Hok Hrows. revert ws i Hi Hok.
  induction Hrows as [|row rest (Hu & Hl & Hs) _ IH]; intros ws i Hi Hok.
  - by exists ws.
  - simpl.
    destruct (volcar_fila_returns ws i row Hi Hok Hu Hl Hs) as (ws1 & -> & Hok1).
    rewrite bind_ret. apply IH; [lia | done].
Qed.

(** Rendering returns a sheet whenever no merged range of the template
    covers a cell the run assigns and the library stores the values. *)
Lemma generar_excel_returns ws now results :
  plantilla_ok ws →
  is_Some (bind_value (JStr (isoformat_date now))) →
  is_Some (bind_value (JStr (strftime_hms now))) →
  is_Some (bind_value (JStr (conteo results))) →
  Forall (fun row => storable (Unidad row) ∧ storable (Ubicación row)
                     ∧ is_Some (bind_value (JStr (estatus_str (Estatus row)))))
         results →
  ∃ ws', generar_excel ws now results = Ret ws'.
Proof.
  intros Hok Hd Ht Hc Hrows. unfold generar_excel.
  destruct (ws_setitem_returns (deshacer_merges ws) 2 3
              (JStr (isoformat_date now))) as (ws2 & -> & Hok2);
    [by apply plantilla_ok_deshacer_merges | left; auto | done |].
  rewrite bind_ret.
  destruct (ws_setitem_returns ws2 2 6 (JStr (strftime_hms now)))
    as (ws3 & -> & Hok3); [done | left; auto | done |].
  rewrite bind_ret.
  destruct (volcar_datos_returns ws3 start_row results) as (ws4 & -> & Hok4);
    [done | done | done |].
  rewrite bind_ret.
  destruct (ws_setitem_returns ws4 2 8 (JStr (conteo results)))
    as (ws5 & -> & _); [done | left; auto | done |].
  by exists ws5.
Qed.

(** ** Properties of the run *)

Lemma append_inj_length (s1 s2 t1 t2 : string) :
  String.length s1 = String.length s2 →
  s1 +:+ t1 = s2 +:+ t2 → s1 = s2 ∧ t1 = t2.
Proof.
  revert s2. induction s1 as [|c s1 IH]; intros [|c' s2]; simpl;
    try discriminate; [done|].
  intros [= Hlen] [= -> H]. destruct (IH _ Hlen H) as [-> ->]. done.
Qed.

Lemma append_empty_r (s : string) : s +:+ "" = s.
Proof.
  induction s as [|c s IH]; [done|].
  change (String c (s +:+ "") = String c s). by f_equal.
Qed.

Lemma length_append (s t : string) :
  String.length (s +:+ t) = String.length s + String.length t.
Proof.
  induction s as [|c s IH]; [done|].
  change (S (String.length (s +:+ t)) = S (String.length s + String.length t)).
  by f_equal.
Qed.

Lemma zfill_4_digits n :
  n < 100 * 100 →
  digits_value (zfill 4 n) 0 = n ∧ String.length (zfill 4 n) = 4.
Proof.
  intros Hn.
  assert (H : forallb (fun n => (digits_value (zfill 4 n) 0 =? n)
                                && (String.length (zfill 4 n) =? 4))
                      (seq 0 (100 * 100)) = true) by (vm_compute; reflexivity).
  rewrite forallb_forall in H. specialize (H n).
  rewrite andb_true_iff, !Nat.eqb_eq in H. apply H, in_seq. lia.
Qed.

Lemma zfill_2_digits n :
  n < 100 →
  digits_value (zfill 2 n) 0 = n ∧ String.length (zfill 2 n) = 2.
Proof.
  intros Hn.
  assert (H : forallb (fun n => (digits_value (zfill 2 n) 0 =? n)
                                && (String.length (zfill 2 n) =? 2))
                      (seq 0 100) = true) by (vm_compute; reflexivity).
  rewrite forallb_forall in H. specialize (H n).
  rewrite andb_true_iff, !Nat.eqb_eq in H. apply H, in_seq. lia.
Qed.

Lemma zfill_inj w a b s t :
  (w = 2 ∧ a < 100 ∧ b < 100) ∨ (w = 4 ∧ a < 100 * 100 ∧ b < 100 * 100) →
  zfill w a +:+ s = zfill w b +:+ t → a = b ∧ s = t.
Proof.
  intros Hw H.
  assert (Hd : digits_value (zfill w a) 0 = a ∧ digits_value (zfill w b) 0 = b
               ∧ String.length (zfill w a) = String.length (zfill w b)).
  { destruct Hw as [(-> & Ha & Hb) | (-> & Ha & Hb)].
    - destruct (zfill_2_digits a Ha) as [? ->].
      destruct (zfill_2_digits b Hb) as [? ->]. done.
    - destruct (zfill_4_digits a Ha) as [? ->].
      destruct (zfill_4_digits b Hb) as [? ->]. done. }
  destruct Hd as (Ha & Hb & Hlen).
  destruct (append_inj_length _ _ _ _ Hlen H) as [Heq ->].
  split; [|done]. rewrite <- Ha, <- Hb. by rewrite Heq.
Qed.

Lemma ts_str_inj d d' :
  valid_datetime d → valid_datetime d' → ts_str d = ts_str d' →
  dt_year d = dt_year d' ∧ dt_month d = dt_month d' ∧ dt_day d = dt_day d'
  ∧ dt_hour d = dt_hour d' ∧ dt_minute d = dt_minute d'
  ∧ dt_second d = dt_second d'.
Proof.
  intros (Hy & Hm & Hd & Hh & Hmi & Hs) (Hy' & Hm' & Hd' & Hh' & Hmi' & Hs').
  unfold ts_str. intros H.
  apply zfill_inj in H as [-> H]; [|right; lia]. injection H as H.
  apply zfill_inj in H as [-> H]; [|left; lia]. injection H as H.
  apply zfill_inj in H as [-> H]; [|left; lia]. injection H as H.
  apply zfill_inj in H as [-> H]; [|left; lia]. injection H as H.
  apply zfill_inj in H as [-> H]; [|left; lia]. injection H as H.
  assert (H' : zfill 2 (dt_second d) +:+ "" = zfill 2 (dt_second d') +:+ "").
  { by rewrite !append_empty_r. }
  apply zfill_inj in H' as [-> _]; [done | left; lia].
Qed.

Lemma enviar_whatsapps_files e w destinos out w' :
  enviar_whatsapps e w destinos = (out, w') → files w' = files w.
Proof.
  revert w. induction destinos as [|d rest IH]; intros w; simpl.
  - by intros [= _ <-].
  - unfold enviar_whatsapp. destruct (whatsapp_ok e d).
    + intros H. by rewrite (IH _ H).
    + by intros [= _ <-].
Qed.

Lemma entregar_files e w out w' p :
  entregar e w = (out, w') → p ≠ nuevo_archivo e →
  files w' !! p = files w !! p.
Proof.
  unfold entregar, enviar_correo. intros H Hp.
  destruct (files w !! nuevo_archivo e) as [adjunto|];
    [|by injection H as _ <-].
  destruct (smtp_ok e); [|by injection H as _ <-].
  destruct (enviar_whatsapps e _ (DESTINOS e)) as [out2 w2] eqn:Hw.
  apply enviar_whatsapps_files in Hw. simpl in Hw.
  destruct out2; injection H as _ <-; rewrite ?Hw; try done.
  unfold eliminar. destruct (remove_ok e); simpl; rewrite ?Hw; [|done].
  by rewrite lookup_delete_ne.
Qed.

Lemma reportar_files e w results out w' p :
  reportar e w results = (out, w') → p ≠ nuevo_archivo e →
  files w' !! p = files w !! p.
Proof.
  unfold reportar. intros H Hp.
  destruct (load_workbook w (plantilla_path e)) as [ws|];
    [|by injection H as _ <-].
  destruct (generar_excel ws (clock e) results) as [ws'|];
    [|by injection H as _ <-].
  rewrite (entregar_files _ _ _ _ _ H Hp). simpl.
  by rewrite lookup_insert_ne.
Qed.

Lemma main_files e w out w' p :
  main e w = (out, w') → p ≠ nuevo_archivo e →
  files w' !! p = files w !! p.
Proof.
  unfold main. intros H Hp.
  destruct (negb _); [by injection H as _ <-|].
  destruct (obtener_ids (tags_of e)) as [ids|]; [|by injection H as _ <-].
  destruct (obtener_vehiculos (veh_of e)) as [vehicles|];
    [|by injection H as _ <-].
  destruct (py_iter vehicles) as [items|]; [|by injection H as _ <-].
  destruct (procesar_registros ids (clock e) items _) as [st [x|]];
    [by injection H as _ <-|].
  by rewrite (reportar_files _ _ _ _ _ _ H Hp).
Qed.

Lemma nuevo_archivo_not_plantilla e : nuevo_archivo e ≠ plantilla_path e.
Proof. unfold nuevo_archivo, plantilla_path. intros [=]. Qed.

(** C9. The report is saved to the file named
    ["Reporte de estatus de unidades <YYYY-MM-DD_HH-MM-SS>.xlsx"] in the
    directory of the script, a path that differs from the template's;
    the name determines the run's time to the second; and however the
    run ends, the template file (like every file but the report) is what
    it was before. *)
Theorem report_file_is_new e :
  nuevo_archivo e ≠ plantilla_path e
  ∧ nuevo_archivo e =
      (base_dir e,
       "Reporte de estatus de unidades " +:+ ts_str (clock e) +:+ ".xlsx")
  ∧ (∀ e', valid_datetime (clock e) → valid_datetime (clock e') →
       nuevo_archivo e = nuevo_archivo e' →
       dt_year (clock e) = dt_year (clock e')
       ∧ dt_month (clock e) = dt_month (clock e')
       ∧ dt_day (clock e) = dt_day (clock e')
       ∧ dt_hour (clock e) = dt_hour (clock e')
       ∧ dt_minute (clock e) = dt_minute (clock e')
       ∧ dt_second (clock e) = dt_second (clock e'))
  ∧ (∀ w results ws ws',
       load_workbook w (plantilla_path e) = Ret ws →
       generar_excel ws (clock e) results = Ret ws' →
       ∃ w1, reportar e w results = entregar e w1
         ∧ files w1 = <[nuevo_archivo e := ws']> (files w))
  ∧ (∀ w out w', main e w = (out, w') →
       files w' !! plantilla_path e = files w !! plantilla_path e
       ∧ ∀ p, p ≠ nuevo_archivo e → files w' !! p = files w !! p).
Proof.
  split_and!.
  - apply nuevo_archivo_not_plantilla.
  - reflexivity.
  - intros e' Hv Hv'. unfold nuevo_archivo. intros [= _ H].
    apply ts_str_inj; [done | done |].
    assert (Hlen : String.length (ts_str (clock e))
                   = String.length (ts_str (clock e'))).
    { destruct Hv as (Hy & Hm & Hd & Hh & Hmi & Hs).
      destruct Hv' as (Hy' & Hm' & Hd' & Hh' & Hmi' & Hs').
      unfold ts_str. rewrite !length_append.
      destruct (zfill_4_digits (dt_year (clock e))) as [_ ->]; [lia|].
      destruct (zfill_4_digits (dt_year (clock e'))) as [_ ->]; [lia|].
      destruct (zfill_2_digits (dt_month (clock e))) as [_ ->]; [lia|].
      destruct (zfill_2_digits (dt_month (clock e'))) as [_ ->]; [lia|].
      destruct (zfill_2_digits (dt_day (clock e))) as [_ ->]; [lia|].
      destruct (zfill_2_digits (dt_day (clock e'))) as [_ ->]; [lia|].
      destruct (zfill_2_digits (dt_hour (clock e))) as [_ ->]; [lia|].
      destruct (zfill_2_digits (dt_hour (clock e'))) as [_ ->]; [lia|].
      destruct (zfill_2_digits (dt_minute (clock e))) as [_ ->]; [lia|].
      destruct (zfill_2_digits (dt_minute (clock e'))) as [_ ->]; [lia|].
      destruct (zfill_2_digits (dt_second (clock e))) as [_ ->]; [lia|].
      destruct (zfill_2_digits (dt_second (clock e'))) as [_ ->]; [lia|].
      done. }
    by destruct (append_inj_length _ _ _ _ Hlen H).
  - intros w results ws ws' Hload Hgen. unfold reportar.
    rewrite Hload, Hgen. eexists. split; [reflexivity | done].
  - intros w out w' H. split.
    + apply (main_files _ _ _ _ _ H). apply not_eq_sym.
      apply nuevo_archivo_not_plantilla.
    + intros p. apply (main_files _ _ _ _ _ H).
Qed.

Lemma registro_no_objeto ids now st u rest :
  (∀ kv, u ≠ JObj kv) →
  procesar_registros ids now (u :: rest) st = (st, Some AttributeError).
Proof. intros Hu. destruct u; try done. by destruct (Hu kv). Qed.

Lemma registros_de_objetos ids now vehicles st :
  Forall (fun u => ∃ kv, u = JObj kv) vehicles →
  ∃ lg, procesar_registros ids now vehicles st
        = ((st.1 ++ omap (fila_de ids now) vehicles, lg), None).
Proof.
  revert st. induction vehicles as [|u rest IH]; intros st Hobj.
  - exists st.2. simpl. rewrite app_nil_r. by destruct st.
  - apply Forall_cons in Hobj as [[kv ->] Hrest]. simpl.
    unfold paso, fila_de.
    destruct (procesar_unidad ids now (JObj kv)) as [[row|]|x]; simpl.
    + destruct (IH (st.1 ++ [row], st.2) Hrest) as [lg ->]. exists lg.
      simpl. by rewrite <- app_assoc.
    + apply (IH st Hrest).
    + destruct (IH (st.1, st.2 ++ [(ERROR, "Procesando unidad " +:+
                       py_str (from_option id JNull (dict_lookup "name" kv)))])
                   Hrest) as [lg ->].
      by exists lg.
Qed.

(** ** Further properties: settings and names *)

Lemma append_assoc (a b c : string) : (a +:+ b) +:+ c = a +:+ (b +:+ c).
Proof.
  induction a as [|x a IH]; [done|].
  change (String x ((a +:+ b) +:+ c) = String x (a +:+ (b +:+ c))).
  by f_equal.
Qed.

Lemma has_char_append ch a b :
  has_char ch (a +:+ b) = has_char ch a || has_char ch b.
Proof.
  induction a as [|x a IH]; [done|].
  change (String.eqb (String x "") ch || has_char ch (a +:+ b)
          = String.eqb (String x "") ch || has_char ch a || has_char ch b).
  rewrite IH. by rewrite orb_assoc.
Qed.

Lemma split_from_length cur s :
  length (split_from cur s) = S (count_char "," s).
Proof.
  revert cur. induction s as [|c rest IH]; intros cur; [done|].
  cbn [split_from count_char].
  destruct (String.eqb (String c "") ","); simpl; by rewrite IH.
Qed.

Lemma split_from_concat cur s :
  String.concat "," (split_from cur s) = cur +:+ s.
Proof.
  revert cur. induction s as [|c rest IH]; intros cur.
  - simpl. by rewrite append_empty_r.
  - cbn [split_from]. destruct (String.eqb_spec (String c "") ",") as [Hc | Hc].
    + injection Hc as ->.
      change (String.concat "," (cur :: split_from "" rest))
        with (match split_from "" rest with
              | [] => cur
              | _ :: _ => cur +:+ "," +:+ String.concat "," (split_from "" rest)
              end).
      rewrite IH. pose proof (split_from_length "" rest) as Hl.
      destruct (split_from "" rest); [discriminate | reflexivity].
    + rewrite IH, append_assoc. reflexivity.
Qed.

Lemma split_from_pieces cur s :
  has_char "," cur = false →
  Forall (fun piece => has_char "," piece = false) (split_from cur s).
Proof.
  revert cur. induction s as [|c rest IH]; intros cur Hcur.
  - by constructor.
  - cbn [split_from]. destruct (String.eqb_spec (String c "") ",") as [Hc | Hc].
    + constructor; [done|]. by apply IH.
    + apply IH. rewrite has_char_append, Hcur. cbn [has_char orb].
      apply String.eqb_neq in Hc. by rewrite Hc.
Qed.

(** X1. Line 25: the list of recipients is never empty and joins back
    to the value of the variable with commas; no recipient holds a
    comma, and there is one more recipient than commas. With the
    variable unset (or empty) the one recipient is the empty string. *)
Theorem destinos_split env :
  destinos_de env ≠ []
  ∧ String.concat "," (destinos_de env) = default "" env
  ∧ Forall (fun d => has_char "," d = false) (destinos_de env)
  ∧ length (destinos_de env) = S (count_char "," (default "" env))
  ∧ (default "" env = "" → destinos_de env = [""]).
Proof.
  unfold destinos_de. split_and!.
  - intros H. pose proof (split_from_length "" (default "" env)) as Hl.
    rewrite H in Hl. discriminate.
  - by rewrite split_from_concat.
  - by apply split_from_pieces.
  - apply split_from_length.
  - by intros ->.
Qed.

Lemma basename_from_plain cur n :
  has_char "/" n = false → basename_from cur n = cur +:+ n.
Proof.
  revert cur. induction n as [|c rest IH]; intros cur.
  - intros _. simpl. by rewrite append_empty_r.
  - cbn [has_char basename_from]. intros H.
    apply orb_false_elim in H as [Hc Hrest]. rewrite Hc.
    rewrite (IH _ Hrest), append_assoc. reflexivity.
Qed.

Lemma basename_from_dir cur d n :
  has_char "/" n = false → basename_from cur (d +:+ "/" +:+ n) = n.
Proof.
  intros Hn. revert cur. induction d as [|c rest IH]; intros cur.
  - change (basename_from cur ("" +:+ "/" +:+ n)) with (basename_from "" n).
    by rewrite basename_from_plain.
  - change (String c rest +:+ "/" +:+ n) with (String c (rest +:+ "/" +:+ n)).
    cbn [basename_from]. destruct (String.eqb _ _); apply IH.
Qed.

Lemma zfill_plain n :
  n < 100 * 100 →
  has_char "/" (zfill 4 n) = false ∧ has_char "/" (zfill 2 n) = false.
Proof.
  intros Hn.
  assert (H : forallb (fun n => negb (has_char "/" (zfill 4 n))
                                && negb (has_char "/" (zfill 2 n)))
                      (seq 0 (100 * 100)) = true) by (vm_compute; reflexivity).
  rewrite forallb_forall in H. specialize (H n).
  rewrite andb_true_iff, !negb_true_iff in H. apply H, in_seq. lia.
Qed.

Lemma nuevo_archivo_plain e :
  valid_datetime (clock e) → has_char "/" (nuevo_archivo e).2 = false.
Proof.
  intros (Hy & Hm & Hd & Hh & Hmi & Hs). unfold nuevo_archivo, ts_str.
  cbn [snd]. rewrite !has_char_append.
  destruct (zfill_plain (dt_year (clock e))) as [-> _]; [lia|].
  destruct (zfill_plain (dt_month (clock e))) as [_ ->]; [lia|].
  destruct (zfill_plain (dt_day (clock e))) as [_ ->]; [lia|].
  destruct (zfill_plain (dt_hour (clock e))) as [_ ->]; [lia|].
  destruct (zfill_plain (dt_minute (clock e))) as [_ ->]; [lia|].
  destruct (zfill_plain (dt_second (clock e))) as [_ ->]; [lia|].
  reflexivity.
Qed.

Lemma report_name_base e :
  valid_datetime (clock e) →
  basename (path_str (nuevo_archivo e)) = (nuevo_archivo e).2.
Proof.
  intros Hv. unfold basename, path_str. apply basename_from_dir.
  by apply nuevo_archivo_plain.
Qed.

(** X2. [os.path.basename] of the string of a path [dir / name] is
    [name] whenever [name] has no slash, whatever the directory; so the
    name under which the report is uploaded and announced (lines 55 and
    83) is the name of the report file (the one of the mail, line 245). *)
Theorem report_basename e :
  (∀ dir name, has_char "/" name = false →
               basename (path_str (dir, name)) = name)
  ∧ (valid_datetime (clock e) →
     basename (path_str (nuevo_archivo e)) = (nuevo_archivo e).2).
Proof.
  assert (H : ∀ dir name, has_char "/" name = false →
                          basename (path_str (dir, name)) = name).
  { intros dir name Hn. unfold basename, path_str. cbn [fst snd].
    by apply basename_from_dir. }
  split; [exact H|]. intros Hv.
  destruct (nuevo_archivo e) as [dir name] eqn:Hp. apply H.
  pose proof (nuevo_archivo_plain e Hv) as Hplain. by rewrite Hp in Hplain.
Qed.

(** *** Delivery over HTTP *)

Lemma media_id_de_caught g name f :
  (r ← responder g (PostMedia name f);
   caught (_ ← raise_for_status r; j ← response_json r; py_getitem j "id"))
  = media_id_de g name f.
Proof.
  unfold media_id_de. destruct (responder g _) as [r|]; [|done].
  cbn [mbind option_bind]. unfold raise_for_status, response_json.
  case_bool_decide; [done|]. rewrite bind_ret.
  destruct (body r) as [j|]; [|done]. rewrite bind_ret.
  destruct j; try done. cbn [py_getitem].
  by destruct (dict_lookup "id" kv).
Qed.

Lemma subir_media_eq g s p f :
  files s.1 !! p = Some f →
  subir_media g s p =
    (media_id_de g (basename (path_str p)) f,
     (match media_id_de g (basename (path_str p)) f with
      | Some media_id =>
          registrar s.1 INFO ("Media subido, media_id: " +:+ py_str media_id)
      | None => s.1
      end,
      s.2 ++ [PostMedia (basename (path_str p)) f])).
Proof.
  intros Hf. unfold subir_media. rewrite Hf. cbv zeta.
  rewrite media_id_de_caught.
  by destruct (media_id_de g _ f).
Qed.

(** X3. [subir_media] (lines 51-65): when the file cannot be opened no
    call is made and nothing changes; otherwise exactly one upload is
    posted, under the base name of the path; an id comes back exactly
    when the answer has no error status and is a JSON object with an
    ["id"], and only then a line is logged. Files, mails and messages
    are never touched. *)
Theorem subir_media_spec g s p :
  match files s.1 !! p with
  | None => subir_media g s p = (None, s)
  | Some f =>
      let name := basename (path_str p) in
      ∃ w', subir_media g s p
            = (media_id_de g name f, (w', s.2 ++ [PostMedia name f]))
        ∧ files w' = files s.1 ∧ correos w' = correos s.1
        ∧ whatsapps w' = whatsapps s.1
        ∧ logged w' = logged s.1 ++
            match media_id_de g name f with
            | Some media_id =>
                [(INFO, "Media subido, media_id: " +:+ py_str media_id)]
            | None => []
            end
  end.
Proof.
  destruct (files s.1 !! p) as [f|] eqn:Hf.
  - cbv zeta. rewrite (subir_media_eq _ _ _ _ Hf). eexists. split; [done|].
    destruct (media_id_de g _ f); simpl; by rewrite ?app_nil_r.
  - unfold subir_media. by rewrite Hf.
Qed.

(** X4. [enviar_template] (lines 67-95) posts exactly one message, whose
    payload names the recipient, the media id and the base name of the
    path; the message counts as sent, and one line is logged, exactly
    when the answer carries a message id; otherwise nothing but the
    call is recorded. The files and the mails are never touched. *)
Theorem enviar_template_spec g s media_id to p :
  let name := basename (path_str p) in
  let req := PostMessage (payload_de g media_id to name) in
  let out := enviar_template g s media_id to p in
  out.2.2 = s.2 ++ [req]
  ∧ files out.2.1 = files s.1 ∧ correos out.2.1 = correos s.1
  ∧ match responder g req ≫= message_id with
    | Some msg_id =>
        out.1 = Some tt
        ∧ whatsapps out.2.1 = whatsapps s.1 ++ [(to, name)]
        ∧ logged out.2.1 = logged s.1 ++
            [(INFO, "Template enviado a " +:+ to +:+ ", message ID: "
                    +:+ py_str msg_id)]
    | None => out.1 = None ∧ out.2.1 = s.1
    end.
Proof.
  cbv zeta. unfold enviar_template. cbv zeta.
  destruct (responder g _ ≫= message_id) as [msg_id|]; done.
Qed.

Lemma enviar_whatsapps_http_eq g e f destinos s :
  files s.1 !! nuevo_archivo e = Some f →
  let name := basename (path_str (nuevo_archivo e)) in
  let ok := wa_ok g name f in
  let out := enviar_whatsapps_http g e s destinos in
  out.1 = match primer_fallo ok destinos with
          | Some _ => Exit 1
          | None => Finalizado
          end
  ∧ files out.2.1 = files s.1
  ∧ correos out.2.1 = correos s.1
  ∧ whatsapps out.2.1
    = whatsapps s.1 ++ ((fun d => (d, name)) <$> entregados ok destinos)
  ∧ match primer_fallo ok destinos with
    | None =>
        ∀ media_id, media_id_de g name f = Some media_id →
          out.2.2 = s.2 ++ (destinos ≫= llamadas g name f media_id)
    | Some d =>
        last (logged out.2.1) = Some (ERROR, "Error enviando WhatsApp a " +:+ d)
    end.
Proof.
  cbv zeta. set (name := basename (path_str (nuevo_archivo e))).
  set (ok := wa_ok g name f).
  revert s. induction destinos as [|d rest IH]; intros s Hf.
  - simpl. rewrite !app_nil_r. done.
  - assert (Hd : ok d = match media_id_de g name f with
                        | Some media_id =>
                            match responder g (PostMessage
                                    (payload_de g media_id d name))
                                  ≫= message_id with
                            | Some _ => true
                            | None => false
                            end
                        | None => false
                        end) by reflexivity.
    cbn [enviar_whatsapps_http primer_fallo find entregados].
    rewrite (subir_media_eq _ _ _ _ Hf). fold name.
    destruct (media_id_de g name f) as [media_id|] eqn:Hmid.
    + unfold enviar_template. cbv zeta. cbn [fst snd]. fold name.
      destruct (responder g _ ≫= message_id) as [msg_id|] eqn:Hmsg.
      * rewrite Hd. cbn [negb].
        match goal with |- context [enviar_whatsapps_http g e ?s1 rest] =>
          destruct (IH s1) as (H1 & H2 & H3 & H4 & H5); [exact Hf|] end.
        fold (primer_fallo ok rest).
        rewrite H1, H2, H3, H4. cbn [fst snd files correos whatsapps registrar].
        split_and!; try done.
        { by rewrite <- app_assoc. }
        destruct (primer_fallo ok rest); [done|].
        intros media_id' [= <-]. etransitivity; [exact (H5 media_id eq_refl)|].
        cbn [fst snd]. by rewrite <- !app_assoc.
      * rewrite Hd. cbn [negb fst snd files correos whatsapps registrar
                         logged fmap list_fmap].
        rewrite app_nil_r, last_snoc. done.
    + rewrite Hd. cbn [negb fst snd files correos whatsapps registrar logged
                       fmap list_fmap].
      rewrite app_nil_r, last_snoc. done.
Qed.



(** *** The run over HTTP *)

Lemma entregados_all ok destinos :
  primer_fallo ok destinos = None → entregados ok destinos = destinos.
Proof.
  induction destinos as [|d rest IH]; [done|].
  cbn [primer_fallo find entregados]. destruct (ok d); cbn [negb]; [|done].
  intros H. by rewrite IH.
Qed.

Lemma length_llamadas g name f media_id destinos :
  length (destinos ≫= llamadas g name f media_id) = 2 * length destinos.
Proof.
  induction destinos as [|d rest IH]; [done|].
  change (S (S (length (rest ≫= llamadas g name f media_id)))
          = 2 * S (length rest)).
  rewrite IH. lia.
Qed.

Lemma entregar_http_eq g e s f :
  files s.1 !! nuevo_archivo e = Some f →
  let name := basename (path_str (nuevo_archivo e)) in
  let ok := wa_ok g name f in
  let out := entregar_http g e s in
  if smtp_ok e then
    correos out.2.1 = correos s.1 ++ [((nuevo_archivo e).2, f)]
    ∧ whatsapps out.2.1
      = whatsapps s.1 ++ ((fun d => (d, name)) <$> entregados ok (DESTINOS e))
    ∧ match primer_fallo ok (DESTINOS e) with
      | None =>
          out.1 = Finalizado
          ∧ files out.2.1
            = (if remove_ok e then delete (nuevo_archivo e) (files s.1)
               else files s.1)
          ∧ last (logged out.2.1)
            = Some (INFO, "===> Ejecución finalizada correctamente")
          ∧ ∀ media_id, media_id_de g name f = Some media_id →
              out.2.2 = s.2 ++ (DESTINOS e ≫= llamadas g name f media_id)
      | Some d =>
          out.1 = Exit 1
          ∧ files out.2.1 = files s.1
          ∧ last (logged out.2.1)
            = Some (ERROR, "Error enviando WhatsApp a " +:+ d)
      end
  else
    out = (Exit 1, (registrar s.1 ERROR "Error enviando correo", s.2)).
Proof.
  intros Hf. cbv zeta. unfold entregar_http, enviar_correo. rewrite Hf.
  destruct (smtp_ok e); [|done].
  match goal with |- context [enviar_whatsapps_http g e ?s1 _] =>
    pose proof (enviar_whatsapps_http_eq g e f (DESTINOS e) s1 Hf) as H;
    cbv zeta in H; destruct H as (H1 & H2 & H3 & H4 & H5);
    destruct (enviar_whatsapps_http g e s1 (DESTINOS e)) as [o s2] eqn:Hloop
  end.
  cbn [fst snd files correos whatsapps registrar] in H1, H2, H3, H4, H5.
  destruct (primer_fallo _ (DESTINOS e)) as [d|]; subst o; cbn [fst snd].
  - split_and!; done.
  - unfold eliminar.
    destruct (remove_ok e);
      cbn [files correos whatsapps logged registrar remove];
      rewrite last_snoc, H2; split_and!; done.
Qed.

Lemma main_http_inv g e w0 :
  let out := main_http g e w0 in
  (out.2.2 = [] ∧ files out.2.1 = files w0 ∧ correos out.2.1 = correos w0
   ∧ whatsapps out.2.1 = whatsapps w0
   ∧ (out.1 = Exit 1 ∨ ∃ x, out.1 = Uncaught x))
  ∨ (∃ ids items ws report w1,
       obtener_ids (tags_of e) = Ret ids
       ∧ (obtener_vehiculos (veh_of e) ≫= py_iter) = Ret items
       ∧ files w0 !! plantilla_path e = Some ws
       ∧ generar_excel ws (clock e) (omap (fila_de ids (clock e)) items)
         = Ret report
       ∧ files w1 = <[nuevo_archivo e := report]> (files w0)
       ∧ correos w1 = correos w0 ∧ whatsapps w1 = whatsapps w0
       ∧ out = entregar_http g e (w1, [])).
Proof.
  cbv zeta. unfold main_http. cbv zeta.
  destruct (negb _); [left; split_and!; auto|].
  destruct (obtener_ids (tags_of e)) as [ids|]; [|left; split_and!; auto].
  destruct (obtener_vehiculos (veh_of e)) as [vehicles|];
    [|left; split_and!; auto].
  destruct (py_iter vehicles) as [items|] eqn:Hit;
    [|left; split_and!; eauto].
  destruct (procesar_registros ids (clock e) items _) as [st [x|]] eqn:Hloop;
    [left; split_and!; eauto|].
  apply procesar_registros_rows in Hloop. cbn [fst app] in Hloop.
  rewrite Hloop. unfold reportar_http, load_workbook. cbn [files con_log registrar].
  destruct (files w0 !! plantilla_path e) as [ws|] eqn:Hws;
    [|left; split_and!; eauto].
  destruct (generar_excel ws (clock e) _) as [report|] eqn:Hgen;
    [|left; split_and!; eauto].
  right. exists ids, items, ws, report. eexists. rewrite bind_ret.
  split_and!; [done | done | done | done | | | | reflexivity]; done.
Qed.

Lemma primer_fallo_media g name f destinos :
  primer_fallo (wa_ok g name f) destinos = None →
  destinos = [] ∨ ∃ media_id, media_id_de g name f = Some media_id.
Proof.
  intros H. destruct destinos as [|d rest]; [by left|]. right.
  cbn [primer_fallo find] in H. unfold wa_ok in H at 1.
  destruct (media_id_de g name f) as [media_id|]; [by exists media_id|].
  discriminate H.
Qed.


(** X7. [main] calls [sys.exit] with no other code than 1, and a run
    that exits does no cleanup: either it stopped before the report was
    saved and changed no file, or the report file is left on disk (lines
    233-263 exit before [os.remove] of line 266), mailed at most once. *)
Theorem exit_keeps_report g e w0 c :
  (main_http g e w0).1 = Exit c →
  c = 1
  ∧ ((files (main_http g e w0).2.1 = files w0
      ∧ correos (main_http g e w0).2.1 = correos w0
      ∧ whatsapps (main_http g e w0).2.1 = whatsapps w0
      ∧ (main_http g e w0).2.2 = [])
     ∨ ∃ report,
         files (main_http g e w0).2.1
         = <[nuevo_archivo e := report]> (files w0)
         ∧ (correos (main_http g e w0).2.1 = correos w0
            ∨ correos (main_http g e w0).2.1
              = correos w0 ++ [((nuevo_archivo e).2, report)])).
Proof.
  intros Hout.
  destruct (main_http_inv g e w0)
    as [(Ht & Hf & Hc & Hw & [Hx | [x Hx]])
       | (ids & items & ws & report & w1 & _ & _ & _ & _ & Hf1 & Hc1 & _ & Heq)].
  - split; [congruence | by left].
  - congruence.
  - rewrite Heq in Hout |- *.
    assert (Hrep : files (w1, @nil request).1 !! nuevo_archivo e = Some report).
    { cbn [fst]. rewrite Hf1. apply lookup_insert_eq. }
    pose proof (entregar_http_eq g e _ _ Hrep) as H. cbv zeta in H.
    cbn [fst] in H. destruct (smtp_ok e).
    + destruct H as (Hc & _ & H). destruct (primer_fallo _ _).
      * destruct H as (H & Hf & _). split; [congruence|]. right.
        exists report. rewrite Hf, Hc, Hf1, Hc1. auto.
      * destruct H as [H _]. congruence.
    + rewrite H in Hout |- *. cbn [fst snd files correos registrar] in *.
      split; [congruence|]. right. exists report. rewrite Hf1, Hc1. auto.
Qed.

(** X8. A run that returns (lines 97-271) has rendered the rows of the
    records that passed the gates into the template, mailed that report
    once, served every recipient of [DESTINOS] in order with two calls
    each, and ended with the closing log line. The report file is then
    gone from the disk, unless [os.remove] failed, which does not stop
    the run: where no file of that name existed before, the files are
    what they were. *)
Theorem finished_run g e w0 :
  (main_http g e w0).1 = Finalizado →
  ∃ ids items ws report,
    obtener_ids (tags_of e) = Ret ids
    ∧ (obtener_vehiculos (veh_of e) ≫= py_iter) = Ret items
    ∧ files w0 !! plantilla_path e = Some ws
    ∧ generar_excel ws (clock e) (omap (fila_de ids (clock e)) items)
      = Ret report
    ∧ correos (main_http g e w0).2.1
      = correos w0 ++ [((nuevo_archivo e).2, report)]
    ∧ whatsapps (main_http g e w0).2.1
      = whatsapps w0
        ++ ((fun d => (d, basename (path_str (nuevo_archivo e))))
            <$> DESTINOS e)
    ∧ length (main_http g e w0).2.2 = 2 * length (DESTINOS e)
    ∧ files (main_http g e w0).2.1
      = (if remove_ok e then delete (nuevo_archivo e) (files w0)
         else <[nuevo_archivo e := report]> (files w0))
    ∧ (remove_ok e = true → files w0 !! nuevo_archivo e = None →
       files (main_http g e w0).2.1 = files w0)
    ∧ last (logged (main_http g e w0).2.1)
      = Some (INFO, "===> Ejecución finalizada correctamente").
Proof.
  intros Hout.
  destruct (main_http_inv g e w0)
    as [(_ & _ & _ & _ & [Hx | [x Hx]])
       | (ids & items & ws & report & w1 & Hids & Hit & Hws & Hgen & Hf1 & Hc1
          & Hw1 & Heq)]; [congruence | congruence |].
  exists ids, items, ws, report. rewrite Heq in Hout |- *.
  assert (Hrep : files (w1, @nil request).1 !! nuevo_archivo e = Some report).
  { cbn [fst]. rewrite Hf1. apply lookup_insert_eq. }
  pose proof (entregar_http_eq g e _ _ Hrep) as H. cbv zeta in H.
  cbn [fst snd] in H. destruct (smtp_ok e).
  - destruct H as (Hc & Hw & H).
    destruct (primer_fallo _ _) eqn:Hpf.
    { destruct H as [H _]. congruence. }
    destruct H as (_ & Hf & Hlast & Htrace).
    rewrite (entregados_all _ _ Hpf) in Hw.
    assert (Hfiles : files (entregar_http g e (w1, [])).2.1
                     = (if remove_ok e then delete (nuevo_archivo e) (files w0)
                        else <[nuevo_archivo e := report]> (files w0))).
    { rewrite Hf, Hf1. destruct (remove_ok e); [|done].
      apply delete_insert_eq. }
    split_and!; try done.
    + by rewrite Hc, Hc1.
    + by rewrite Hw, Hw1.
    + destruct (primer_fallo_media _ _ _ _ Hpf) as [Hnil | [media_id Hmid]].
      * clear Htrace. unfold entregar_http, enviar_correo.
        rewrite Hrep. rewrite Hnil.
        destruct (smtp_ok e); done.
      * rewrite (Htrace _ Hmid). cbn [app]. apply length_llamadas.
    + intros Hrm Hnone. rewrite Hfiles, Hrm. by apply delete_id.
  - rewrite H in Hout. discriminate Hout.
Qed.

Lemma token_present_test e :
  token_present e →
  negb (from_option (fun t => negb (String.eqb t "")) false
          (SAMSARA_API_TOKEN e)) = false.
Proof.
  intros (t & -> & Ht). cbn [from_option].
  destruct (String.eqb_spec t ""); [done | reflexivity].
Qed.

(** X9. Lines 100-103: a token that is unset or empty ends the run with
    exit code 1 right after the opening line, whatever the provider and
    the disk hold: one error line is logged, no file is written and
    nothing is sent. *)
Theorem missing_token_exits g e w0 :
  SAMSARA_API_TOKEN e = None ∨ SAMSARA_API_TOKEN e = Some "" →
  main_http g e w0
  = (Exit 1,
     (registrar (iniciado w0) ERROR
        "❌ Falta SAMSARA_API_TOKEN en variables de entorno", [])).
Proof. unfold main_http. by intros [-> | ->]. Qed.

(** X10. Lines 137-148: once the exclusion set is built, a telemetry
    fetch that fails (no answer, an error status, a body that is not
    JSON) or answers with JSON that is not an object ends the run with
    exit code 1 and the log line of line 147; no file is written and
    nothing is sent. *)
Theorem vehicle_fetch_failure_exits g e w0 ids :
  token_present e →
  obtener_ids (tags_of e) = Ret ids →
  fetch_failed (veh_of e)
  ∨ (∃ r j, veh_of e = Some r ∧ body r = Some j ∧ ∀ kv, j ≠ JObj kv) →
  main_http g e w0
  = (Exit 1,
     (registrar (iniciado w0) ERROR "Error al obtener datos de vehículos",
      [])).
Proof.
  intros Htok Hids Hveh. unfold main_http. cbv zeta.
  rewrite (token_present_test _ Htok), Hids.
  assert (Hraise : ∃ x, obtener_vehiculos (veh_of e) = Raise x).
  { unfold obtener_vehiculos, raise_for_status, response_json.
    destruct Hveh as [Hfail | (r & j & -> & Hj & Hobj)].
    - destruct (veh_of e) as [r|]; [|by eexists]. simpl in Hfail.
      case_bool_decide; [by eexists|]. destruct Hfail as [? | ->]; [done|].
      by eexists.
    - case_bool_decide; [by eexists|]. rewrite Hj, !bind_ret.
      destruct j; try by eexists. by destruct (Hobj kv). }
  destruct Hraise as [x ->]. reflexivity.
Qed.

(** X11. Lines 145 and 153: a telemetry answer without a ["data"] key
    counts as an empty list, and the run goes on to render and deliver
    a report without rows; a ["data"] that is [null] is not iterable:
    the [for] raises [TypeError] outside any handler and the run ends
    there, with nothing written or sent. *)
Theorem vehicles_absent_or_null g e w0 ids r kv :
  token_present e →
  obtener_ids (tags_of e) = Ret ids →
  veh_of e = Some r → ¬ (400 ≤ status_code r < 600) →
  body r = Some (JObj kv) →
  (dict_lookup "data" kv = None →
   main_http g e w0 = reportar_http g e (iniciado w0) [])
  ∧ (dict_lookup "data" kv = Some JNull →
     main_http g e w0 = (Uncaught TypeError, (iniciado w0, []))).
Proof.
  intros Htok Hids Hveh Hst Hbody. unfold main_http. cbv zeta.
  rewrite (token_present_test _ Htok), Hids.
  unfold obtener_vehiculos, raise_for_status, response_json.
  rewrite Hveh, Hbody. rewrite bool_decide_eq_false_2 by done.
  rewrite !bind_ret. cbn [py_get]. split; intros ->; reflexivity.
Qed.

(** X12. Lines 25 and 257-263: when [WHATSAPP_DESTINOS] is unset or
    empty the list of recipients is not empty but holds the empty
    string, so the loop still runs once: the report is uploaded and,
    if the upload gives an id, a template is addressed to the
    recipient [""]. *)
Theorem unset_destinos_one_recipient g e s f env :
  files s.1 !! nuevo_archivo e = Some f →
  env = None ∨ env = Some "" →
  DESTINOS e = destinos_de env →
  let name := basename (path_str (nuevo_archivo e)) in
  let out := enviar_whatsapps_http g e s (DESTINOS e) in
  match media_id_de g name f with
  | None => out.2.2 = s.2 ++ [PostMedia name f] ∧ out.1 = Exit 1
  | Some media_id =>
      out.2.2 = s.2 ++ [PostMedia name f;
                        PostMessage (payload_de g media_id "" name)]
  end.
Proof.
  intros Hf Henv Hd. cbv zeta.
  assert (Hone : DESTINOS e = [""]) by (by destruct Henv as [-> | ->]).
  rewrite Hone. cbn [enviar_whatsapps_http].
  rewrite (subir_media_eq _ _ _ _ Hf).
  destruct (media_id_de g _ f) as [media_id|]; [|done].
  unfold enviar_template. cbv zeta. cbn [fst snd].
  destruct (responder g _ ≫= message_id); cbn [fst snd];
    by rewrite <- app_assoc.
Qed.

Lemma enviar_whatsapps_eq e w destinos :
  let out := enviar_whatsapps e w destinos in
  out.1 = match primer_fallo (whatsapp_ok e) destinos with
          | Some _ => Exit 1
          | None => Finalizado
          end
  ∧ files out.2 = files w
  ∧ correos out.2 = correos w
  ∧ whatsapps out.2
    = whatsapps w ++ ((fun d => (d, (nuevo_archivo e).2))
                      <$> entregados (whatsapp_ok e) destinos).
Proof.
  cbv zeta. revert w. induction destinos as [|d rest IH]; intros w.
  - simpl. by rewrite app_nil_r.
  - cbn [enviar_whatsapps primer_fallo find entregados].
    unfold enviar_whatsapp. destruct (whatsapp_ok e d); cbn [negb].
    + match goal with |- context [enviar_whatsapps e ?w1 rest] =>
        destruct (IH w1) as (H1 & H2 & H3 & H4) end.
      fold (primer_fallo (whatsapp_ok e) rest).
      rewrite H1, H2, H3, H4. cbn [files correos whatsapps fmap list_fmap].
      by rewrite <- app_assoc.
    + cbn [fst snd files correos whatsapps registrar fmap list_fmap].
      by rewrite app_nil_r.
Qed.

Lemma entregados_ext (ok ok' : string → bool) destinos :
  (∀ d, d ∈ destinos → ok d = ok' d) →
  primer_fallo ok destinos = primer_fallo ok' destinos
  ∧ entregados ok destinos = entregados ok' destinos.
Proof.
  induction destinos as [|d rest IH]; intros Hext; [done|].
  cbn [primer_fallo find entregados]. rewrite <- (Hext d) by left.
  destruct IH as [IH1 IH2]; [intros d' Hd'; apply Hext; by right|].
  destruct (ok d); cbn [negb]; [|done]. split; [exact IH1 | by f_equal].
Qed.

Lemma entregar_http_refines g e s f :
  valid_datetime (clock e) →
  files s.1 !! nuevo_archivo e = Some f →
  (∀ d, d ∈ DESTINOS e → whatsapp_ok e d = wa_ok g (nuevo_archivo e).2 f d) →
  resultado (entregar e s.1)
  = resultado ((entregar_http g e s).1, (entregar_http g e s).2.1).
Proof.
  intros Hv Hf Hok.
  pose proof (entregar_http_eq g e s f Hf) as H. cbv zeta in H.
  pose proof (report_name_base e Hv) as Hname. rewrite Hname in H.
  destruct (entregados_ext _ _ _ Hok) as [Hpf Hent].
  rewrite <- Hpf, <- Hent in H.
  unfold entregar, enviar_correo. rewrite Hf.
  destruct (smtp_ok e); [|by rewrite H].
  match goal with |- context [enviar_whatsapps e ?w1 _] =>
    pose proof (enviar_whatsapps_eq e w1 (DESTINOS e)) as H';
    cbv zeta in H'; destruct H' as (H1 & H2 & H3 & H4);
    destruct (enviar_whatsapps e w1 (DESTINOS e)) as [o w2]
  end.
  cbn [fst snd files correos whatsapps registrar] in H1, H2, H3, H4.
  destruct H as (Hc & Hw & H). unfold resultado. cbn [fst snd].
  rewrite Hc, Hw. destruct (primer_fallo _ (DESTINOS e)); subst o.
  - destruct H as (-> & -> & _). cbn [fst snd]. by rewrite H2, H3, H4.
  - destruct H as (-> & -> & _). cbn [fst snd]. unfold eliminar.
    destruct (remove_ok e); cbn [files correos whatsapps registrar remove];
      by rewrite H2, H3, H4.
Qed.

(** [main], which takes the outcome of the two WhatsApp calls for each
    recipient as given, and [main_http], which makes them, end the same
    way with the same files, mails and messages, whenever the outcome
    given for each recipient of [DESTINOS] is the one that the answers
    of the API to the upload of the report of this run, and to the
    message for it, determine. *)
Lemma main_http_main g e w0 :
  valid_datetime (clock e) →
  (∀ ids items ws report d,
     obtener_ids (tags_of e) = Ret ids →
     (obtener_vehiculos (veh_of e) ≫= py_iter) = Ret items →
     files w0 !! plantilla_path e = Some ws →
     generar_excel ws (clock e) (omap (fila_de ids (clock e)) items)
     = Ret report →
     d ∈ DESTINOS e →
     whatsapp_ok e d = wa_ok g (nuevo_archivo e).2 report d) →
  resultado (main e w0)
  = resultado ((main_http g e w0).1, (main_http g e w0).2.1).
Proof.
  intros Hv Hok. unfold main, main_http. cbv zeta.
  destruct (negb _); [done|].
  destruct (obtener_ids (tags_of e)) as [ids|] eqn:Hids; [|done].
  destruct (obtener_vehiculos (veh_of e)) as [vehicles|]; [|done].
  destruct (py_iter vehicles) as [items|] eqn:Hit; [|done].
  destruct (procesar_registros ids (clock e) items _) as [st [x|]] eqn:Hloop;
    [done|].
  apply procesar_registros_rows in Hloop. cbn [fst app] in Hloop.
  unfold reportar, reportar_http, load_workbook.
  cbn [files con_log registrar].
  destruct (files w0 !! plantilla_path e) as [ws|] eqn:Hws; [|done].
  destruct (generar_excel ws (clock e) st.1) as [report|] eqn:Hgen; [|done].
  rewrite Hloop in Hgen.
  match goal with |- context [entregar_http g e ?s] =>
    apply (entregar_http_refines g e s report Hv) end.
  - cbn [fst files registrar save]. apply lookup_insert_eq.
  - intros d. apply (Hok ids items ws report d); try done.
Qed.

(** X23. Lines 233-263: when the mail cannot be sent the run never
    reaches the WhatsApp loop: whatever else happens, it does not
    return, no call to the Graph API is made and no message is sent. *)
Theorem mail_failure_blocks_whatsapp g e w0 :
  smtp_ok e = false →
  (main_http g e w0).1 ≠ Finalizado
  ∧ (main_http g e w0).2.2 = []
  ∧ whatsapps (main_http g e w0).2.1 = whatsapps w0
  ∧ correos (main_http g e w0).2.1 = correos w0.
Proof.
  intros Hsmtp.
  destruct (main_http_inv g e w0)
    as [(Ht & _ & Hc & Hw & [Hx | [x Hx]])
       | (ids & items & ws & report & w1 & _ & _ & _ & _ & Hf1 & Hc1 & Hw1
          & Heq)].
  - rewrite Hx. done.
  - rewrite Hx. done.
  - rewrite Heq.
    assert (Hrep : files (w1, @nil request).1 !! nuevo_archivo e = Some report).
    { cbn [fst]. rewrite Hf1. apply lookup_insert_eq. }
    pose proof (entregar_http_eq g e _ _ Hrep) as H. cbv zeta in H.
    rewrite Hsmtp in H. rewrite H. cbn [fst snd whatsapps correos registrar].
    done.
Qed.

(** *** Merged ranges and styles of the report *)

Lemma get_cell_put_cell ws r c x r' c' :
  get_cell (put_cell ws r c x) r' c' =
    if decide ((r, c) = (r', c')) then x else get_cell ws r' c'.
Proof.
  unfold get_cell, put_cell. simpl. rewrite lookup_insert. by case_decide.
Qed.

Lemma ws_cell_estilo ws r c v ws' r' c' :
  ws_cell ws r c v = Ret ws' →
  estilo (get_cell ws' r' c') = estilo (get_cell ws r' c').
Proof.
  unfold ws_cell, set_value. destruct (is_None v).
  - intros [= <-]. rewrite get_cell_put_cell. case_decide; [|done].
    by simplify_eq.
  - destruct (merged (get_cell ws r c)) eqn:Hm; [discriminate|].
    destruct (bind_value v) as [w|]; [|discriminate].
    intros [= <-]. rewrite get_cell_put_cell. case_decide; [|done].
    simplify_eq. unfold estilo. simpl. by rewrite Hm.
Qed.

Lemma ws_setitem_estilo ws r c v ws' r' c' :
  ws_setitem ws r c v = Ret ws' →
  estilo (get_cell ws' r' c') = estilo (get_cell ws r' c').
Proof.
  unfold ws_setitem, set_value.
  destruct (merged (get_cell ws r c)) eqn:Hm; [discriminate|].
  destruct (bind_value v) as [w|]; [|discriminate].
  intros [= <-]. rewrite get_cell_put_cell. case_decide; [|done].
  simplify_eq. unfold estilo. simpl. by rewrite Hm.
Qed.

Lemma ws_cell_ranges ws r c v ws' :
  ws_cell ws r c v = Ret ws' → merged_cells ws' = merged_cells ws.
Proof.
  unfold ws_cell. destruct (is_None v); [by intros [= <-]|].
  destruct (set_value _ v) as [x|]; [|discriminate]. by intros [= <-].
Qed.

Lemma ws_setitem_ranges ws r c v ws' :
  ws_setitem ws r c v = Ret ws' → merged_cells ws' = merged_cells ws.
Proof.
  unfold ws_setitem. destruct (set_value _ v) as [x|]; [|discriminate].
  by intros [= <-].
Qed.

Lemma get_cell_set_border ws r c b r' c' :
  estilo (get_cell (set_border ws r c b) r' c')
  = (if decide ((r, c) = (r', c')) then b else border (get_cell ws r' c'),
     fill (get_cell ws r' c'), font (get_cell ws r' c'),
     merged (get_cell ws r' c')).
Proof.
  unfold set_border. rewrite get_cell_put_cell. case_decide; [|done].
  by simplify_eq.
Qed.

Lemma volcar_ubicacion_estilo ws i cols row ws' r c :
  volcar_ubicacion ws i cols row = Ret ws' →
  estilo (get_cell ws' r c)
  = (if bool_decide (r = i ∧ c ∈ cols) then ThinBlack
     else border (get_cell ws r c),
     fill (get_cell ws r c), font (get_cell ws r c),
     merged (get_cell ws r c))
  ∧ merged_cells ws' = merged_cells ws.
Proof.
  revert ws. induction cols as [|col rest IH]; intros ws H; simpl in H.
  - injection H as <-. rewrite bool_decide_eq_false_2; [done|].
    intros [_ Hin]. by apply elem_of_nil in Hin.
  - destruct (ws_cell ws i col _) as [ws1|] eqn:H1; [|discriminate].
    rewrite bind_ret in H. destruct (IH _ H) as [-> ->].
    pose proof (get_cell_set_border ws1 i col ThinBlack r c) as Hb.
    pose proof (ws_cell_estilo _ _ _ _ _ r c H1) as H1'.
    unfold estilo in Hb, H1'. injection Hb as -> -> -> ->.
    injection H1' as -> -> -> ->. split; [|by apply (ws_cell_ranges _ _ _ _ _ H1)].
    f_equal. f_equal. f_equal.
    repeat case_bool_decide; repeat case_decide; simplify_eq; try done.
    + exfalso. set_solver.
    + exfalso. set_solver.
    + exfalso. set_solver.
Qed.

Lemma get_cell_merge_cells ws i r c :
  get_cell (merge_cells ws (rango_ubicacion i)) r c
  = if bool_decide (r = i ∧ 3 ≤ c ≤ 8) then merged_cell else get_cell ws r c.
Proof.
  unfold get_cell, merge_cells, rango_ubicacion. cbn [cells].
  rewrite range_cells_row. cbn [seq fmap list_fmap tail Nat.sub].
  case_bool_decide as Hin.
  - rewrite lookup_foldl_insert_in; [done|]. destruct Hin as [-> Hc].
    rewrite !elem_of_cons.
    assert (c = 3 ∨ c = 4 ∨ c = 5 ∨ c = 6 ∨ c = 7 ∨ c = 8) by lia.
    naive_solver.
  - rewrite lookup_foldl_insert_notin; [done|].
    rewrite !elem_of_cons, elem_of_nil. intros Hin'. apply Hin.
    naive_solver lia.
Qed.

Lemma volcar_fila_estilo ws i row ws' r c :
  volcar_fila ws i row = Ret ws' →
  estilo (get_cell ws' r c)
  = (if bool_decide (r = i ∧ 1 ≤ c ≤ 9) then ThinBlack
     else border (get_cell ws r c),
     if bool_decide (r = i ∧ c = 9) then Some (color_de (Estatus row)).1
     else if bool_decide (r = i ∧ 3 ≤ c ≤ 8) then None
     else fill (get_cell ws r c),
     if bool_decide (r = i ∧ c = 9) then Some (color_de (Estatus row)).2
     else if bool_decide (r = i ∧ 3 ≤ c ≤ 8) then None
     else font (get_cell ws r c),
     if bool_decide (r = i ∧ 3 ≤ c ≤ 8) then true
     else merged (get_cell ws r c))
  ∧ merged_cells ws' = merged_cells ws ++ [rango_ubicacion i].
Proof.
  unfold volcar_fila. fold (rango_ubicacion i). intros H.
  destruct (ws_cell ws i 1 (Unidad row)) as [ws1|] eqn:H1; [|discriminate].
  rewrite bind_ret in H.
  destruct (volcar_ubicacion _ i (seq 2 7) row) as [ws4|] eqn:H4;
    [|discriminate].
  rewrite bind_ret in H.
  destruct (ws_cell ws4 i 9 _) as [ws5|] eqn:H5; [|discriminate].
  rewrite bind_ret in H.
  destruct (volcar_ubicacion_estilo _ _ _ _ _ r c H4) as [Hst4 Hrg4].
  pose proof (ws_cell_estilo _ _ _ _ _ r c H5) as Hst5.
  pose proof (ws_cell_estilo _ _ _ _ _ r c H1) as Hst1.
  rewrite get_cell_merge_cells in Hst4.
  split.
  - assert (Hfinal :
              estilo (get_cell ws' r c)
              = (if decide ((i, 9) = (r, c)) then ThinBlack
                 else border (get_cell ws5 r c),
                 if decide ((i, 9) = (r, c))
                 then Some (color_de (Estatus row)).1
                 else fill (get_cell ws5 r c),
                 if decide ((i, 9) = (r, c))
                 then Some (color_de (Estatus row)).2
                 else font (get_cell ws5 r c),
                 merged (get_cell ws5 r c))).
    { injection H as <-.
      destruct (Estatus row); unfold set_fill_font, set_border;
        rewrite !get_cell_put_cell; repeat case_decide; simplify_eq; done. }
    rewrite Hfinal. clear Hfinal H.
    unfold estilo in Hst5, Hst4, Hst1.
    injection Hst5 as -> -> -> ->. injection Hst4 as -> -> -> ->.
    rewrite (bool_decide_ext (r = i ∧ c ∈ seq 2 7) (r = i ∧ 2 ≤ c ≤ 8))
      by (rewrite elem_of_seq; lia).
    pose proof (get_cell_set_border ws1 i 1 ThinBlack r c) as Hb.
    unfold estilo in Hb.
    assert (Hcases : r ≠ i ∨ (r = i ∧ (c = 9 ∨ 3 ≤ c ≤ 8 ∨ c = 2 ∨ c = 1
                                       ∨ c = 0 ∨ 10 ≤ c))) by lia.
    destruct Hcases as [Hr | [-> [-> | [Hc | [-> | [-> | Hc]]]]]].
    + rewrite !bool_decide_eq_false_2 by lia.
      rewrite !decide_False by (intros [=]; lia).
      rewrite decide_False in Hb by (intros [=]; lia).
      injection Hb as -> -> -> ->. by injection Hst1 as -> -> -> ->.
    + rewrite !decide_True by done.
      rewrite (bool_decide_eq_true_2 (i = i ∧ 1 ≤ 9 ≤ 9)) by lia.
      rewrite (bool_decide_eq_true_2 (i = i ∧ 9 = 9)) by lia.
      rewrite (bool_decide_eq_false_2 (i = i ∧ 3 ≤ 9 ≤ 8)) by lia.
      injection Hb as _ _ _ ->. by injection Hst1 as _ _ _ ->.
    + rewrite !decide_False by (intros [=]; lia).
      rewrite (bool_decide_eq_true_2 (i = i ∧ 1 ≤ c ≤ 9)) by lia.
      rewrite (bool_decide_eq_false_2 (i = i ∧ c = 9)) by lia.
      rewrite (bool_decide_eq_true_2 (i = i ∧ 3 ≤ c ≤ 8)) by lia.
      rewrite (bool_decide_eq_true_2 (i = i ∧ 2 ≤ c ≤ 8)) by lia.
      reflexivity.
    + rewrite !decide_False by (intros [=]; lia).
      rewrite (bool_decide_eq_true_2 (i = i ∧ 1 ≤ 2 ≤ 9)) by lia.
      rewrite (bool_decide_eq_false_2 (i = i ∧ 2 = 9)) by lia.
      rewrite (bool_decide_eq_false_2 (i = i ∧ 3 ≤ 2 ≤ 8)) by lia.
      rewrite (bool_decide_eq_true_2 (i = i ∧ 2 ≤ 2 ≤ 8)) by lia.
      rewrite decide_False in Hb by (intros [=]; lia).
      injection Hb as _ -> -> ->. by injection Hst1 as _ -> -> ->.
    + rewrite !decide_False by (intros [=]; lia).
      rewrite (bool_decide_eq_true_2 (i = i ∧ 1 ≤ 1 ≤ 9)) by lia.
      rewrite (bool_decide_eq_false_2 (i = i ∧ 1 = 9)) by lia.
      rewrite (bool_decide_eq_false_2 (i = i ∧ 3 ≤ 1 ≤ 8)) by lia.
      rewrite (bool_decide_eq_false_2 (i = i ∧ 2 ≤ 1 ≤ 8)) by lia.
      rewrite decide_True in Hb by done.
      injection Hb as -> -> -> ->. by injection Hst1 as _ -> -> ->.
    + rewrite !decide_False by (intros [=]; lia).
      rewrite !bool_decide_eq_false_2 by lia.
      rewrite decide_False in Hb by (intros [=]; lia).
      injection Hb as -> -> -> ->. by injection Hst1 as -> -> -> ->.
  - assert (merged_cells ws' = merged_cells ws5)
      as -> by (injection H as <-; by destruct (Estatus row)).
    rewrite (ws_cell_ranges _ _ _ _ _ H5), Hrg4.
    cbn [merged_cells merge_cells set_border put_cell].
    by rewrite (ws_cell_ranges _ _ _ _ _ H1).
Qed.

Lemma volcar_fila_placeholders ws i row ws' c :
  volcar_fila ws i row = Ret ws' → 3 ≤ c ≤ 8 → cell_value ws' i c = JNull.
Proof.
  unfold volcar_fila. fold (rango_ubicacion i). intros H Hc.
  destruct (ws_cell ws i 1 (Unidad row)) as [ws1|] eqn:H1; [|discriminate].
  rewrite bind_ret in H.
  destruct (volcar_ubicacion _ i (seq 2 7) row) as [ws4|] eqn:H4;
    [|discriminate].
  rewrite bind_ret in H.
  destruct (ws_cell ws4 i 9 _) as [ws5|] eqn:H5; [|discriminate].
  rewrite bind_ret in H.
  assert (cell_value ws' i c = cell_value ws5 i c) as ->.
  { injection H as <-.
    destruct (Estatus row);
      by rewrite cell_value_set_fill_font, cell_value_set_border. }
  rewrite (ws_cell_frame _ _ _ _ _ i c H5) by (intros [=]; lia).
  rewrite (volcar_ubicacion_frame _ _ _ _ _ i c H4) by (left; intros [=]; lia).
  unfold cell_value. rewrite get_cell_merge_cells.
  rewrite bool_decide_eq_true_2 by done. reflexivity.
Qed.

Lemma volcar_datos_formato ws i results ws' :
  volcar_datos ws i results = Ret ws' →
  (∀ k row, results !! k = Some row → fila_con_formato ws' (i + k) (Estatus row))
  ∧ (∀ r c, r < i ∨ i + length results ≤ r →
            estilo (get_cell ws' r c) = estilo (get_cell ws r c))
  ∧ merged_cells ws'
    = merged_cells ws ++ (rango_ubicacion <$> seq i (length results)).
Proof.
  revert ws i. induction results as [|row rest IH]; intros ws i H;
    simpl in H.
  - injection H as <-. split_and!; [intros k row [=] | done |].
    by rewrite app_nil_r.
  - destruct (volcar_fila ws i row) as [ws1|] eqn:H1; [|discriminate].
    rewrite bind_ret in H. destruct (IH _ _ H) as (Hrows & Hframe & Hrg).
    destruct (volcar_datos_spec _ _ _ _ H) as [_ Hvals].
    split_and!.
    + intros [|k] row'; simpl.
      * intros [= <-]. rewrite Nat.add_0_r.
        assert (Hst : ∀ c, estilo (get_cell ws' i c)
                           = estilo (get_cell ws1 i c))
          by (intros c; apply Hframe; lia).
        unfold fila_con_formato. split_and!.
        -- intros c Hc. specialize (Hst c).
           destruct (volcar_fila_estilo _ _ _ _ i c H1) as [Hst1 _].
           rewrite Hst1 in Hst. unfold estilo in Hst.
           injection Hst as -> _ _ _.
           by rewrite bool_decide_eq_true_2.
        -- intros c Hc. specialize (Hst c).
           destruct (volcar_fila_estilo _ _ _ _ i c H1) as [Hst1 _].
           rewrite Hst1 in Hst. unfold estilo in Hst.
           injection Hst as _ _ _ ->. split.
           ++ by rewrite bool_decide_eq_true_2.
           ++ rewrite Hvals by lia.
              by apply (volcar_fila_placeholders _ _ _ _ _ H1).
        -- specialize (Hst 9).
           destruct (volcar_fila_estilo _ _ _ _ i 9 H1) as [Hst1 _].
           rewrite Hst1 in Hst. unfold estilo in Hst.
           injection Hst as _ -> _ _. by rewrite bool_decide_eq_true_2.
        -- specialize (Hst 9).
           destruct (volcar_fila_estilo _ _ _ _ i 9 H1) as [Hst1 _].
           rewrite Hst1 in Hst. unfold estilo in Hst.
           injection Hst as _ _ -> _. by rewrite bool_decide_eq_true_2.
      * intros Hk. replace (i + S k) with (S i + k) by lia. by apply Hrows.
    + intros r c Hr. simpl in Hr. rewrite Hframe by lia.
      destruct (volcar_fila_estilo _ _ _ _ r c H1) as [-> _].
      rewrite !bool_decide_eq_false_2 by lia. reflexivity.
    + rewrite Hrg. destruct (volcar_fila_estilo _ _ _ _ 0 0 H1) as [_ ->].
      by rewrite <- app_assoc.
Qed.

Lemma filter_ext_in {A} (P Q : A → Prop) `{!∀ x, Decision (P x)}
    `{!∀ x, Decision (Q x)} (l : list A) :
  (∀ x, x ∈ l → P x ↔ Q x) → filter P l = filter Q l.
Proof.
  induction l as [|a l IH]; intros Hext; [done|].
  rewrite !filter_cons.
  assert (Ha : P a ↔ Q a) by (apply Hext; left).
  rewrite IH by (intros x Hx; apply Hext; by right).
  destruct (decide (P a)), (decide (Q a)); tauto || done.
Qed.

Lemma deshacer_fold_ranges l ws :
  merged_cells
    (foldl (fun w mr => if bool_decide (start_row ≤ min_row mr)
                        then unmerge_cells w mr else w) ws l)
  = filter (fun mr => ¬ (mr ∈ l ∧ start_row ≤ min_row mr)) (merged_cells ws).
Proof.
  revert ws. induction l as [|a l IH]; intros ws.
  - simpl. transitivity (filter (fun _ : cell_range => True) (merged_cells ws)).
    + generalize (merged_cells ws). intros m.
      induction m as [|x m IHm]; [done|].
      rewrite filter_cons_True by done. by f_equal.
    + apply list_filter_iff. intros mr. split; [|done].
      intros _ [Hin _]. by apply elem_of_nil in Hin.
  - cbn [foldl]. rewrite IH. case_bool_decide as Ha.
    + cbn [merged_cells unmerge_cells]. rewrite list_filter_filter.
      apply list_filter_iff. intros mr. rewrite elem_of_cons. split.
      * intros [Hl Hne] [[-> | Hin] Hrow]; [done|]. by apply Hl.
      * intros Hal. split.
        -- intros [Hin Hrow]. apply Hal. auto.
        -- intros ->. apply Hal. auto.
    + apply list_filter_iff. intros mr. rewrite elem_of_cons. split.
      * intros Hl [[-> | Hin] Hrow]; [done|]. by apply Hl.
      * intros Hal [Hin Hrow]. apply Hal. auto.
Qed.

Lemma deshacer_merges_ranges ws :
  merged_cells (deshacer_merges ws)
  = filter (fun mr => min_row mr < start_row) (merged_cells ws).
Proof.
  unfold deshacer_merges. rewrite deshacer_fold_ranges.
  apply filter_ext_in. intros mr Hin. split.
  - intros H. destruct (decide (min_row mr < start_row)); [done|].
    destruct H. split; [done | lia].
  - intros H [_ H']. lia.
Qed.

Lemma range_cells_rows rg r c : (r, c) ∈ range_cells rg → min_row rg ≤ r.
Proof.
  unfold range_cells. rewrite list_elem_of_bind.
  intros (row & Hin & Hrow). rewrite list_elem_of_bind in Hin.
  destruct Hin as (col & Hin & _). apply list_elem_of_singleton in Hin.
  injection Hin as -> _. apply elem_of_seq in Hrow. lia.
Qed.

Lemma lookup_foldl_delete_notin (m : gmap (nat * nat) cell) l rc :
  rc ∉ l → foldl (fun m rc => delete rc m) m l !! rc = m !! rc.
Proof.
  revert m. induction l as [|a l IH]; intros m Hnot; [done|]. simpl.
  apply not_elem_of_cons in Hnot as [Hne Hnot].
  rewrite IH by done. by rewrite lookup_delete_ne.
Qed.

Lemma deshacer_merges_cells ws r c :
  r < start_row → cells (deshacer_merges ws) !! (r, c) = cells ws !! (r, c).
Proof.
  intros Hr. unfold deshacer_merges. generalize (merged_cells ws).
  intros l. revert ws. induction l as [|a l IH]; intros ws; [done|].
  cbn [foldl]. rewrite IH. case_bool_decide as Ha; [|done].
  cbn [cells unmerge_cells]. apply lookup_foldl_delete_notin.
  intros Hin. assert (Hin' : (r, c) ∈ range_cells a).
  { destruct (range_cells a); [by apply elem_of_nil in Hin|]. by right. }
  apply range_cells_rows in Hin'. lia.
Qed.

(** X14. Lines 183-186: of the merged ranges of the template, exactly
    those that start above row 7 are kept, in their order, and every
    cell above row 7 is what the template had. *)
Theorem template_merges_kept ws :
  merged_cells (deshacer_merges ws)
  = filter (fun mr => min_row mr < start_row) (merged_cells ws)
  ∧ ∀ r c, r < start_row →
           cells (deshacer_merges ws) !! (r, c) = cells ws !! (r, c).
Proof.
  split; [apply deshacer_merges_ranges|].
  intros r c. apply deshacer_merges_cells.
Qed.

Lemma estilo_eq c d :
  estilo c = estilo d →
  border c = border d ∧ fill c = fill d ∧ font c = font d
  ∧ merged c = merged d.
Proof. unfold estilo. by intros [= -> -> -> ->]. Qed.

Lemma generar_excel_formato ws now results ws' :
  generar_excel ws now results = Ret ws' →
  (∀ k row, results !! k = Some row →
            fila_con_formato ws' (start_row + k) (Estatus row))
  ∧ (∀ r c, r < start_row ∨ start_row + length results ≤ r →
            estilo (get_cell ws' r c)
            = estilo (get_cell (deshacer_merges ws) r c))
  ∧ merged_cells ws'
    = filter (fun mr => min_row mr < start_row) (merged_cells ws)
      ++ (rango_ubicacion <$> seq start_row (length results)).
Proof.
  unfold generar_excel. intros Hgen.
  destruct (ws_setitem _ 2 3 _) as [ws2|] eqn:H2; [|discriminate].
  rewrite bind_ret in Hgen.
  destruct (ws_setitem _ 2 6 _) as [ws3|] eqn:H3; [|discriminate].
  rewrite bind_ret in Hgen.
  destruct (volcar_datos ws3 start_row results) as [ws4|] eqn:H4;
    [|discriminate].
  rewrite bind_ret in Hgen.
  destruct (volcar_datos_formato _ _ _ _ H4) as (Hrows & Hframe & Hrg).
  assert (Hst : ∀ r c, estilo (get_cell ws' r c) = estilo (get_cell ws4 r c))
    by (intros r c; apply (ws_setitem_estilo _ _ _ _ _ _ _ Hgen)).
  assert (Hval : ∀ r c, start_row ≤ r →
                        cell_value ws' r c = cell_value ws4 r c).
  { intros r c Hr. apply (ws_setitem_value _ _ _ _ _ _ _ Hgen).
    intros [=]. unfold start_row in Hr. lia. }
  split_and!.
  - intros k row Hk. destruct (Hrows _ _ Hk) as (Hb & Hm & Hf & Hfo).
    unfold fila_con_formato. split_and!.
    + intros c Hc.
      destruct (estilo_eq _ _ (Hst (start_row + k) c)) as (-> & _).
      by apply Hb.
    + intros c Hc.
      destruct (estilo_eq _ _ (Hst (start_row + k) c)) as (_ & _ & _ & ->).
      rewrite Hval by lia. by apply Hm.
    + destruct (estilo_eq _ _ (Hst (start_row + k) 9)) as (_ & -> & _).
      exact Hf.
    + destruct (estilo_eq _ _ (Hst (start_row + k) 9)) as (_ & _ & -> & _).
      exact Hfo.
  - intros r c Hr. rewrite Hst, Hframe by done.
    rewrite (ws_setitem_estilo _ _ _ _ _ r c H3).
    apply (ws_setitem_estilo _ _ _ _ _ r c H2).
  - rewrite (ws_setitem_ranges _ _ _ _ _ Hgen), Hrg.
    rewrite (ws_setitem_ranges _ _ _ _ _ H3), (ws_setitem_ranges _ _ _ _ _ H2).
    by rewrite deshacer_merges_ranges.
Qed.

(** X15. Lines 183-186 and 208: the merged ranges of the report are the
    ranges of the template that start above row 7, followed by one
    range over columns B to H for each classified row, in row order. *)
Theorem report_merged_ranges ws now results ws' :
  generar_excel ws now results = Ret ws' →
  merged_cells ws'
  = filter (fun mr => min_row mr < start_row) (merged_cells ws)
    ++ (rango_ubicacion <$> seq start_row (length results)).
Proof. intros Hgen. by destruct (generar_excel_formato _ _ _ _ Hgen) as (_ & _ & ->). Qed.


Lemma cell_value_deshacer_merges ws r c :
  r < start_row → cell_value (deshacer_merges ws) r c = cell_value ws r c.
Proof.
  intros Hr. unfold cell_value, get_cell. by rewrite deshacer_merges_cells.
Qed.

Lemma length_isoformat_date now :
  valid_datetime now →
  String.length (isoformat_date now) = 10
  ∧ String.length (strftime_hms now) = 8.
Proof.
  intros (Hy & Hm & Hd & Hh & Hmi & Hs).
  unfold isoformat_date, strftime_hms. rewrite !length_append.
  destruct (zfill_4_digits (dt_year now)) as [_ ->]; [lia|].
  destruct (zfill_2_digits (dt_month now)) as [_ ->]; [lia|].
  destruct (zfill_2_digits (dt_day now)) as [_ ->]; [lia|].
  destruct (zfill_2_digits (dt_hour now)) as [_ ->]; [lia|].
  destruct (zfill_2_digits (dt_minute now)) as [_ ->]; [lia|].
  destruct (zfill_2_digits (dt_second now)) as [_ ->]; [lia|].
  done.
Qed.

(** X17. Lines 189-190 and 225: the report holds the date of the run
    in C2 (ten characters, [YYYY-MM-DD]), its time in F2 (eight
    characters, [HH:MM:SS]) and the count formula in H2, each as the
    library stores it; every other cell above row 7 holds what the
    template held. *)
Theorem header_cells ws now results ws' :
  generar_excel ws now results = Ret ws' →
  bind_value (JStr (isoformat_date now)) = Some (cell_value ws' 2 3)
  ∧ bind_value (JStr (strftime_hms now)) = Some (cell_value ws' 2 6)
  ∧ bind_value (JStr (conteo results)) = Some (cell_value ws' 2 8)
  ∧ (∀ r c, r < start_row → (r, c) ∉ [(2, 3); (2, 6); (2, 8)] →
            cell_value ws' r c = cell_value ws r c)
  ∧ (valid_datetime now →
     String.length (isoformat_date now) = 10
     ∧ String.length (strftime_hms now) = 8).
Proof.
  unfold generar_excel. intros Hgen.
  destruct (ws_setitem _ 2 3 _) as [ws2|] eqn:H2; [|discriminate].
  rewrite bind_ret in Hgen.
  destruct (ws_setitem _ 2 6 _) as [ws3|] eqn:H3; [|discriminate].
  rewrite bind_ret in Hgen.
  destruct (volcar_datos ws3 start_row results) as [ws4|] eqn:H4;
    [|discriminate].
  rewrite bind_ret in Hgen.
  destruct (volcar_datos_spec _ _ _ _ H4) as [_ Hframe].
  split_and!.
  - rewrite (ws_setitem_value _ _ _ _ _ 2 3 Hgen) by (intros [=]).
    rewrite Hframe by (unfold start_row; lia).
    rewrite (ws_setitem_value _ _ _ _ _ 2 3 H3) by (intros [=]).
    by apply (ws_setitem_written _ _ _ _ _ H2).
  - rewrite (ws_setitem_value _ _ _ _ _ 2 6 Hgen) by (intros [=]).
    rewrite Hframe by (unfold start_row; lia).
    by apply (ws_setitem_written _ _ _ _ _ H3).
  - by apply (ws_setitem_written _ _ _ _ _ Hgen).
  - intros r c Hr Hnot. rewrite !not_elem_of_cons in Hnot.
    destruct Hnot as (Hc2 & Hf2 & Hh2 & _).
    rewrite (ws_setitem_value _ _ _ _ _ r c Hgen) by (by intros ?).
    rewrite Hframe by (by left).
    rewrite (ws_setitem_value _ _ _ _ _ r c H3) by (by intros ?).
    rewrite (ws_setitem_value _ _ _ _ _ r c H2) by (by intros ?).
    by apply cell_value_deshacer_merges.
  - apply length_isoformat_date.
Qed.

Lemma pretty_Z_of_nat (n : nat) : pretty (Z.of_nat n) = pretty n.
Proof. by destruct n. Qed.

Lemma filter_all {A} (P : A → Prop) `{!∀ x, Decision (P x)} (l : list A) :
  Forall P l → filter P l = l.
Proof.
  induction 1 as [|x l Hx _ IH]; [done|].
  rewrite filter_cons_True by done. by f_equal.
Qed.

(** X18. Lines 223-225 on a report with at least one row: the formula
    written in H2 is [=COUNTA(A7:A<6+n>)] for [n] classified rows, its
    range is the [n] written rows, and it evaluates to [n] whenever every
    row has a name that fills its cell. *)
Theorem count_formula_counts_rows ws now results ws' :
  generar_excel ws now results = Ret ws' →
  results ≠ [] →
  conteo results = "=COUNTA(A7:A" +:+ pretty (6 + length results) +:+ ")"
  ∧ bind_value (JStr (conteo results)) = Some (cell_value ws' 2 8)
  ∧ (Forall nombre_visible results →
     counta ws' 1 (Z.of_nat start_row) (last_row results) = length results).
Proof.
  intros Hgen Hne.
  assert (Hn : 1 ≤ length results) by (destruct results; [done | simpl; lia]).
  assert (Hlast : last_row results = Z.of_nat (6 + length results)).
  { unfold last_row, start_row. lia. }
  split_and!.
  - unfold conteo. rewrite Hlast, pretty_Z_of_nat. reflexivity.
  - unfold generar_excel in Hgen.
    destruct (ws_setitem _ 2 3 _) as [ws2|]; [|discriminate].
    rewrite bind_ret in Hgen.
    destruct (ws_setitem ws2 2 6 _) as [ws3|]; [|discriminate].
    rewrite bind_ret in Hgen.
    destruct (volcar_datos ws3 start_row results) as [ws4|]; [|discriminate].
    rewrite bind_ret in Hgen. by apply (ws_setitem_written _ _ _ _ _ Hgen).
  - intros Hvis. unfold counta. rewrite Hlast.
    replace (Z.to_nat (Z.min (Z.of_nat start_row) (Z.of_nat (6 + length results))))
      with start_row by (unfold start_row; lia).
    replace (Z.to_nat (Z.max (Z.of_nat start_row) (Z.of_nat (6 + length results))))
      with (6 + length results) by (unfold start_row; lia).
    replace (S (6 + length results) - start_row) with (length results)
      by (unfold start_row; lia).
    rewrite filter_all; [by rewrite length_seq|].
    apply Forall_forall. intros r Hr. apply elem_of_seq in Hr.
    destruct (lookup_lt_is_Some_2 results (r - start_row)) as [row Hrow];
      [lia|].
    assert (Hrw : row_written ws' r row).
    { unfold generar_excel in Hgen.
      destruct (ws_setitem _ 2 3 _) as [ws2|]; [|discriminate].
      rewrite bind_ret in Hgen.
      destruct (ws_setitem ws2 2 6 _) as [ws3|]; [|discriminate].
      rewrite bind_ret in Hgen.
      destruct (volcar_datos ws3 start_row results) as [ws4|] eqn:H4;
        [|discriminate].
      rewrite bind_ret in Hgen.
      destruct (volcar_datos_spec _ _ _ _ H4) as [Hrows _].
      specialize (Hrows _ _ Hrow).
      replace (start_row + (r - start_row)) with r in Hrows by lia.
      destruct Hrows as (Hu & Hl & Hs). unfold row_written.
      rewrite !(ws_setitem_value _ _ _ _ _ r _ Hgen)
        by (intros [=]; unfold start_row in Hr; lia).
      done. }
    rewrite Forall_forall in Hvis.
    destruct (Hvis row) as [Hnn Hst]; [by eapply list_elem_of_lookup_2|].
    destruct Hrw as (Hu & _). apply (Hst _ (Hu Hnn)).
Qed.

(** *** Further properties of the record filter *)

(** X19. Line 171 and line 204: the name of a row is the record's
    ["name"], and ["Sin nombre"] only when the key is absent; a record
    whose ["name"] is [null] gives a row without a name, and writing
    that row leaves the unit cell as the sheet had it. *)
Theorem null_name_keeps_cell ids now kv row :
  fila_de ids now (JObj kv) = Some row →
  Unidad row = from_option id (JStr "Sin nombre") (dict_lookup "name" kv)
  ∧ (dict_lookup "name" kv = Some JNull →
     ∀ ws i ws', volcar_fila ws i row = Ret ws' →
                 cell_value ws' i 1 = cell_value ws i 1).
Proof.
  intros Hrow.
  assert (Hname : Unidad row
                  = from_option id (JStr "Sin nombre") (dict_lookup "name" kv)).
  { revert Hrow. unfold fila_de, procesar_unidad, clasificar.
    destruct (py_get (JObj kv) "gps" _) as [gps|]; [|discriminate].
    rewrite bind_ret.
    destruct (staleness_gate now gps) as [[|]|]; try discriminate.
    rewrite bind_ret.
    destruct (exclusion_gate ids gps) as [[|]|]; try discriminate.
    rewrite bind_ret.
    destruct (motion_gate gps) as [[|]|]; try discriminate.
    rewrite bind_ret.
    destruct (derive_status gps) as [status|]; try discriminate.
    rewrite bind_ret.
    destruct (derive_location gps) as [loc|]; try discriminate.
    rewrite bind_ret. cbn [py_get]. rewrite bind_ret. by intros [= <-]. }
  split; [exact Hname|]. intros Hnull ws i ws' H.
  rewrite Hnull in Hname. cbn [from_option id] in Hname.
  unfold volcar_fila in H. rewrite Hname in H.
  destruct (ws_cell ws i 1 JNull) as [ws1|] eqn:H1; [|discriminate].
  rewrite bind_ret in H.
  destruct (volcar_ubicacion _ i (seq 2 7) row) as [ws4|] eqn:H4;
    [|discriminate].
  rewrite bind_ret in H.
  destruct (ws_cell ws4 i 9 _) as [ws5|] eqn:H5; [|discriminate].
  rewrite bind_ret in H.
  assert (cell_value ws' i 1 = cell_value ws5 i 1) as ->.
  { injection H as <-.
    destruct (Estatus row);
      by rewrite cell_value_set_fill_font, cell_value_set_border. }
  rewrite (ws_cell_frame _ _ _ _ _ i 1 H5) by (intros [=]).
  rewrite (volcar_ubicacion_frame _ _ _ _ _ i 1 H4) by (left; intros [=]).
  rewrite cell_value_merge_cells, cell_value_set_border.
  - rewrite (ws_cell_value _ _ _ _ _ i 1 H1). by rewrite decide_True.
  - rewrite range_cells_row. cbn [seq fmap list_fmap tail Nat.sub].
    rewrite !not_elem_of_cons. split_and!; try (intros [=]).
    apply not_elem_of_nil.
Qed.

Lemma num_of_Z_zero z : num_of_Z z = NZero ↔ z = 0%Z.
Proof.
  destruct z as [|p|p]; simpl; [done| |]; destruct (odd_part p); by split.
Qed.

Lemma py_eq_zero v : py_eq v (JInt 0) = true ↔ zero_speed v.
Proof.
  clear dp_parse py_repr bind_value.
  unfold zero_speed. destruct v as [|b|z|f|s|l|kv].
  - split; [done | naive_solver].
  - destruct b; (split; [try done | naive_solver]). by left.
  - unfold py_eq. cbn [hash_key].
    destruct (num_of_Z z) eqn:Hz.
    + apply num_of_Z_zero in Hz as ->. split; [auto | done].
    + split; [done|]. intros [? | [[= ->] | [? ?]]]; done.
    + split; [done|]. intros [? | [[= ->] | [? ?]]]; done.
    + split; [done|]. intros [? | [[= ->] | [? ?]]]; try done.
  - destruct f as [|neg|neg|neg k e].
    + split; [done | naive_solver].
    + split; [done | naive_solver].
    + split; [eauto | done].
    + split; [done | naive_solver].
  - split; [done | naive_solver].
  - split; [done | naive_solver].
  - split; [done | naive_solver].
Qed.

(** X20. Lines 163-166: the speed test [speed == 0] holds exactly for
    [False], [0], [0.0] and [-0.0], so a record is dropped as noise
    exactly when its GPS block is an object whose speed (0 when absent)
    is one of these and whose flag (false when absent) is false; a
    speed that is [null], a string or a NaN is not zero and the record
    goes on. *)
Theorem noise_drop_values gps :
  (∀ v, py_eq v (JInt 0) = true ↔ zero_speed v)
  ∧ (motion_gate gps = Ret Drop ↔
     ∃ kv, gps = JObj kv
       ∧ zero_speed (from_option id (JInt 0)
                       (dict_lookup "speedMilesPerHour" kv))
       ∧ truthy (from_option id (JBool false)
                   (dict_lookup "isEcuSpeed" kv)) = false).
Proof.
  split; [apply py_eq_zero|]. unfold motion_gate. split.
  - destruct gps; try discriminate. cbn [py_get]. rewrite !bind_ret.
    intros H. exists kv. split; [done|]. rewrite <- py_eq_zero.
    destruct (py_eq _ _); [|discriminate].
    destruct (truthy _); [discriminate | done].
  - intros (kv & -> & Hz & Hecu). cbn [py_get]. rewrite !bind_ret.
    apply py_eq_zero in Hz. by rewrite Hz, Hecu.
Qed.

(** X21. Lines 155-162 and 175-176: a record whose ["gps"] is there
    and is not an object ([null], say), or whose GPS block, not stale,
    has an ["address"] that is not an object or whose ["id"] is a list
    or an object, raises in the body of the [try]: it gives no row,
    whatever its speed, and one error line with its name is logged;
    the loop goes on. *)
Theorem malformed_block_skips_record ids now st kv :
  bloque_invalido now kv →
  fila_de ids now (JObj kv) = None
  ∧ paso ids now st (JObj kv)
    = Ret (st.1, st.2 ++ [(ERROR, "Procesando unidad "
                                  +:+ py_str (from_option id JNull
                                                (dict_lookup "name" kv)))]).
Proof.
  unfold bloque_invalido. intros Hbad.
  assert (Hraise : ∃ x, procesar_unidad ids now (JObj kv) = Raise x).
  { unfold procesar_unidad. cbn [py_get].
    destruct (dict_lookup "gps" kv) as [g|]; [|done].
    cbn [from_option id]. rewrite bind_ret.
    destruct g as [|b|z|f|s|l|gkv]; try (by eexists).
    destruct Hbad as [-> Haddr]. rewrite bind_ret.
    unfold clasificar, exclusion_gate. cbn [py_get].
    destruct (dict_lookup "address" gkv) as [a|]; [|done].
    cbn [from_option id]. rewrite bind_ret.
    destruct a as [|b|z|f|s|l|akv]; try (by eexists).
    cbn [py_get]. rewrite bind_ret. unfold set_contains. rewrite Haddr.
    by eexists. }
  destruct Hraise as [x Hx]. unfold fila_de, paso. rewrite Hx. done.
Qed.

(** X22. Lines 153-176 on a list of records that are JSON objects: the
    loop runs to its end; the rows are those of the records that passed
    the gates and the error lines those of the records whose body
    raised, each in the order of the list; no record gives both. *)
Theorem records_are_isolated ids now vehicles st :
  Forall (fun u => ∃ kv, u = JObj kv) vehicles →
  procesar_registros ids now vehicles st
  = ((st.1 ++ omap (fila_de ids now) vehicles,
      st.2 ++ omap (error_de ids now) vehicles), None)
  ∧ length (omap (fila_de ids now) vehicles)
    + length (omap (error_de ids now) vehicles) ≤ length vehicles.
Proof.
  revert st. induction vehicles as [|u rest IH]; intros st Hobj.
  - simpl. rewrite !app_nil_r. by destruct st.
  - apply Forall_cons in Hobj as [[kv ->] Hrest].
    cbn [procesar_registros omap list_omap length]. unfold paso.
    assert (Hf : fila_de ids now (JObj kv)
                 = match procesar_unidad ids now (JObj kv) with
                   | Ret (Some row) => Some row
                   | _ => None
                   end) by reflexivity.
    assert (He : error_de ids now (JObj kv)
                 = match procesar_unidad ids now (JObj kv) with
                   | Raise _ =>
                       Some (ERROR, "Procesando unidad "
                                    +:+ py_str (from_option id JNull
                                                  (dict_lookup "name" kv)))
                   | _ => None
                   end) by reflexivity.
    rewrite Hf, He. clear Hf He.
    destruct (procesar_unidad ids now (JObj kv)) as [[row|]|x].
    + destruct (IH (st.1 ++ [row], st.2) Hrest) as [-> Hlen].
      cbn [fst snd length]. rewrite <- app_assoc. split; [done | lia].
    + destruct (IH st Hrest) as [-> Hlen]. split; [done | lia].
    + cbn [log_unidad py_get mbind py_bind mret py_ret from_option].
      match goal with |- context [procesar_registros ids now rest ?s] =>
        destruct (IH s Hrest) as [-> Hlen] end.
      cbn [fst snd length]. rewrite <- app_assoc. split; [done | lia].
Qed.

End Runtime.

(** ** The sample run *)

Lemma ejemplo_ids_built : obtener_ids ejemplo_tags = Ret ejemplo_ids.
Proof.
  destruct (new_ids_ok
              (JObj [("data",
                      JObj [("addresses",
                             JList [JObj [("id", JStr "X1")];
                                    JObj [("name", JStr "sin id")]])])])
              eq_refl) as (items & Hit & Hnew).
  injection Hit as <-.
  unfold obtener_ids, ejemplo_tags, raise_for_status, response_json.
  rewrite bool_decide_eq_false_2 by (simpl; lia).
  cbn [mbind py_bind body]. rewrite Hnew. reflexivity.
Qed.

(** C7, at an empty list of classified rows. No data row is written, and
    [last_row] is 6, one above [start_row]: the formula in H2 is
    [=COUNTA(A7:A6)], whose range is rows 6 and 7, not the (empty) range
    of the written rows. On a template with the header of the unit
    column in A6 it counts that header: 1, not 0. *)
Theorem count_formula_on_empty_report :
  last_row [] = 6%Z
  ∧ conteo [] = "=COUNTA(A7:A6)"
  ∧ ∃ ws', generar_excel ejemplo_bind ejemplo_plantilla ejemplo_now [] = Ret ws'
      ∧ cell_value ws' 2 8 = JStr "=COUNTA(A7:A6)"
      ∧ Forall (fun c => cell_value ws' 7 c = JNull) (seq 1 9)
      ∧ counta ws' 1 (Z.of_nat start_row) (last_row []) = 1.
Proof.
  split_and!; [reflexivity | reflexivity |].
  eexists. split; [reflexivity|].
  split_and!; [by vm_compute | | by vm_compute].
  repeat constructor.
Qed.

(** C8, at a telemetry list whose first element is [null]. Reading the
    record raises inside the [try]; the handler builds its message with
    [u.get('name')], which raises again, outside any handler: the run
    ends there with the exception, nothing is saved or sent, although the
    second record alone yields a complete run with its row. *)
Theorem null_record_aborts_run :
  let run vehicles :=
    main ejemplo_parse ejemplo_repr ejemplo_bind
      (ejemplo_entorno (JList vehicles)) ejemplo_mundo in
  procesar_unidad ejemplo_parse ejemplo_repr ∅ ejemplo_now JNull
    = Raise AttributeError
  ∧ log_unidad ejemplo_repr JNull = Raise AttributeError
  ∧ (run [JNull; unidad "U2" "X2" 0 true]).1 = Uncaught AttributeError
  ∧ correos (run [JNull; unidad "U2" "X2" 0 true]).2 = []
  ∧ whatsapps (run [JNull; unidad "U2" "X2" 0 true]).2 = []
  ∧ (run [unidad "U2" "X2" 0 true]).1 = Finalizado
  ∧ (fun m => (m.1, cell_value m.2 7 1, cell_value m.2 7 9))
      <$> correos (run [unidad "U2" "X2" 0 true]).2
    = [("Reporte de estatus de unidades 2024-03-07_09-05-30.xlsx",
        JStr "U2", JStr "DETENIDO")].
Proof. by vm_compute. Qed.

(** C1 as the claim states it fails on an observation whose
    reverse-geocode block is [null]: it reaches the motion gates with
    speed 0 and a true flag, or with a nonzero speed, and gives no row:
    line 168 raises and the handler of the record logs it. *)
Lemma motion_gates_classify_counterexample :
  let proc := procesar_unidad ejemplo_parse ejemplo_repr ejemplo_ids
                ejemplo_now in
  reaches_motion_gates ejemplo_parse ejemplo_ids ejemplo_now
    (unidad_geo_nulo "U7" 0 true) (gps_geo_nulo 0 true)
  ∧ py_get (gps_geo_nulo 0 true) "speedMilesPerHour" (JInt 0) = Ret (JInt 0)
  ∧ py_get (gps_geo_nulo 0 true) "isEcuSpeed" (JBool false)
    = Ret (JBool true)
  ∧ (∀ row, proc (unidad_geo_nulo "U7" 0 true) ≠ Ret (Some row))
  ∧ reaches_motion_gates ejemplo_parse ejemplo_ids ejemplo_now
      (unidad_geo_nulo "U8" 30 false) (gps_geo_nulo 30 false)
  ∧ py_get (gps_geo_nulo 30 false) "speedMilesPerHour" (JInt 0)
    = Ret (JInt 30)
  ∧ (∀ row, proc (unidad_geo_nulo "U8" 30 false) ≠ Ret (Some row))
  ∧ paso ejemplo_parse ejemplo_repr ejemplo_ids ejemplo_now ([], [])
      (unidad_geo_nulo "U7" 0 true)
    = Ret ([], [(ERROR, "Procesando unidad U7")]).
Proof.
  intros proc.
  assert (H7 : proc (unidad_geo_nulo "U7" 0 true) = Raise AttributeError)
    by (vm_compute; reflexivity).
  assert (H8 : proc (unidad_geo_nulo "U8" 30 false) = Raise AttributeError)
    by (vm_compute; reflexivity).
  split_and!.
  - split_and!; [reflexivity | reflexivity | vm_compute; reflexivity].
  - reflexivity.
  - reflexivity.
  - intros row Hrow. rewrite H7 in Hrow. discriminate Hrow.
  - split_and!; [reflexivity | reflexivity | vm_compute; reflexivity].
  - reflexivity.
  - intros row Hrow. rewrite H8 in Hrow. discriminate Hrow.
  - vm_compute. reflexivity.
Qed.


(** The three cases of C1 on the records of scenario A (with the address
    of the first one not excluded), and a stopped record whose
    reverse-geocode block is [null]. *)
Lemma motion_gates_classify_witness :
  let proc := procesar_unidad ejemplo_parse ejemplo_repr ∅ ejemplo_now in
  proc (unidad "U3" "X3" 0 false) = Ret None
  ∧ (∃ name loc, proc (unidad "U2" "X2" 0 true) =
       Ret (Some {| Unidad := name; Ubicación := loc; Estatus := DETENIDO |}))
  ∧ (∃ name loc, proc (unidad "U1" "X1" 30 false) =
       Ret (Some {| Unidad := name; Ubicación := loc; Estatus := RUTA |}))
  ∧ proc (unidad_geo_nulo "U7" 0 true) = Raise AttributeError.
Proof.
  split_and!.
  - destruct (motion_gates_classify ejemplo_parse ejemplo_repr ∅ ejemplo_now
                (unidad "U3" "X3" 0 false) (gps_de "X3" 0 false)
                (JInt 0) (JBool false)) as (H & _).
    + repeat split.
    + reflexivity.
    + reflexivity.
    + apply H; reflexivity.
  - destruct (motion_gates_classify ejemplo_parse ejemplo_repr ∅ ejemplo_now
                (unidad "U2" "X2" 0 true) (gps_de "X2" 0 true)
                (JInt 0) (JBool true)) as (_ & H & _).
    + repeat split.
    + reflexivity.
    + reflexivity.
    + apply H; [reflexivity | reflexivity | by exists []].
  - destruct (motion_gates_classify ejemplo_parse ejemplo_repr ∅ ejemplo_now
                (unidad "U1" "X1" 30 false) (gps_de "X1" 30 false)
                (JInt 30) (JBool false)) as (_ & _ & H & _).
    + repeat split.
    + reflexivity.
    + reflexivity.
    + apply H; [reflexivity | by exists []].
  - destruct (motion_gates_classify ejemplo_parse ejemplo_repr ∅ ejemplo_now
                (unidad_geo_nulo "U7" 0 true) (gps_geo_nulo 0 true)
                (JInt 0) (JBool true)) as (_ & _ & _ & _ & H).
    + repeat split.
    + reflexivity.
    + reflexivity.
    + destruct H as [Hp _]; [| | exact Hp].
      * intros [kv Hkv]. discriminate Hkv.
      * intros [_ He]. discriminate He.
Defined.

(** C2 on scenario B (a stamp two hours old, speed 40), on a stamp that
    does not parse, on a record without a stamp, and on a stamp exactly
    one hour old. *)
Lemma staleness_gate_spec_witness :
  let proc := procesar_unidad ejemplo_parse ejemplo_repr ejemplo_ids
                ejemplo_now in
  proc (unidad_con_hora "U5" "2024-03-07T07:05:30-06:00" 40) = Ret None
  ∧ proc (unidad_con_hora "U6" "ayer" 40) = Raise ParserError
  ∧ (∃ entry, paso ejemplo_parse ejemplo_repr ejemplo_ids ejemplo_now
                ([], []) (unidad_con_hora "U6" "ayer" 40) = Ret ([], [entry]))
  ∧ staleness_gate ejemplo_parse ejemplo_now (gps_de "X2" 0 true) = Ret Pass
  ∧ staleness_gate ejemplo_parse ejemplo_now
      (gps_con_hora "2024-03-07T08:05:30-06:00" 40) = Ret Pass.
Proof.
  split_and!.
  - destruct (staleness_gate_spec ejemplo_parse ejemplo_repr ejemplo_ids
                ejemplo_now
                (unidad_con_hora "U5" "2024-03-07T07:05:30-06:00" 40)
                (gps_con_hora "2024-03-07T07:05:30-06:00" 40)
                (JStr "2024-03-07T07:05:30-06:00") ([], []) eq_refl eq_refl)
      as (H & _).
    destruct (H 0%Z) as (_ & Hp & _); [reflexivity | reflexivity | | exact Hp].
    unfold one_hour. simpl. lia.
  - destruct (staleness_gate_spec ejemplo_parse ejemplo_repr ejemplo_ids
                ejemplo_now (unidad_con_hora "U6" "ayer" 40)
                (gps_con_hora "ayer" 40) (JStr "ayer") ([], [])
                eq_refl eq_refl) as (_ & H & _).
    destruct (H ParserError) as (Hp & _); [reflexivity | reflexivity | exact Hp].
  - destruct (staleness_gate_spec ejemplo_parse ejemplo_repr ejemplo_ids
                ejemplo_now (unidad_con_hora "U6" "ayer" 40)
                (gps_con_hora "ayer" 40) (JStr "ayer") ([], [])
                eq_refl eq_refl) as (_ & H & _).
    destruct (H ParserError) as (_ & Hp); [reflexivity | reflexivity | exact Hp].
  - destruct (staleness_gate_spec ejemplo_parse ejemplo_repr ejemplo_ids
                ejemplo_now (unidad "U2" "X2" 0 true) (gps_de "X2" 0 true)
                JNull ([], []) eq_refl eq_refl) as (_ & _ & H & _).
    destruct H as (Hp & _); [reflexivity | exact Hp].
  - destruct (staleness_gate_spec ejemplo_parse ejemplo_repr ejemplo_ids
                ejemplo_now
                (unidad_con_hora "U7" "2024-03-07T08:05:30-06:00" 40)
                (gps_con_hora "2024-03-07T08:05:30-06:00" 40)
                (JStr "2024-03-07T08:05:30-06:00") ([], []) eq_refl eq_refl)
      as (_ & _ & _ & H & _).
    destruct (H 3600000000%Z) as (Hp & _);
      [reflexivity | reflexivity | | exact Hp].
    unfold one_hour. simpl. lia.
Defined.

(** C3 on the first record of scenario A, whose address the sample
    payload lists. *)
Lemma exclusion_gate_drops_witness :
  set_contains (JStr "X1") ejemplo_ids = Ret true
  ∧ (∀ row, procesar_unidad ejemplo_parse ejemplo_repr ejemplo_ids
              ejemplo_now (unidad "U1" "X1" 30 true) ≠ Ret (Some row))
  ∧ ∃ lg, paso ejemplo_parse ejemplo_repr ejemplo_ids ejemplo_now ([], [])
            (unidad "U1" "X1" 30 true) = Ret ([], lg).
Proof.
  assert (Hin : set_contains (JStr "X1") ejemplo_ids = Ret true)
    by (vm_compute; reflexivity).
  split; [exact Hin|].
  exact (exclusion_gate_drops ejemplo_parse ejemplo_repr ejemplo_ids
           ejemplo_now (unidad "U1" "X1" 30 true) (gps_de "X1" 30 true)
           (JObj [("id", JStr "X1")]) (JStr "X1") ([], [])
           eq_refl eq_refl eq_refl Hin).
Defined.

(** C4 on the second record of scenario A, which has coordinates and no
    reverse-geocoded address, and on a moving record without coordinates. *)
Lemma location_fallback_witness :
  let proc := procesar_unidad ejemplo_parse ejemplo_repr ejemplo_ids
                ejemplo_now in
  proc (unidad "U2" "X2" 0 true)
  = Ret (Some {| Unidad := JStr "U2";
                 Ubicación := JStr "Lat: 19.5, Lon: -99.25";
                 Estatus := DETENIDO |})
  ∧ proc (unidad_con_hora "U8" "2024-03-07T08:35:30-06:00" 12)
    = Ret (Some {| Unidad := JStr "U8";
                   Ubicación := JStr "Lat: None, Lon: None";
                   Estatus := RUTA |})
  ∧ lat_lon ejemplo_repr (gps_con_hora "2024-03-07T08:35:30-06:00" 12)
    = Ret (JStr "Lat: None, Lon: None")
  ∧ ∃ kv, gps_de "X2" 0 true = JObj kv
      ∧ JStr "Lat: 19.5, Lon: -99.25" =
          JStr ("Lat: " +:+ py_str ejemplo_repr (coordinate kv "latitude")
                +:+ ", Lon: "
                +:+ py_str ejemplo_repr (coordinate kv "longitude")).
Proof.
  intros proc.
  assert (Hrow : proc (unidad "U2" "X2" 0 true)
                 = Ret (Some {| Unidad := JStr "U2";
                                Ubicación := JStr "Lat: 19.5, Lon: -99.25";
                                Estatus := DETENIDO |}))
    by (vm_compute; reflexivity).
  assert (Hrow' : proc (unidad_con_hora "U8" "2024-03-07T08:35:30-06:00" 12)
                  = Ret (Some {| Unidad := JStr "U8";
                                 Ubicación := JStr "Lat: None, Lon: None";
                                 Estatus := RUTA |}))
    by (vm_compute; reflexivity).
  split; [exact Hrow|]. split; [exact Hrow'|]. split.
  - destruct (location_fallback ejemplo_parse ejemplo_repr ejemplo_ids
                ejemplo_now
                (unidad_con_hora "U8" "2024-03-07T08:35:30-06:00" 12)
                (gps_con_hora "2024-03-07T08:35:30-06:00" 12)
                (JObj []) JNull _ eq_refl eq_refl eq_refl eq_refl Hrow')
      as (kv & _ & _ & Hll & _).
    exact Hll.
  - destruct (location_fallback ejemplo_parse ejemplo_repr ejemplo_ids
                ejemplo_now (unidad "U2" "X2" 0 true) (gps_de "X2" 0 true)
                (JObj []) JNull _ eq_refl eq_refl eq_refl eq_refl Hrow)
      as (kv & Hkv & Hloc & _).
    exists kv. split; [exact Hkv | exact Hloc].
Defined.


(** C6 on that list. *)
Lemma rows_in_input_order_witness :
  ∃ results lg ws',
    procesar_registros ejemplo_parse ejemplo_repr ejemplo_ids ejemplo_now
      ejemplo_vehicles ([], []) = ((results, lg), None)
    ∧ generar_excel ejemplo_bind ejemplo_plantilla ejemplo_now results
      = Ret ws'
    ∧ Unidad <$> results = [JStr "U4"; JStr "U2"]
    ∧ (∀ k row, results !! k = Some row →
         is_None (Ubicación row) = false
         ∧ row_written ejemplo_bind ws' (start_row + k) row)
    ∧ [cell_value ws' 7 1; cell_value ws' 7 9; cell_value ws' 8 1;
       cell_value ws' 8 9; cell_value ws' 9 1]
      = [JStr "U4"; JStr "RUTA"; JStr "U2"; JStr "DETENIDO"; JNull].
Proof.
  set (results := [ {| Unidad := JStr "U4";
                       Ubicación := JStr "Lat: 19.5, Lon: -99.25";
                       Estatus := RUTA |};
                    {| Unidad := JStr "U2";
                       Ubicación := JStr "Lat: 19.5, Lon: -99.25";
                       Estatus := DETENIDO |} ]).
  assert (Hloop : procesar_registros ejemplo_parse ejemplo_repr ejemplo_ids
                    ejemplo_now ejemplo_vehicles ([], [])
                  = ((results, []), None))
    by (vm_compute; reflexivity).
  assert (Hcells :
            (fun ws' => [cell_value ws' 7 1; cell_value ws' 7 9;
                         cell_value ws' 8 1; cell_value ws' 8 9;
                         cell_value ws' 9 1])
              <$> generar_excel ejemplo_bind ejemplo_plantilla ejemplo_now
                    results
            = Ret [JStr "U4"; JStr "RUTA"; JStr "U2"; JStr "DETENIDO"; JNull])
    by (vm_compute; reflexivity).
  destruct (generar_excel ejemplo_bind ejemplo_plantilla ejemplo_now results)
    as [ws'|x] eqn:Hgen; [|discriminate Hcells].
  exists results, [], ws'.
  destruct (rows_in_input_order ejemplo_parse ejemplo_repr ejemplo_bind
              _ _ _ _ _ _ ejemplo_plantilla _ Hloop Hgen)
    as (_ & Hrows & _).
  split_and!; [exact Hloop | exact Hgen | reflexivity | exact Hrows |].
  injection Hcells as -> -> -> -> ->. reflexivity.
Defined.

(** C9 on the sample run. *)
Lemma report_file_is_new_witness :
  let e := ejemplo_entorno (JList escenario_A) in
  valid_datetime (clock e)
  ∧ nuevo_archivo e =
      ("/srv/reporte",
       "Reporte de estatus de unidades 2024-03-07_09-05-30.xlsx")
  ∧ nuevo_archivo e ≠ plantilla_path e
  ∧ dt_second (clock e) = dt_second (clock e)
  ∧ ∃ out w', main ejemplo_parse ejemplo_repr ejemplo_bind e ejemplo_mundo
              = (out, w')
      ∧ files w' !! plantilla_path e = Some ejemplo_plantilla.
Proof.
  intros e.
  assert (Hv : valid_datetime (clock e)).
  { unfold valid_datetime. simpl. lia. }
  destruct (report_file_is_new ejemplo_parse ejemplo_repr ejemplo_bind e)
    as (Hne & _ & Hinj & _ & Hframe).
  split_and!.
  - exact Hv.
  - reflexivity.
  - exact Hne.
  - destruct (Hinj e Hv Hv eq_refl) as (_ & _ & _ & _ & _ & H). exact H.
  - destruct (main ejemplo_parse ejemplo_repr ejemplo_bind e ejemplo_mundo)
      as [out w'] eqn:Hmain.
    exists out, w'. split; [reflexivity|].
    destruct (Hframe _ _ _ Hmain) as [-> _]. by vm_compute.
Defined.

(** C10 on the sample payload and a GPS block without an address. *)
Lemma missing_identifier_passes_witness :
  let gps := gps_con_hora "2024-03-07T08:35:30-06:00" 12 in
  obtener_ids ejemplo_tags = Ret ejemplo_ids
  ∧ py_get gps "address" (JObj []) = Ret (JObj [])
  ∧ exclusion_gate ejemplo_ids gps = Ret Pass
  ∧ reaches_motion_gates ejemplo_parse ejemplo_ids ejemplo_now
      (unidad_con_hora "U8" "2024-03-07T08:35:30-06:00" 12) gps
  ∧ ∀ k, k ∈ ejemplo_ids → ∃ s, k = HStr s ∧ s ≠ "".
Proof.
  intros gps.
  pose proof ejemplo_ids_built as Hids.
  destruct (missing_identifier_passes ejemplo_parse ejemplo_tags ejemplo_ids
              ejemplo_now
              (unidad_con_hora "U8" "2024-03-07T08:35:30-06:00" 12) gps
              (JObj []) Hids eq_refl eq_refl)
    as (_ & Hstr & _ & Hgate & Hreach).
  split_and!.
  - exact Hids.
  - reflexivity.
  - exact Hgate.
  - apply Hreach; [reflexivity | by vm_compute].
  - apply Hstr. intros r j items a k [= <-] [= <-] [= <-] Ha.
    rewrite !elem_of_cons, elem_of_nil in Ha.
    destruct Ha as [-> | [-> | []]]; simpl; [|discriminate].
    intros [= <-]. by exists "X1".
Defined.

(** ** The further properties on the sample run *)

(** X1 on two recipients and on an unset variable. *)
Lemma destinos_split_witness :
  destinos_de (Some "521,522") = ["521"; "522"]
  ∧ String.concat "," (destinos_de (Some "521,522")) = "521,522"
  ∧ length (destinos_de (Some "521,522")) = 2
  ∧ destinos_de None = [""].
Proof.
  destruct (destinos_split (Some "521,522")) as (_ & Hcat & _ & Hlen & _).
  destruct (destinos_split None) as (_ & _ & _ & _ & Hempty).
  split_and!; [reflexivity | exact Hcat | exact Hlen | exact (Hempty eq_refl)].
Defined.

(** X2 on the report of the sample run. *)
Lemma report_basename_witness :
  let e := ejemplo_envio ["5215500000000"] true true in
  valid_datetime (clock e)
  ∧ basename (path_str (nuevo_archivo e))
    = "Reporte de estatus de unidades 2024-03-07_09-05-30.xlsx"
  ∧ basename (path_str ("/srv/reporte", "Plantilla.xlsx")) = "Plantilla.xlsx".
Proof.
  intros e.
  assert (Hv : valid_datetime (clock e)).
  { unfold valid_datetime. simpl. lia. }
  destruct (report_basename e) as [Hname Hrep].
  split_and!; [exact Hv | exact (Hrep Hv) | exact (Hname "/srv/reporte" "Plantilla.xlsx" eq_refl)].
Defined.

(** X3 on the saved report of the sample run. *)
Lemma subir_media_spec_witness :
  ∃ w', subir_media ejemplo_repr ejemplo_api ejemplo_guardado ejemplo_reporte
        = (Some (JStr "m1"),
           (w', [PostMedia
                   "Reporte de estatus de unidades 2024-03-07_09-05-30.xlsx"
                   ejemplo_plantilla]))
    ∧ files w' = files ejemplo_guardado.1
    ∧ logged w' = [(INFO, "Media subido, media_id: m1")].
Proof.
  pose proof (subir_media_spec ejemplo_repr ejemplo_api ejemplo_guardado
                ejemplo_reporte) as H.
  assert (Hf : files ejemplo_guardado.1 !! ejemplo_reporte
               = Some ejemplo_plantilla) by (vm_compute; reflexivity).
  rewrite Hf in H. cbv zeta in H.
  destruct H as (w' & Heq & Hfiles & _ & _ & Hlog).
  exists w'. split_and!; [exact Heq | exact Hfiles | exact Hlog].
Defined.

(** X4 on a message to a recipient that is served and to one that is
    refused. *)
Lemma enviar_template_spec_witness :
  let enviar to :=
    enviar_template ejemplo_repr ejemplo_api ejemplo_guardado (JStr "m1") to
      ejemplo_reporte in
  (enviar "521").1 = Some tt
  ∧ whatsapps (enviar "521").2.1
    = [("521", "Reporte de estatus de unidades 2024-03-07_09-05-30.xlsx")]
  ∧ logged (enviar "521").2.1
    = [(INFO, "Template enviado a 521, message ID: w1")]
  ∧ length (enviar "521").2.2 = 1
  ∧ (enviar "0").1 = None
  ∧ (enviar "0").2.1 = ejemplo_guardado.1
  ∧ length (enviar "0").2.2 = 1.
Proof.
  intros enviar.
  destruct (enviar_template_spec ejemplo_repr ejemplo_api ejemplo_guardado
              (JStr "m1") "521" ejemplo_reporte) as (Ht & _ & _ & Hok).
  destruct (enviar_template_spec ejemplo_repr ejemplo_api ejemplo_guardado
              (JStr "m1") "0" ejemplo_reporte) as (Ht0 & _ & _ & Hbad).
  destruct Hok as (H1 & H2 & H3). destruct Hbad as (H4 & H5).
  split_and!; [exact H1 | exact H2 | exact H3 | | exact H4 | exact H5 |].
  - unfold enviar. rewrite Ht. reflexivity.
  - unfold enviar. rewrite Ht0. reflexivity.
Defined.



(** X7 on a run whose only recipient is refused: the report stays on
    the disk, mailed once. *)
Lemma exit_keeps_report_witness :
  let e := ejemplo_envio ["0"] true true in
  let out := main_http ejemplo_parse ejemplo_repr ejemplo_bind ejemplo_api e
               ejemplo_mundo in
  out.1 = Exit 1
  ∧ ((files out.2.1 = files ejemplo_mundo
      ∧ correos out.2.1 = correos ejemplo_mundo
      ∧ whatsapps out.2.1 = whatsapps ejemplo_mundo
      ∧ out.2.2 = [])
     ∨ ∃ report,
         files out.2.1 = <[nuevo_archivo e := report]> (files ejemplo_mundo)
         ∧ (correos out.2.1 = correos ejemplo_mundo
            ∨ correos out.2.1
              = correos ejemplo_mundo ++ [((nuevo_archivo e).2, report)]))
  ∧ length out.2.2 = 2
  ∧ length (correos out.2.1) = 1.
Proof.
  intros e out.
  assert (Hx : out.1 = Exit 1) by (vm_compute; reflexivity).
  destruct (exit_keeps_report ejemplo_parse ejemplo_repr ejemplo_bind
              ejemplo_api e ejemplo_mundo 1 Hx) as (_ & Hor).
  split_and!; [exact Hx | exact Hor | by vm_compute | by vm_compute].
Defined.

(** X8 on a run with two recipients. *)
Lemma finished_run_witness :
  let e := ejemplo_envio ["521"; "522"] true true in
  let name := "Reporte de estatus de unidades 2024-03-07_09-05-30.xlsx" in
  let out := main_http ejemplo_parse ejemplo_repr ejemplo_bind ejemplo_api e
               ejemplo_mundo in
  out.1 = Finalizado
  ∧ length out.2.2 = 2 * 2
  ∧ files out.2.1 = files ejemplo_mundo
  ∧ whatsapps out.2.1 = [("521", name); ("522", name)]
  ∧ length (correos out.2.1) = 1
  ∧ last (logged out.2.1)
    = Some (INFO, "===> Ejecución finalizada correctamente").
Proof.
  intros e name out.
  assert (Hx : out.1 = Finalizado) by (vm_compute; reflexivity).
  destruct (finished_run ejemplo_parse ejemplo_repr ejemplo_bind ejemplo_api e
              ejemplo_mundo Hx)
    as (ids & items & ws & report & _ & _ & _ & _ & Hc & Hw & Hlen & _
        & Hsame & Hlast).
  split_and!; [exact Hx | exact Hlen | | | | exact Hlast].
  - apply Hsame; [reflexivity | by vm_compute].
  - unfold out. rewrite Hw. by vm_compute.
  - unfold out. rewrite Hc. by rewrite length_app.
Defined.

(** X9 on an empty token. *)
Lemma missing_token_exits_witness :
  let out := main_http ejemplo_parse ejemplo_repr ejemplo_bind ejemplo_api
               (ejemplo_con (Some "") None) ejemplo_mundo in
  out.1 = Exit 1
  ∧ files out.2.1 = files ejemplo_mundo
  ∧ logged out.2.1
    = [(INFO, "===> Inicio de ejecución");
       (ERROR, "❌ Falta SAMSARA_API_TOKEN en variables de entorno")]
  ∧ out.2.2 = [].
Proof.
  intros out. unfold out.
  rewrite (missing_token_exits ejemplo_parse ejemplo_repr ejemplo_bind
             ejemplo_api (ejemplo_con (Some "") None) ejemplo_mundo
             (or_intror eq_refl)).
  split_and!; reflexivity.
Defined.

(** X10 on a telemetry fetch without an answer and on one that answers
    with a list. *)
Lemma vehicle_fetch_failure_exits_witness :
  let run veh :=
    main_http ejemplo_parse ejemplo_repr ejemplo_bind ejemplo_api
      (ejemplo_con (Some "token") veh) ejemplo_mundo in
  (run None).1 = Exit 1
  ∧ last (logged (run None).2.1)
    = Some (ERROR, "Error al obtener datos de vehículos")
  ∧ files (run None).2.1 = files ejemplo_mundo
  ∧ (run (Some {| status_code := 200; body := Some (JList []) |})).1 = Exit 1.
Proof.
  intros run.
  assert (Htok : ∀ veh, token_present (ejemplo_con (Some "token") veh)).
  { intros veh. exists "token". split; [reflexivity | discriminate]. }
  pose proof (vehicle_fetch_failure_exits ejemplo_parse ejemplo_repr
                ejemplo_bind ejemplo_api (ejemplo_con (Some "token") None)
                ejemplo_mundo ejemplo_ids (Htok None) ejemplo_ids_built
                (or_introl I)) as H1.
  pose proof (vehicle_fetch_failure_exits ejemplo_parse ejemplo_repr
                ejemplo_bind ejemplo_api
                (ejemplo_con (Some "token")
                   (Some {| status_code := 200; body := Some (JList []) |}))
                ejemplo_mundo ejemplo_ids (Htok _) ejemplo_ids_built) as H2.
  unfold run. rewrite H1, H2.
  - split_and!; reflexivity.
  - right. eexists _, _. split_and!; [reflexivity | reflexivity |].
    intros kv. discriminate.
Defined.

(** X11 on an answer without ["data"] and on one whose ["data"] is
    [null]. *)
Lemma vehicles_absent_or_null_witness :
  let run kv :=
    main_http ejemplo_parse ejemplo_repr ejemplo_bind ejemplo_api
      (ejemplo_con (Some "token")
         (Some {| status_code := 200; body := Some (JObj kv) |}))
      ejemplo_mundo in
  (run []).1 = Finalizado
  ∧ length (correos (run []).2.1) = 1
  ∧ run [("data", JNull)] = (Uncaught TypeError, (iniciado ejemplo_mundo, [])).
Proof.
  intros run.
  assert (Htok : ∀ veh, token_present (ejemplo_con (Some "token") veh)).
  { intros veh. exists "token". split; [reflexivity | discriminate]. }
  assert (Hst : ∀ kv, ¬ (400 ≤ status_code
                                 {| status_code := 200;
                                    body := Some (JObj kv) |} < 600))
    by (intros kv; simpl; lia).
  destruct (vehicles_absent_or_null ejemplo_parse ejemplo_repr ejemplo_bind
              ejemplo_api
              (ejemplo_con (Some "token")
                 (Some {| status_code := 200; body := Some (JObj []) |}))
              ejemplo_mundo ejemplo_ids _ []
              (Htok _) ejemplo_ids_built eq_refl (Hst _) eq_refl)
    as [Habs _].
  destruct (vehicles_absent_or_null ejemplo_parse ejemplo_repr ejemplo_bind
              ejemplo_api
              (ejemplo_con (Some "token")
                 (Some {| status_code := 200;
                          body := Some (JObj [("data", JNull)]) |}))
              ejemplo_mundo ejemplo_ids _ [("data", JNull)]
              (Htok _) ejemplo_ids_built eq_refl (Hst _) eq_refl)
    as [_ Hnull].
  unfold run. rewrite (Habs eq_refl), (Hnull eq_refl).
  split_and!; [by vm_compute | by vm_compute | reflexivity].
Defined.

(** X12 on the saved report of the sample run. *)
Lemma unset_destinos_one_recipient_witness :
  let e := ejemplo_envio (destinos_de None) true true in
  let name := "Reporte de estatus de unidades 2024-03-07_09-05-30.xlsx" in
  (enviar_whatsapps_http ejemplo_repr ejemplo_api e ejemplo_guardado
     (DESTINOS e)).2.2
  = [PostMedia name ejemplo_plantilla;
     PostMessage (payload_de ejemplo_api (JStr "m1") "" name)].
Proof.
  intros e name.
  assert (Hf : files ejemplo_guardado.1 !! nuevo_archivo e
               = Some ejemplo_plantilla) by (vm_compute; reflexivity).
  pose proof (unset_destinos_one_recipient ejemplo_repr ejemplo_api e
                ejemplo_guardado ejemplo_plantilla None Hf (or_introl eq_refl)
                eq_refl) as H.
  cbv zeta in H.
  assert (Hmid : media_id_de ejemplo_api
                   (basename (path_str (nuevo_archivo e))) ejemplo_plantilla
                 = Some (JStr "m1")) by (vm_compute; reflexivity).
  rewrite Hmid in H. rewrite H. by vm_compute.
Defined.

(** X23 on a run whose mail server fails. *)
Lemma mail_failure_blocks_whatsapp_witness :
  let e := ejemplo_envio ["521"] false true in
  let out := main_http ejemplo_parse ejemplo_repr ejemplo_bind ejemplo_api e
               ejemplo_mundo in
  out.1 ≠ Finalizado
  ∧ out.2.2 = []
  ∧ whatsapps out.2.1 = []
  ∧ correos out.2.1 = []
  ∧ out.1 = Exit 1.
Proof.
  intros e out.
  destruct (mail_failure_blocks_whatsapp ejemplo_parse ejemplo_repr
              ejemplo_bind ejemplo_api e ejemplo_mundo eq_refl)
    as (Hne & Ht & Hw & Hc).
  split_and!; [exact Hne | exact Ht | exact Hw | exact Hc | by vm_compute].
Defined.

(** X14 on a template with a merged title and a range left on row 7. *)
Lemma template_merges_kept_witness :
  merged_cells (deshacer_merges ejemplo_con_merges)
  = [ {| min_row := 1; min_col := 1; max_row := 1; max_col := 2 |} ]
  ∧ cells (deshacer_merges ejemplo_con_merges) !! (1, 2) = Some merged_cell
  ∧ cells (deshacer_merges ejemplo_con_merges) !! (7, 3) = None.
Proof.
  destruct (template_merges_kept ejemplo_con_merges) as [Hrg Hcells].
  split_and!; [exact Hrg | | by vm_compute].
  rewrite (Hcells 1 2) by (unfold start_row; lia). by vm_compute.
Defined.

(** X15 on that template and two rows. *)
Lemma report_merged_ranges_witness :
  ∃ ws', generar_excel ejemplo_bind ejemplo_con_merges ejemplo_now
           ejemplo_filas = Ret ws'
    ∧ merged_cells ws'
      = [ {| min_row := 1; min_col := 1; max_row := 1; max_col := 2 |};
          {| min_row := 7; min_col := 2; max_row := 7; max_col := 8 |};
          {| min_row := 8; min_col := 2; max_row := 8; max_col := 8 |} ].
Proof.
  assert (Hret : (fun _ => tt) <$> generar_excel ejemplo_bind
                                     ejemplo_con_merges ejemplo_now
                                     ejemplo_filas = Ret tt)
    by (vm_compute; reflexivity).
  destruct (generar_excel ejemplo_bind ejemplo_con_merges ejemplo_now
              ejemplo_filas) as [ws'|x] eqn:Hgen; [|discriminate Hret].
  exists ws'. split; [reflexivity|].
  exact (report_merged_ranges ejemplo_bind _ _ _ _ Hgen).
Defined.


(** X17 on the same report. *)
Lemma header_cells_witness :
  ∃ ws', generar_excel ejemplo_bind ejemplo_con_merges ejemplo_now
           ejemplo_filas = Ret ws'
    ∧ cell_value ws' 2 3 = JStr "2024-03-07"
    ∧ cell_value ws' 2 6 = JStr "09:05:30"
    ∧ cell_value ws' 2 8 = JStr "=COUNTA(A7:A8)"
    ∧ cell_value ws' 1 1 = JStr "Reporte"
    ∧ String.length (isoformat_date ejemplo_now) = 10.
Proof.
  assert (Hret : (fun _ => tt) <$> generar_excel ejemplo_bind
                                     ejemplo_con_merges ejemplo_now
                                     ejemplo_filas = Ret tt)
    by (vm_compute; reflexivity).
  destruct (generar_excel ejemplo_bind ejemplo_con_merges ejemplo_now
              ejemplo_filas) as [ws'|x] eqn:Hgen; [|discriminate Hret].
  exists ws'. split; [reflexivity|].
  destruct (header_cells ejemplo_bind _ _ _ _ Hgen)
    as (Hc2 & Hf2 & Hh2 & Hrest & Hlen).
  assert (Hv : valid_datetime ejemplo_now).
  { unfold valid_datetime. simpl. lia. }
  split_and!.
  - injection Hc2 as <-. reflexivity.
  - injection Hf2 as <-. reflexivity.
  - injection Hh2 as <-. reflexivity.
  - rewrite (Hrest 1 1).
    + vm_compute. reflexivity.
    + unfold start_row. lia.
    + rewrite !not_elem_of_cons. split_and!; try (intros [=]).
      apply not_elem_of_nil.
  - exact (proj1 (Hlen Hv)).
Defined.

(** X18 on the same report: two rows, counted by [=COUNTA(A7:A8)]. *)
Lemma count_formula_counts_rows_witness :
  ∃ ws', generar_excel ejemplo_bind ejemplo_con_merges ejemplo_now
           ejemplo_filas = Ret ws'
    ∧ conteo ejemplo_filas = "=COUNTA(A7:A8)"
    ∧ counta ws' 1 (Z.of_nat start_row) (last_row ejemplo_filas) = 2.
Proof.
  assert (Hret : (fun _ => tt) <$> generar_excel ejemplo_bind
                                     ejemplo_con_merges ejemplo_now
                                     ejemplo_filas = Ret tt)
    by (vm_compute; reflexivity).
  destruct (generar_excel ejemplo_bind ejemplo_con_merges ejemplo_now
              ejemplo_filas) as [ws'|x] eqn:Hgen; [|discriminate Hret].
  exists ws'. split; [reflexivity|].
  assert (Hne : ejemplo_filas ≠ []) by (intros [=]).
  destruct (count_formula_counts_rows ejemplo_bind _ _ _ _ Hgen Hne)
    as (Hfor & _ & Hcount).
  split; [exact Hfor|]. apply Hcount.
  apply Forall_cons. split; [split; [reflexivity | intros v [= <-]; reflexivity]|].
  apply Forall_cons. split; [split; [reflexivity | intros v [= <-]; reflexivity]|].
  apply Forall_nil_2.
Defined.

(** X19 on a moving record whose name is [null], written on a row
    whose unit cell the template had filled. *)
Lemma null_name_keeps_cell_witness :
  ∃ row ws',
    fila_de ejemplo_parse ejemplo_repr ejemplo_ids ejemplo_now
      (JObj ejemplo_sin_nombre) = Some row
    ∧ Unidad row = JNull
    ∧ volcar_fila ejemplo_bind ejemplo_con_merges 7 row = Ret ws'
    ∧ cell_value ws' 7 1 = JStr "pendiente".
Proof.
  set (row := {| Unidad := JNull; Ubicación := JStr "Lat: 19.5, Lon: -99.25";
                 Estatus := RUTA |}).
  assert (Hrow : fila_de ejemplo_parse ejemplo_repr ejemplo_ids ejemplo_now
                   (JObj ejemplo_sin_nombre) = Some row)
    by (vm_compute; reflexivity).
  assert (Hret : (fun _ => tt) <$> volcar_fila ejemplo_bind ejemplo_con_merges
                                     7 row = Ret tt)
    by (vm_compute; reflexivity).
  destruct (volcar_fila ejemplo_bind ejemplo_con_merges 7 row)
    as [ws'|x] eqn:Hfila; [|discriminate Hret].
  exists row, ws'.
  destruct (null_name_keeps_cell ejemplo_parse ejemplo_repr ejemplo_bind
              ejemplo_ids ejemplo_now ejemplo_sin_nombre row Hrow)
    as [Hname Hkeep].
  split_and!; [exact Hrow | reflexivity | exact Hfila |].
  rewrite (Hkeep eq_refl _ _ _ Hfila). vm_compute. reflexivity.
Defined.

(** X20 on the third record of scenario A, and on speeds that are
    [null] and [-0.0]. *)
Lemma noise_drop_values_witness :
  motion_gate (gps_de "X3" 0 false) = Ret Drop
  ∧ py_eq (JFloat (FZero true)) (JInt 0) = true
  ∧ ¬ zero_speed JNull.
Proof.
  destruct (noise_drop_values (gps_de "X3" 0 false)) as [Hzero Hdrop].
  split_and!.
  - apply Hdrop. eexists. split; [reflexivity|].
    split; [right; left; reflexivity | reflexivity].
  - apply Hzero. right. right. by exists true.
  - intros Hz. apply Hzero in Hz. discriminate Hz.
Defined.

(** X21 on a record whose GPS block is [null] and on a moving record
    whose address is [null]. *)
Lemma malformed_block_skips_record_witness :
  let paso_de kv :=
    paso ejemplo_parse ejemplo_repr ejemplo_ids ejemplo_now ([], [])
      (JObj kv) in
  paso_de ejemplo_sin_gps = Ret ([], [(ERROR, "Procesando unidad U9")])
  ∧ paso_de ejemplo_sin_direccion
    = Ret ([], [(ERROR, "Procesando unidad U10")])
  ∧ fila_de ejemplo_parse ejemplo_repr ejemplo_ids ejemplo_now
      (JObj ejemplo_sin_direccion) = None.
Proof.
  intros paso_de.
  destruct (malformed_block_skips_record ejemplo_parse ejemplo_repr
              ejemplo_ids ejemplo_now ([], []) ejemplo_sin_gps I)
    as [_ Hgps].
  assert (Hbad : bloque_invalido ejemplo_parse ejemplo_now
                   ejemplo_sin_direccion).
  { split; [reflexivity | exact I]. }
  destruct (malformed_block_skips_record ejemplo_parse ejemplo_repr
              ejemplo_ids ejemplo_now ([], []) ejemplo_sin_direccion Hbad)
    as [Hnone Hdir].
  split_and!; [exact Hgps | exact Hdir | exact Hnone].
Defined.

(** X22 on three records: one gives a row, one raises, one is noise. *)
Lemma records_are_isolated_witness :
  procesar_registros ejemplo_parse ejemplo_repr ejemplo_ids ejemplo_now
    [unidad "U4" "X4" 30 false; JObj ejemplo_sin_gps;
     unidad "U3" "X3" 0 false] ([], [])
  = (([{| Unidad := JStr "U4"; Ubicación := JStr "Lat: 19.5, Lon: -99.25";
          Estatus := RUTA |}],
      [(ERROR, "Procesando unidad U9")]), None).
Proof.
  destruct (records_are_isolated ejemplo_parse ejemplo_repr ejemplo_ids
              ejemplo_now
              [unidad "U4" "X4" 30 false; JObj ejemplo_sin_gps;
               unidad "U3" "X3" 0 false] ([], [])) as [Heq _].
  { repeat constructor; eexists; reflexivity. }
  rewrite Heq. by vm_compute.
Defined.
